(** * API bindings of the study-builder importer

    A shallow embedding of [importers/utils/api_bindings.py]: the
    request-orchestration layer (transport calls, inline error
    classification, pagination, the create/approve and
    version/patch/approve workflows, the startup checks) and the
    admission limiter of the asynchronous posts.

    Python values are JSON-shaped and dynamically typed, so the embedding
    keeps one value type [json] and lets every primitive operation return
    an [outcome] that may be a raised exception.  Effects (HTTP requests,
    log lines, metric increments, the blocking sleep) are recorded on a
    chronological trace; the backend is a function of the trace so far. *)

From Stdlib Require Import ZArith List String Ascii Bool Lia Sorted.
Import ListNotations.
Local Open Scope string_scope.
Local Open Scope Z_scope.
Set Warnings "-register-all".

(** ** Python values

    What [response.json()] can produce; [JNull] is [None].  Numbers are
    the integers (page numbers, counts and status codes are all this
    layer computes with). *)

Inductive json : Type :=
| JNull
| JBool (b : bool)
| JNum (n : Z)
| JStr (s : string)
| JArr (items : list json)
| JObj (fields : list (string * json)).

Definition dict := list (string * json).

Inductive exn : Type :=
| TypeError
| KeyError
| AttributeError
| ZeroDivisionError
| HTTPError
| ConnectionError
| JSONDecodeError
| ContentTypeError
| OverflowError.

(** What a call can end in: a value, an exception travelling to the
    caller, [sys.exit(code)], or (for the one loop whose trip count the
    backend decides) an exhausted iteration budget. *)
Inductive outcome (A : Type) : Type :=
| Ok (a : A)
| Raise (e : exn)
| Exit (code : Z)
| OutOfFuel.
Arguments Ok {A} a.
Arguments Raise {A} e.
Arguments Exit {A} code.
Arguments OutOfFuel {A}.

(** [needle in hay] on Python strings. *)
Fixpoint is_substring (needle hay : string) : bool :=
  String.prefix needle hay ||
  match hay with
  | EmptyString => false
  | String _ rest => is_substring needle rest
  end.

Definition is_str (s : string) (j : json) : bool :=
  match j with
  | JStr t => String.eqb s t
  | _ => false
  end.

Fixpoint dict_get (k : string) (d : dict) : option json :=
  match d with
  | [] => None
  | (k', v) :: rest => if String.eqb k k' then Some v else dict_get k rest
  end.

Definition dict_has (k : string) (d : dict) : bool :=
  match dict_get k d with Some _ => true | None => false end.

(** [d[k] = v]: an existing key keeps its position, a new key goes last. *)
Fixpoint dict_set (k : string) (v : json) (d : dict) : dict :=
  match d with
  | [] => [(k, v)]
  | (k', v') :: rest =>
      if String.eqb k k' then (k, v) :: rest else (k', v') :: dict_set k v rest
  end.

(** [d.update(upd)] *)
Definition dict_update (d upd : dict) : dict :=
  fold_left (fun acc kv => dict_set (fst kv) (snd kv) acc) upd d.

(** [key in container] for a string key. *)
Definition py_contains (key : string) (container : json) : outcome bool :=
  match container with
  | JStr s => Ok (is_substring key s)
  | JArr l => Ok (existsb (is_str key) l)
  | JObj d => Ok (dict_has key d)
  | _ => Raise TypeError
  end.

(** [container[key]] for a string key. *)
Definition py_getitem (container : json) (key : string) : outcome json :=
  match container with
  | JObj d => match dict_get key d with Some v => Ok v | None => Raise KeyError end
  | _ => Raise TypeError
  end.

(** [container.get(key)] *)
Definition py_get (container : json) (key : string) : outcome json :=
  match container with
  | JObj d => match dict_get key d with Some v => Ok v | None => Ok JNull end
  | _ => Raise AttributeError
  end.

Fixpoint chars_of (s : string) : list json :=
  match s with
  | EmptyString => []
  | String c rest => JStr (String c EmptyString) :: chars_of rest
  end.

(** The elements a [for] loop (or [list.extend]) draws from a value. *)
Definition py_iter (x : json) : outcome (list json) :=
  match x with
  | JArr l => Ok l
  | JObj d => Ok (map (fun kv => JStr (fst kv)) d)
  | JStr s => Ok (chars_of s)
  | _ => Raise TypeError
  end.

(** [target.extend(x)] *)
Definition py_extend (target x : json) : outcome json :=
  match target with
  | JArr l =>
      match py_iter x with
      | Ok xs => Ok (JArr (l ++ xs)%list)
      | Raise e => Raise e
      | Exit c => Exit c
      | OutOfFuel => OutOfFuel
      end
  | _ => Raise AttributeError
  end.

(** [len(x)] *)
Definition py_len (x : json) : outcome Z :=
  match x with
  | JArr l => Ok (Z.of_nat (List.length l))
  | JObj d => Ok (Z.of_nat (List.length d))
  | JStr s => Ok (Z.of_nat (String.length s))
  | _ => Raise TypeError
  end.

(** Truthiness, as [if x:] tests it. *)
Definition py_truthy (x : json) : bool :=
  match x with
  | JNull => false
  | JBool b => b
  | JNum n => negb (n =? 0)
  | JStr s => negb (String.eqb s "")
  | JArr l => match l with [] => false | _ => true end
  | JObj d => match d with [] => false | _ => true end
  end.

Definition is_none (x : json) : bool :=
  match x with JNull => true | _ => false end.

Definition as_str (x : json) : outcome string :=
  match x with JStr s => Ok s | _ => Raise TypeError end.

(** Numbers as [<], [*] and [/] take them; [bool] is a subclass of [int]. *)
Definition py_int (x : json) : outcome Z :=
  match x with
  | JNum n => Ok n
  | JBool b => Ok (if b then 1 else 0)
  | _ => Raise TypeError
  end.

(** *** [int / int] and [math.ceil]

    True division of two integers gives the double nearest to the exact
    quotient, ties going to the even mantissa, and raises OverflowError
    when that double would lie beyond the largest one.  A finite double
    is kept as the pair [(m, e)] of its value [m * 2^e]. *)

(** [num / den] rounded to the nearest integer, ties to even. *)
Definition round_half_even (num den : Z) : Z :=
  let q := num / den in
  let r := num mod den in
  if 2 * r <? den then q
  else if den <? 2 * r then q + 1
  else if Z.even q then q else q + 1.

(** The exponent of the last mantissa bit of [a / b], both positive:
    the [e] with [2^52 <= a / (b * 2^e) < 2^53], and -1074 where the
    quotient is subnormal. *)
Definition ulp_exponent (a b : Z) : Z :=
  let d := Z.log2 a - Z.log2 b in
  let below := if 0 <=? d then a <? b * 2 ^ d else a * 2 ^ (- d) <? b in
  Z.max (-1074) ((if below then d - 1 else d) - 52).

(** [a / b] for positive integers. *)
Definition true_div_pos (a b : Z) : outcome (Z * Z) :=
  let e := ulp_exponent a b in
  let m := if 0 <=? e then round_half_even a (b * 2 ^ e)
           else round_half_even (a * 2 ^ (- e)) b in
  if (971 <? e) || ((e =? 971) && (m =? 2 ^ 53)) then Raise OverflowError
  else Ok (m, e).

(** [math.ceil(a / b)] on integers: the division is the floating-point
    one, the ceiling of its result is exact. *)
Definition ceil_div (a b : Z) : outcome Z :=
  if b =? 0 then Raise ZeroDivisionError
  else if a =? 0 then Ok 0
  else
    match true_div_pos (Z.abs a) (Z.abs b) with
    | Ok (m, e) =>
        let floor := if 0 <=? e then m * 2 ^ e else m / 2 ^ (- e) in
        let ceil := if 0 <=? e then m * 2 ^ e else - ((- m) / 2 ^ (- e)) in
        Ok (if (0 <? a) && (0 <? b) || (a <? 0) && (b <? 0) then ceil else - floor)
    | Raise e => Raise e
    | Exit c => Exit c
    | OutOfFuel => OutOfFuel
    end.

(** Text is kept as its code points, one per [ascii], which covers the
    code points up to U+00FF.  [c.isdigit()] holds there of the decimal
    digits and of the superscript digits U+00B2, U+00B3 and U+00B9. *)
Definition is_digit (c : ascii) : bool :=
  let n := nat_of_ascii c in
  ((48 <=? n)%nat && (n <=? 57)%nat)
  || (n =? 178)%nat || (n =? 179)%nat || (n =? 185)%nat.

Fixpoint all_digits (s : string) : bool :=
  match s with
  | EmptyString => true
  | String c rest => is_digit c && all_digits rest
  end.

(** [s.isdigit()] *)
Definition isdigit (s : string) : bool := negb (String.eqb s "") && all_digits s.

(** ["".join([i for i in items if not i.isdigit()])] *)
Fixpoint join_non_digits (items : list json) : outcome string :=
  match items with
  | [] => Ok EmptyString
  | JStr s :: rest =>
      match join_non_digits rest with
      | Ok tail => Ok (if isdigit s then tail else s ++ tail)
      | other => other
      end
  | _ :: _ => Raise AttributeError
  end.

(** ** The world outside: requests, replies, the trace *)

Inductive method : Type := GET | POST | PATCH | DELETE.

Inductive level : Type := Debug | Info | Warning | Error | Critical.

Record request : Type := mkRequest {
  rq_method : method;
  rq_url : string;
  rq_headers : json;
  rq_params : option dict;
  rq_json : option json
}.

(** A reply body: decodable JSON, a body whose content type is not JSON,
    or a body announced as JSON that does not decode. *)
Inductive payload : Type :=
| PJson (j : json)
| PText
| PMalformed.

Record response : Type := mkResponse {
  status_code : Z;
  body : payload;
  text : string;
  reason : string
}.

Inductive event : Type :=
| EvRequest (r : request)
| EvLog (lvl : level) (fmt : string) (args : list json)
| EvMetric (key : string) (count : Z)
| EvSleep (seconds_num seconds_den : Z)
| EvFileAppend (file : string) (fmt : string) (args : list json).

Definition trace := list event.

(** The binding instance: its two fields, and the backend it talks to.
    The backend answers a request knowing everything that happened
    before it; [None] is a failure to connect. *)
Record ApiBinding : Type := mkApiBinding {
  api_base_url : string;
  api_headers : json;
  backend : trace -> request -> option response
}.

(** ** Sequencing: state (the trace) and the four outcomes *)

Definition M (A : Type) : Type := trace -> outcome A * trace.

Definition ret {A} (a : A) : M A := fun t => (Ok a, t).

Definition bind {A B} (m : M A) (k : A -> M B) : M B :=
  fun t =>
    match m t with
    | (Ok a, t') => k a t'
    | (Raise e, t') => (Raise e, t')
    | (Exit c, t') => (Exit c, t')
    | (OutOfFuel, t') => (OutOfFuel, t')
    end.

Definition obind {A B} (o : outcome A) (k : A -> outcome B) : outcome B :=
  match o with
  | Ok a => k a
  | Raise e => Raise e
  | Exit c => Exit c
  | OutOfFuel => OutOfFuel
  end.

Definition lift {A} (o : outcome A) : M A := fun t => (o, t).

Definition emit (e : event) : M unit := fun t => (Ok tt, (t ++ [e])%list).

Definition log (lvl : level) (fmt : string) (args : list json) : M unit :=
  emit (EvLog lvl fmt args).

(** [self.metrics.icrement(key, count)] *)
Definition icrement (key : string) (count : Z) : M unit :=
  emit (EvMetric key count).

Definition sys_exit {A} (code : Z) : M A := fun t => (Exit code, t).

(** [try: m  except <those e with handles e = true>: handler] *)
Definition try_except {A} (m : M A) (handles : exn -> bool) (handler : exn -> M A) : M A :=
  fun t =>
    match m t with
    | (Raise e, t') => if handles e then handler e t' else (Raise e, t')
    | r => r
    end.

Declare Scope api_scope.
Delimit Scope api_scope with api.
Notation "x <- m ;; k" := (bind m (fun x => k))
  (at level 61, m at next level, right associativity) : api_scope.
Notation "m ;; k" := (bind m (fun _ => k))
  (at level 61, right associativity) : api_scope.
Notation "x <~ o ;; k" := (obind o (fun x => k))
  (at level 61, o at next level, right associativity) : api_scope.
Local Open Scope api_scope.

(** One round trip: the request goes on the trace, the backend answers. *)
Definition send (self : ApiBinding) (r : request) : M response :=
  fun t =>
    match backend self t r with
    | Some resp => (Ok resp, (t ++ [EvRequest r])%list)
    | None => (Raise ConnectionError, (t ++ [EvRequest r])%list)
    end.

(** *** The [requests] client (synchronous calls) *)

(** [response.raise_for_status()] raises on 4xx and 5xx only. *)
Definition raises_for_status (resp : response) : bool :=
  (400 <=? status_code resp) && (status_code resp <? 600).

Definition raise_for_status (resp : response) : outcome unit :=
  if raises_for_status resp then Raise HTTPError else Ok tt.

(** [response.ok]: true unless [raise_for_status] would raise. *)
Definition requests_ok (resp : response) : bool := negb (raises_for_status resp).

(** [response.json()] *)
Definition requests_json (resp : response) : outcome json :=
  match body resp with
  | PJson j => Ok j
  | _ => Raise JSONDecodeError
  end.

(** *** The [aiohttp] client (asynchronous calls) *)

(** [response.ok] *)
Definition aiohttp_ok (resp : response) : bool := status_code resp <? 400.

(** [await response.json()] *)
Definition aiohttp_json (resp : response) : outcome json :=
  match body resp with
  | PJson j => Ok j
  | PText => Raise ContentTypeError
  | PMalformed => Raise JSONDecodeError
  end.

Definition is_exn (e e' : exn) : bool :=
  match e, e' with
  | TypeError, TypeError | KeyError, KeyError | AttributeError, AttributeError
  | ZeroDivisionError, ZeroDivisionError | HTTPError, HTTPError
  | ConnectionError, ConnectionError | JSONDecodeError, JSONDecodeError
  | ContentTypeError, ContentTypeError | OverflowError, OverflowError => true
  | _, _ => false
  end.

Definition exn_name (e : exn) : string :=
  match e with
  | TypeError => "TypeError"
  | KeyError => "KeyError"
  | AttributeError => "AttributeError"
  | ZeroDivisionError => "ZeroDivisionError"
  | HTTPError => "HTTPError"
  | ConnectionError => "ConnectionError"
  | JSONDecodeError => "JSONDecodeError"
  | ContentTypeError => "ContentTypeError"
  | OverflowError => "OverflowError"
  end.

(** [SLEEP_BEFORE_APPROVE = 0.05] seconds, kept as the fraction 5/100. *)
Definition SLEEP_BEFORE_APPROVE : Z * Z := (5, 100).

(** [time.sleep(SLEEP_BEFORE_APPROVE)]: blocks, and yields to no other task. *)
Definition time_sleep (d : Z * Z) : M unit := emit (EvSleep (fst d) (snd d)).

(** [status_ok] *)
Definition status_ok (status : Z) : bool := (200 <=? status) && (status <? 300).

(** The categories the inline classifiers route a failed post to; the
    metric key suffix is what the source writes for each. *)
Inductive category : Type := AlreadyExists | NotFound | NoObjective | Generic.

Definition category_suffix (c : category) : string :=
  match c with
  | AlreadyExists => "--AlreadyExists"
  | NotFound => "--NotFound"
  | NoObjective => "--NoObjective"
  | Generic => "--ERROR"
  end.

(** [n1 in msg or n2 in msg or ...], left to right, stopping at the
    first hit. *)
Fixpoint any_in (needles : list string) (msg : json) : outcome bool :=
  match needles with
  | [] => Ok false
  | n :: rest =>
      hit <~ py_contains n msg ;;
      if hit then Ok true else any_in rest msg
  end.

(** ["message" in body and (n1 in body["message"] or ...)] *)
Definition message_matches (needles : list string) (body : json) : outcome bool :=
  has <~ py_contains "message" body ;;
  if has then (msg <~ py_getitem body "message" ;; any_in needles msg)
  else Ok false.

(** The if/elif/else of [post_to_api] over a failed response body. *)
Definition post_to_api_category (body : json) : outcome category :=
  exists_ <~ message_matches ["already exists"; "Duplicate template"; "already has"] body ;;
  if exists_ then Ok AlreadyExists else
  missing <~ message_matches ["not found"; "does not exist"] body ;;
  if missing then Ok NotFound else Ok Generic.

(** The if/elif/else of [simple_post_to_api] over a failed response body. *)
Definition simple_post_to_api_category (body : json) : outcome category :=
  exists_ <~ message_matches
    ["already exist"; "all ready"; "Duplicate template"; "There is already"] body ;;
  if exists_ then Ok AlreadyExists else
  noobj <~ message_matches ["no approved objective"] body ;;
  if noobj then Ok NoObjective else Ok Generic.

(** [set.add(x)] needs a hashable element. *)
Definition hashable (x : json) : bool :=
  match x with
  | JArr _ | JObj _ => false
  | _ => true
  end.

(** Equality of two hashable values as dictionary keys
    ([True == 1] and [False == 0] in Python). *)
Definition key_eqb (a b : json) : bool :=
  match a, b with
  | JNull, JNull => true
  | JStr s, JStr t => String.eqb s t
  | (JBool _ | JNum _), (JBool _ | JNum _) =>
      match py_int a, py_int b with
      | Ok x, Ok y => x =? y
      | _, _ => false
      end
  | _, _ => false
  end.

(** A mapping with arbitrary hashable keys, in insertion order. *)
Definition pymap := list (json * json).

Fixpoint pymap_set (k v : json) (m : pymap) : pymap :=
  match m with
  | [] => [(k, v)]
  | (k', v') :: rest =>
      if key_eqb k k' then (k', v) :: rest else (k', v') :: pymap_set k v rest
  end.

(** What [get_all_identifiers] hands back: a list or a mapping. *)
Inductive identifiers : Type :=
| IdList (ids : list json)
| IdMap (m : pymap).

Definition mandatory_packages : list string :=
  ["ADAM CT"; "CDASH CT"; "DEFINE-XML CT"; "SDTM CT"].

Definition optional_packages : list string :=
  ["COA CT"; "GLOSSARY CT"; "PROTOCOL CT"; "QRS CT"; "QS-FT CT"; "SEND CT"].

(** [wanted - names] for a set of strings and a set of values. *)
Definition set_minus (wanted : list string) (names : list json) : list string :=
  filter (fun w => negb (existsb (is_str w) names)) wanted.

Definition strs (l : list string) : json := JArr (map JStr l).

(** ** The binding's operations *)

Section Bindings.

(** [path_join] lives in a sibling module of the importer; the binding
    only relies on it returning the joined URL. *)
Variable path_join : list json -> string.

(** Python's [repr] of a value, which [str] falls back to for anything
    that is not already a string. *)
Variable py_repr : json -> string.

Definition py_str (x : json) : string :=
  match x with
  | JStr s => s
  | _ => py_repr x
  end.

(** [get_error_message] *)
Definition get_error_message (response : json) : outcome json :=
  has_message <~ py_contains "message" response ;;
  if has_message then py_getitem response "message" else
  has_detail <~ py_contains "detail" response ;;
  if has_detail then (d <~ py_getitem response "detail" ;; Ok (JStr (py_str d)))
  else Ok (JStr (py_str response)).

Definition url_of (self : ApiBinding) (parts : list json) : string :=
  path_join (JStr (api_base_url self) :: parts).

(** [ApiBinding.verify_connection] *)
Definition verify_connection (self : ApiBinding) : M unit :=
  try_except
    (response <- send self
       (mkRequest GET (url_of self [JStr "openapi.json"]) (api_headers self) None None) ;;
     lift (raise_for_status response))
    (fun _ => true)
    (fun e =>
       log Critical "Failed to connect to backend, is it running?\nError was:\n{e}"
         [JStr (exn_name e)] ;;
       sys_exit 1).

(** The query parameters [get_all_from_api] ends up sending. *)
Definition default_page_params (params : option dict) : dict :=
  match params with
  | None => [("page_number", JNum 1); ("page_size", JNum 0)]
  | Some p =>
      let p := if dict_has "page_size" p then p else dict_set "page_size" (JNum 0) p in
      if dict_has "page_number" p then p else dict_set "page_number" (JNum 1) p
  end.

(** [ApiBinding.get_all_from_api] *)
Definition get_all_from_api (self : ApiBinding) (path : string)
    (params : option dict) (items_only : bool) : M json :=
  let params := default_page_params params in
  response <- send self
    (mkRequest GET (url_of self [JStr path]) (api_headers self) (Some params) None) ;;
  if requests_ok response then
    decoded <- try_except
      (res <- lift (requests_json response) ;; ret (Some res))
      (is_exn JSONDecodeError)
      (fun _ =>
         log Error "Failed to decode json for %s, data: %s"
           [JStr path; JStr (text response)] ;;
         ret None) ;;
    match decoded with
    | None => ret JNull
    | Some res =>
        has_items <- lift (py_contains "items" res) ;;
        if has_items && items_only then
          items <- lift (py_getitem res "items") ;;
          n <- lift (py_len items) ;;
          icrement (path ++ "--GET") n ;;
          ret items
        else ret res
    end
  else
    message <- try_except
      (lift (j <~ requests_json response ;; py_get j "message"))
      (is_exn JSONDecodeError)
      (fun _ => ret JNull) ;;
    (if negb (is_none message) then
       log Error "get %s, message: %s, status: %s %s"
         [JStr path; message; JNum (status_code response); JStr (reason response)]
     else
       log Error "get %s reply: %s status: %s %s"
         [JStr path; JStr (text response); JNum (status_code response);
          JStr (reason response)]) ;;
    ret JNull.

(** [package_names.add(package.get("catalogue_name"))] over all packages. *)
Fixpoint collect_catalogue_names (packages : list json) (names : list json)
  : outcome (list json) :=
  match packages with
  | [] => Ok names
  | package :: rest =>
      name <~ py_get package "catalogue_name" ;;
      if hashable name then collect_catalogue_names rest (names ++ [name])%list
      else Raise TypeError
  end.

(** [ApiBinding.check_for_ct_packages].  The missing names are logged in
    declaration order; Python joins them in the set's own order. *)
Definition check_for_ct_packages (self : ApiBinding) : M unit :=
  packages <- get_all_from_api self "/ct/packages" None true ;;
  package_list <- lift (py_iter packages) ;;
  package_names <- lift (collect_catalogue_names package_list []) ;;
  let missing := set_minus mandatory_packages package_names in
  if (0 <? Z.of_nat (List.length missing)) then
    log Critical
      "Missing CT packages: {','.join(missing)}.\nPlease run the clinical standards import before this tool."
      [strs missing] ;;
    sys_exit 1
  else
    let missing := set_minus optional_packages package_names in
    if (0 <? Z.of_nat (List.length missing)) then
      log Warning "Missing optional CT packages: {','.join(missing)}." [strs missing]
    else ret tt.

(** [ApiBinding.__init__], from [self.verify_connection()] on.
    [co_filename] is [inspect.currentframe().f_code.co_filename]. *)
Definition init (self : ApiBinding) (co_filename : string) : M unit :=
  verify_connection self ;;
  if negb (is_substring "db-schema-migration" co_filename)
  then check_for_ct_packages self
  else ret tt.

(** [ApiBinding.simple_post_to_api] *)
Definition simple_post_to_api (self : ApiBinding) (path : string) (body : json)
    (simple_path : option string) (params : option dict) : M json :=
  let simple_path := match simple_path with None => path | Some p => p end in
  response <- send self
    (mkRequest POST (url_of self [JStr path]) (api_headers self) params (Some body)) ;;
  if requests_ok response then
    icrement (simple_path ++ "--POST") 1 ;;
    log Debug "POST %s %s" [JStr path; JStr "success"] ;;
    lift (requests_json response)
  else
    log Debug "POST %s" [JStr path] ;;
    failure <- lift (requests_json response) ;;
    cat <- lift (simple_post_to_api_category failure) ;;
    match cat with
    | AlreadyExists | NoObjective =>
        message <- lift (py_getitem failure "message") ;;
        log Warning (py_str message) []
    | _ => log Warning (text response) []
    end ;;
    icrement (simple_path ++ category_suffix cat) 1 ;;
    ret JNull.

(** The [debug] line both branches of [post_to_api] write. *)
Definition post_to_api_debug (object : json) (fallback : string) : M unit :=
  object_body <- lift (py_getitem object "body") ;;
  named <- lift (py_contains "name" object_body) ;;
  object_path <- lift (py_getitem object "path") ;;
  if named then
    name <- lift (py_getitem object_body "name") ;;
    log Debug "POST %s %s" [object_path; name]
  else log Debug "POST %s %s" [object_path; JStr fallback].

(** [ApiBinding.post_to_api] *)
Definition post_to_api (self : ApiBinding) (object : json) (body : option json)
    (path : option json) : M json :=
  sent <-
    match path with
    | None =>
        object_path <- lift (py_getitem object "path") ;;
        object_body <- lift (py_getitem object "body") ;;
        response <- send self
          (mkRequest POST (url_of self [object_path]) (api_headers self) None
             (Some object_body)) ;;
        ret (response, object_path)
    | Some p =>
        response <- send self
          (mkRequest POST (url_of self [p]) (api_headers self) None body) ;;
        ret (response, p)
    end ;;
  let response := fst sent in
  let path := snd sent in
  short_path <- lift (chars <~ py_iter path ;; join_non_digits chars) ;;
  if requests_ok response then
    icrement (short_path ++ "--POST") 1 ;;
    post_to_api_debug object "success" ;;
    lift (requests_json response)
  else
    post_to_api_debug object "no name" ;;
    failure <- lift (requests_json response) ;;
    cat <- lift (post_to_api_category failure) ;;
    match cat with
    | AlreadyExists | NotFound =>
        message <- lift (py_getitem failure "message") ;;
        log Warning "Post to %s failed: %s" [path; message]
    | _ => log Warning "Post to %s failed: %s" [path; JStr (text response)]
    end ;;
    icrement (short_path ++ category_suffix cat) 1 ;;
    ret JNull.

(** The [while] loop of [get_all_from_api_paged].  [all_items] is the
    list object that [data["items"]] also names. *)
Fixpoint paged_loop (fuel : nat) (self : ApiBinding) (path : string)
    (page_size count nbr_pages : Z) (page_params : dict) (page_number : Z)
    (all_items : json) : M json :=
  if page_size * page_number <? count then
    match fuel with
    | O => lift OutOfFuel
    | S fuel' =>
        let page_number := page_number + 1 in
        let page_params := dict_set "page_number" (JNum page_number) page_params in
        log Info "Fetching {path}, page {page_number} of {nbr_pages}"
          [JStr path; JNum page_number; JNum nbr_pages] ;;
        additional_data <- get_all_from_api self path (Some page_params) true ;;
        all_items <- lift (py_extend all_items additional_data) ;;
        paged_loop fuel' self path page_size count nbr_pages page_params page_number
          all_items
    end
  else ret all_items.

(** [ApiBinding.get_all_from_api_paged].  [fuel] bounds the number of
    loop iterations the model follows. *)
Definition get_all_from_api_paged (fuel : nat) (self : ApiBinding) (path : string)
    (params : option dict) (items_only : bool) (page_size : Z) : M json :=
  let page_number := 1 in
  let page_params :=
    [("page_number", JNum page_number); ("page_size", JNum page_size);
     ("total_count", JBool true)] in
  let page_params :=
    match params with
    | Some p => dict_update page_params p
    | None => page_params
    end in
  log Info "Fetching {path}, page size: {page_size}" [JStr path; JNum page_size] ;;
  data <- get_all_from_api self path (Some page_params) false ;;
  all_items <- lift (py_getitem data "items") ;;
  total <- lift (py_getitem data "total") ;;
  count <- lift (py_int total) ;;
  nbr_pages <- lift (ceil_div count page_size) ;;
  let page_params := dict_set "total_count" (JBool false) page_params in
  all_items <- paged_loop fuel self path page_size count nbr_pages page_params
    page_number all_items ;;
  if items_only then ret all_items
  else
    match data with
    | JObj d => ret (JObj (dict_set "items" all_items d))
    | _ => ret data
    end.

(** The list-mode loop of [get_all_identifiers]. *)
Fixpoint identifier_list (items : list json) (identifier : string)
  : outcome (list json) :=
  match items with
  | [] => Ok []
  | response_item :: rest =>
      id <~ py_getitem response_item identifier ;;
      ids <~ identifier_list rest identifier ;;
      Ok (id :: ids)
  end.

(** The mapping-mode loop of [get_all_identifiers]. *)
Fixpoint identifier_map (items : list json) (identifier value : string)
    (identifiers : pymap) : outcome pymap :=
  match items with
  | [] => Ok identifiers
  | response_item :: rest =>
      v <~ py_getitem response_item value ;;
      k <~ py_getitem response_item identifier ;;
      if hashable k then identifier_map rest identifier value (pymap_set k v identifiers)
      else Raise TypeError
  end.

(** [ApiBinding.get_all_identifiers]; [responses = JNull] is [None]. *)
Definition get_all_identifiers (responses : json) (identifier : string)
    (value : option string) : outcome identifiers :=
  match value with
  | None =>
      items <~ py_iter responses ;;
      ids <~ identifier_list items identifier ;;
      Ok (IdList ids)
  | Some value =>
      let identifiers := [] in
      if is_none responses then Ok (IdMap identifiers)
      else
        items <~ py_iter responses ;;
        m <~ identifier_map items identifier value identifiers ;;
        Ok (IdMap m)
  end.

(** [[lib["name"] for lib in libs]] *)
Fixpoint names_of (libs : list json) : outcome (list json) :=
  match libs with
  | [] => Ok []
  | lib :: rest =>
      name <~ py_getitem lib "name" ;;
      names <~ names_of rest ;;
      Ok (name :: names)
  end.

(** [ApiBinding.get_libraries] *)
Definition get_libraries (self : ApiBinding) : M json :=
  response <- send self
    (mkRequest GET (url_of self [JStr "libraries"]) (api_headers self) None None) ;;
  lift (raise_for_status response) ;;
  libs <- lift (requests_json response) ;;
  lib_names <- lift (items <~ py_iter libs ;; names_of items) ;;
  log Info "Existing libraries: %s" [JArr lib_names] ;;
  ret (JArr lib_names).

(** [ApiBinding.create_library] *)
Definition create_library (self : ApiBinding) (object : json) : M json :=
  icrement "/libraries" 1 ;;
  response <- send self
    (mkRequest POST (url_of self [JStr "libraries"]) (api_headers self) None
       (Some object)) ;;
  lift (raise_for_status response) ;;
  ret JNull.

(** *** Asynchronous building blocks

    One workflow is followed from start to end here; how several of them
    interleave at their [await] points is the subject of [Gate] below. *)

(** The [try: result = await response.json()  except ContentTypeError]
    shared by the new-version, patch and post blocks. *)
Definition json_or_empty (response : response) (what : string) (path : json) : M json :=
  try_except
    (lift (aiohttp_json response))
    (is_exn ContentTypeError)
    (fun _ =>
       log Error what [path; JNum (status_code response); JStr (text response)] ;;
       ret (JObj [])).

(** [ApiBinding.new_version_to_api_async] *)
Definition new_version_to_api_async (self : ApiBinding) (path : json) : M (Z * json) :=
  response <- send self
    (mkRequest POST (url_of self [path]) (api_headers self) None (Some (JObj []))) ;;
  let status := status_code response in
  result <- json_or_empty response
    "Failed to post to '{path}', status: {status}, message: {textresult}" path ;;
  ret (status, result).

(** [ApiBinding.patch_to_api_async] *)
Definition patch_to_api_async (self : ApiBinding) (path : json) (body : json)
  : M (Z * json) :=
  response <- send self
    (mkRequest PATCH (url_of self [path]) (api_headers self) None (Some body)) ;;
  let status := status_code response in
  result <- json_or_empty response
    "Failed to patch to '{path}', status: {status}, message: {textresult}" path ;;
  ret (status, result).

(** [ApiBinding.post_to_api_async].  The body runs inside
    [async with self.sem]. *)
Definition post_to_api_async (self : ApiBinding) (url : json) (body : json)
    (logfile_name : option string) : M (Z * json) :=
  response <- send self
    (mkRequest POST (url_of self [url]) (api_headers self) None (Some body)) ;;
  let status := status_code response in
  result <- try_except
    (result <- lift (aiohttp_json response) ;;
     match logfile_name with
     | Some file =>
         if negb (String.eqb file "") && negb ((status =? 200) || (status =? 201)) then
           has_message <- lift (py_contains "message" result) ;;
           message <- lift (if has_message then py_getitem result "message"
                            else py_getitem result "detail") ;;
           emit (EvFileAppend file
                   "Failed to post to '{url}', status: {status}, message: {message}, body: {body}\n"
                   [url; JNum status; message; body]) ;;
           ret result
         else ret result
     | None => ret result
     end)
    (is_exn ContentTypeError)
    (fun _ =>
       log Error "Failed to post to '{url}', status: {status}, message: {textresult}"
         [url; JNum status; JStr (text response)] ;;
       ret (JObj [])) ;;
  ret (status, result).

(** [ApiBinding.approve_item_async] *)
Definition approve_item_async (self : ApiBinding) (uid : json) (url : json)
  : M (Z * json) :=
  let url := url_of self [url; uid; JStr "approvals"] in
  response <- send self (mkRequest POST url (api_headers self) None (Some (JObj []))) ;;
  let status := status_code response in
  result <-
    (if aiohttp_ok response then lift (aiohttp_json response)
     else
       error_message <- try_except
         (lift (error_result <~ aiohttp_json response ;; get_error_message error_result))
         (is_exn ContentTypeError)
         (fun _ => ret (JStr (text response))) ;;
       log Warning "Failed to approve {url}, status: {status}, message: {error_message}"
         [JStr url; JNum status; error_message] ;;
       ret (JObj [])) ;;
  (if negb (aiohttp_ok response) then icrement (url ++ "--ApproveError") 1
   else icrement (url ++ "--Approve") 1) ;;
  ret (status, result).

(** The name [post_then_approve] puts in its failure line. *)
Definition failed_post_name (data_body : json) : outcome json :=
  has_name <~ py_contains "name" data_body ;;
  if has_name then py_getitem data_body "name" else
  has_term <~ py_contains "term_uid" data_body ;;
  if has_term then py_getitem data_body "term_uid"
  else Ok (JStr (py_str data_body)).

(** [ApiBinding.post_then_approve]; a bare [return] is [JNull]. *)
Definition post_then_approve (self : ApiBinding) (data : json) (approve : bool)
  : M json :=
  data_path <- lift (py_getitem data "path") ;;
  log Debug "Post to {data['path']}" [data_path] ;;
  url <- lift (py_getitem data "path") ;;
  data_body <- lift (py_getitem data "body") ;;
  posted <- post_to_api_async self url data_body None ;;
  let status := fst posted in
  let response := snd posted in
  if 400 <=? status then
    has_message <- lift (py_contains "message" response) ;;
    errormsg <- lift (if has_message then py_getitem response "message"
                      else Ok (JStr (py_str response))) ;;
    data_body <- lift (py_getitem data "body") ;;
    name <- lift (failed_post_name data_body) ;;
    data_path <- lift (py_getitem data "path") ;;
    log Error "Failed to post '{name}' to '{data['path']}', error: {errormsg}"
      [name; data_path; errormsg] ;;
    ret JNull
  else
    uid <- lift (py_get response "uid") ;;
    if approve && negb (is_none uid) then
      time_sleep SLEEP_BEFORE_APPROVE ;;
      log Info "Approve object with uid '{uid}'" [uid] ;;
      approve_path <- lift (py_getitem data "approve_path") ;;
      approved <- approve_item_async self uid approve_path ;;
      ret (snd approved)
    else
      (if approve && is_none uid
       then log Error "No uid returned, unable to approve" []
       else ret tt) ;;
      ret response.

Definition NEW_DRAFT_ONLY_FOR_FINAL : string :=
  "New draft version can be created only for FINAL versions".

(** [ApiBinding.new_version_patch_then_approve], first half: the version
    request and the reading of its failure.  [false] is the early
    [return] after "Failed to create new version". *)
Definition new_version_step (self : ApiBinding) (data : json) : M bool :=
  new_path <- lift (py_getitem data "new_path") ;;
  versioned <- new_version_to_api_async self new_path ;;
  if negb (status_ok (fst versioned)) then
    error_msg <- lift (get_error_message (snd versioned)) ;;
    already_draft <- lift (py_contains NEW_DRAFT_ONLY_FOR_FINAL error_msg) ;;
    if already_draft then
      log Warning "Failed to create new version, item is already in DRAFT" [] ;;
      ret true
    else
      log Error "Failed to create new version: {error_msg}" [error_msg] ;;
      ret false
  else ret true.

(** [ApiBinding.new_version_patch_then_approve], second half: the patch
    request, and the approval when it is asked for.  Falling off the
    end, like a bare [return], is [JNull]. *)
Definition patch_and_approve_steps (self : ApiBinding) (data : json) (approve : bool)
  : M json :=
  patch_path <- lift (py_getitem data "patch_path") ;;
  data_body <- lift (py_getitem data "body") ;;
  patched <- patch_to_api_async self patch_path data_body ;;
  let response := snd patched in
  if negb (status_ok (fst patched)) then
    message <- lift (get_error_message response) ;;
    log Error "Failed to patch: {get_error_message(response)}" [message] ;;
    ret JNull
  else
    uid <- lift (py_get response "uid") ;;
    if approve && negb (is_none uid) then
      time_sleep SLEEP_BEFORE_APPROVE ;;
      uid_again <- lift (py_get response "uid") ;;
      approve_path <- lift (py_getitem data "approve_path") ;;
      approved <- approve_item_async self uid_again approve_path ;;
      (if negb (status_ok (fst approved))
       then log Error "Failed to approve the new version of: {uid}" [uid]
       else ret tt) ;;
      ret response
    else
      (if approve
       then log Error "No uid returned, unable to approve the new version" []
       else ret tt) ;;
      ret JNull.

(** [ApiBinding.new_version_patch_then_approve] *)
Definition new_version_patch_then_approve (self : ApiBinding) (data : json)
    (approve : bool) : M json :=
  proceed <- new_version_step self data ;;
  if negb proceed then ret JNull
  else patch_and_approve_steps self data approve.

End Bindings.

(** ** The rest of the binding

    The synchronous helpers around the operations above, the dictionary
    builders and the second paginated reader. *)

(** [key in container.keys()] *)
Definition py_keys_contains (key : string) (container : json) : outcome bool :=
  match container with
  | JObj d => Ok (dict_has key d)
  | _ => Raise AttributeError
  end.

(** [target += x] *)
Definition py_iadd (target x : json) : outcome json :=
  match target with
  | JArr _ => py_extend target x
  | JStr a => match x with JStr b => Ok (JStr (a ++ b)) | _ => Raise TypeError end
  | JNum _ | JBool _ =>
      match x with
      | JNum _ | JBool _ =>
          match py_int target, py_int x with
          | Ok a, Ok b => Ok (JNum (a + b))
          | _, _ => Raise TypeError
          end
      | _ => Raise TypeError
      end
  | _ => Raise TypeError
  end.

(** [x[0]] for an [x] whose [len] is already known to be positive. *)
Definition py_first (x : json) : outcome json :=
  match x with
  | JArr (first :: _) => Ok first
  | JStr (String c _) => Ok (JStr (String c EmptyString))
  | JObj _ => Raise KeyError
  | _ => Raise TypeError
  end.

(** The double quote character, as a string. *)
Definition dquote : string := String (ascii_of_nat 34) EmptyString.

(** [CODELIST_NAME_MAP] *)
Definition CODELIST_NAME_MAP : list (string * string) :=
  [("Study Type", "C99077");
   ("Trial Indication Type", "C66736");
   ("Trial Type", "C66739");
   ("Trial Phase", "C66737");
   ("Intervention Type", "C99078");
   ("Control Type", "C66785");
   ("Intervention Model", "C99076");
   ("Trial Blinding Schema", "C66735");
   ("Age Unit", "C66781");
   ("Route of Administration", "C66729");
   ("Pharmaceutical Dosage Form", "C66726");
   ("Frequency", "C71113");
   ("SDTM Domain Abbreviation", "C66734");
   ("Unit", "C71620");
   ("Sex of Participants", "C66732")].

Fixpoint codelist_uid_of (name : string) (table : list (string * string))
  : option string :=
  match table with
  | [] => None
  | (k, v) :: rest => if String.eqb name k then Some v else codelist_uid_of name rest
  end.

(** The groups [get_all_identifiers_multiple] builds: lower-cased
    identifier to the list of value dictionaries found under it. *)
Definition groups := list (string * list json).

(** [if ident not in identifiers: identifiers[ident] = []], then
    [identifiers[ident].append(x)]. *)
Fixpoint group_append (ident : string) (x : json) (g : groups) : groups :=
  match g with
  | [] => [(ident, [x])]
  | (k, l) :: rest =>
      if String.eqb ident k then (k, (l ++ [x])%list) :: rest
      else (k, l) :: group_append ident x rest
  end.

Definition groups_json (g : groups) : json :=
  JObj (map (fun kl => (fst kl, JArr (snd kl))) g).

(** [requested_values[value] = response_item[value]] for each value. *)
Fixpoint requested_values (values : list string) (response_item : json) (acc : dict)
  : outcome dict :=
  match values with
  | [] => Ok acc
  | value :: rest =>
      x <~ py_getitem response_item value ;;
      requested_values rest response_item (dict_set value x acc)
  end.

(** The loop of [response_to_dict]. *)
Fixpoint items_by_identifier (items : list json) (identifier : string) (acc : pymap)
  : outcome pymap :=
  match items with
  | [] => Ok acc
  | response_item :: rest =>
      k <~ py_getitem response_item identifier ;;
      if hashable k then items_by_identifier rest identifier (pymap_set k response_item acc)
      else Raise TypeError
  end.

(** [ApiBinding.response_to_dict] *)
Definition response_to_dict (responses : json) (identifier : string) : outcome pymap :=
  let items := [] in
  if is_none responses then Ok items
  else
    l <~ py_iter responses ;;
    items_by_identifier l identifier items.

(** The loops that key each listed item by one of its fields:
    [d[key_of(res)] = value_of(res)]. *)
Fixpoint keyed_by (key_of value_of : json -> outcome json) (items : list json)
    (acc : pymap) : outcome pymap :=
  match items with
  | [] => Ok acc
  | res :: rest =>
      v <~ value_of res ;;
      k <~ key_of res ;;
      if hashable k then keyed_by key_of value_of rest (pymap_set k v acc)
      else Raise TypeError
  end.

Section MoreBindings.

Variable path_join : list json -> string.
Variable py_repr : json -> string.

(** Python's [str.lower] and [json.dumps]. *)
Variable py_lower : string -> string.
Variable json_dumps : json -> string.

(** [response.content]: the body as the bytes received, which [response]
    keeps only in decoded form. *)
Variable content : response -> json.

(** [ApiBinding.update_headers] *)
Definition update_headers (self : ApiBinding) (api_headers : json) : ApiBinding :=
  mkApiBinding (api_base_url self) api_headers (backend self).

(** [ApiBinding.simple_delete] *)
Definition simple_delete (self : ApiBinding) (path : string)
    (simple_path : option string) : M json :=
  let simple_path := match simple_path with None => path | Some p => p end in
  response <- send self
    (mkRequest DELETE (url_of path_join self [JStr path]) (api_headers self) None None) ;;
  if requests_ok response then
    icrement (simple_path ++ "--DELETE") 1 ;;
    log Debug "DELETE %s %s" [JStr path; JStr "success"] ;;
    ret (JBool true)
  else
    log Debug "DELETE %s" [JStr path] ;;
    log Warning (text response) [] ;;
    icrement (simple_path ++ "--ERROR") 1 ;;
    ret (JBool false).

(** [ApiBinding.patch_to_api] *)
Definition patch_to_api (self : ApiBinding) (body : json) (path : string) : M json :=
  uid <- lift (py_getitem body "uid") ;;
  let url := url_of path_join self [JStr path; uid] in
  response <- send self (mkRequest PATCH url (api_headers self) None (Some body)) ;;
  if requests_ok response then
    icrement (path ++ "--Patch") 1 ;;
    log Info "Patch %s %s" [JStr path; JStr "success"] ;;
    lift (requests_json response)
  else
    log Warning "Patch %s %s" [JStr path; JStr "error"] ;;
    failure <- lift (requests_json response) ;;
    has_message <- lift (py_keys_contains "message" failure) ;;
    exists_ <-
      (if has_message
       then lift (message <~ py_getitem failure "message" ;;
                  py_contains "already exists" message)
       else ret false) ;;
    (if exists_ then
       message <- lift (py_getitem failure "message") ;;
       log Warning (py_str py_repr message) [] ;;
       icrement (path ++ "--AlreadyExists") 1
     else
       log Warning (text response) [] ;;
       icrement (path ++ "--Patch-ERROR") 1) ;;
    ret JNull.

(** [ApiBinding.simple_patch] *)
Definition simple_patch (self : ApiBinding) (body : json) (url path : string) : M json :=
  let full_url := url_of path_join self [JStr url] in
  response <- send self (mkRequest PATCH full_url (api_headers self) None (Some body)) ;;
  if requests_ok response then
    icrement (path ++ "--Patch") 1 ;;
    log Info "Patch %s %s" [JStr path; JStr "success"] ;;
    lift (requests_json response)
  else
    failure <- lift (requests_json response) ;;
    has_message <- lift (py_keys_contains "message" failure) ;;
    exists_ <-
      (if has_message
       then lift (message <~ py_getitem failure "message" ;;
                  py_contains "already exists" message)
       else ret false) ;;
    (if exists_ then
       log Warning "Patch %s %s" [JStr url; JStr "error, item already exists"] ;;
       icrement (path ++ "--AlreadyExists") 1
     else
       failure <- lift (requests_json response) ;;
       has_message <- lift (py_keys_contains "message" failure) ;;
       missing <-
         (if has_message
          then lift (message <~ py_getitem failure "message" ;;
                     py_contains "does not exist" message)
          else ret false) ;;
       if missing then
         log Warning "Patch %s %s" [JStr url; JStr "error, item not found"] ;;
         icrement (path ++ "--NotFound") 1
       else
         log Warning "Patch %s %s" [JStr url; JStr (text response)] ;;
         icrement (path ++ "--Patch-ERROR") 1) ;;
    ret JNull.

(** [ApiBinding.approve_item] *)
Definition approve_item (self : ApiBinding) (uid url : string) : M json :=
  let full_url := url_of path_join self [JStr url; JStr uid; JStr "approvals"] in
  response <- send self (mkRequest POST full_url (api_headers self) None None) ;;
  if negb (requests_ok response) then
    log Warning "Failed to approve %s %s" [JStr uid; content response] ;;
    ret JNull
  else lift (requests_json response).

(** [ApiBinding.approve_item_names_and_attributes] *)
Definition approve_item_names_and_attributes (self : ApiBinding) (uid url : string)
  : M json :=
  let full_url := url_of path_join self [JStr url; JStr uid; JStr "names/approvals"] in
  response <- send self (mkRequest POST full_url (api_headers self) None None) ;;
  if negb (requests_ok response) then
    log Warning "Failed to approve names %s %s" [JStr uid; content response] ;;
    ret (JBool false)
  else
    let full_url :=
      url_of path_join self [JStr url; JStr uid; JStr "attributes/approvals"] in
    response <- send self (mkRequest POST full_url (api_headers self) None None) ;;
    if negb (requests_ok response) then
      log Warning "Failed to approve attributes %s %s" [JStr uid; content response] ;;
      ret (JBool false)
    else ret (JBool true).

(** [ApiBinding.simple_approve] *)
Definition simple_approve (self : ApiBinding) (path : string) : M json :=
  let path := url_of path_join self [JStr path] in
  res <- send self (mkRequest POST path (api_headers self) None None) ;;
  if negb (requests_ok res) then
    log Warning "Failed to approve %s" [JStr path] ;;
    ret (JBool false)
  else ret (JBool true).

(** [ApiBinding.simple_approve2] *)
Definition simple_approve2 (self : ApiBinding) (url path label : string) : M json :=
  let url := path_join [JStr url; JStr path] in
  res <- send self
    (mkRequest POST (url_of path_join self [JStr url]) (api_headers self) None None) ;;
  if negb (requests_ok res) then
    log Warning "Failed to approve %s" [JStr url] ;;
    icrement (url ++ "--" ++ label ++ "ApproveError") 1 ;;
    ret (JBool false)
  else
    icrement (url ++ "--" ++ label ++ "Approve") 1 ;;
    ret (JBool true).

(** The loop of [get_all_identifiers_multiple]. *)
Fixpoint collect_groups (items : list json) (identifier : string)
    (values : list string) (identifiers : groups) : outcome groups :=
  match items with
  | [] => Ok identifiers
  | response_item :: rest =>
      raw <~ py_getitem response_item identifier ;;
      match raw with
      | JStr s =>
          let ident := py_lower s in
          requested <~ requested_values values response_item [] ;;
          collect_groups rest identifier values
            (group_append ident (JObj requested) identifiers)
      | _ => Raise AttributeError
      end
  end.

(** [ApiBinding.get_all_identifiers_multiple] *)
Definition get_all_identifiers_multiple (responses : json) (identifier : string)
    (values : list string) : outcome json :=
  let identifiers := [] in
  if is_none responses then Ok (groups_json identifiers)
  else
    items <~ py_iter responses ;;
    g <~ collect_groups items identifier values identifiers ;;
    Ok (groups_json g).

(** The tail shared by the readers that insist on success:
    [response.raise_for_status()], then [response.json()]. *)
Definition checked_json (response : response) : M json :=
  lift (raise_for_status response) ;;
  lift (requests_json response).

(** [ApiBinding.get_terms_for_codelist_name] *)
Definition get_terms_for_codelist_name (self : ApiBinding) (codelist_name : string)
  : M json :=
  let params : dict :=
    match codelist_uid_of codelist_name CODELIST_NAME_MAP with
    | Some uid =>
        [("codelist_uid", JStr uid); ("page_number", JNum 1); ("page_size", JNum 0)]
    | None =>
        [("codelist_name", JStr codelist_name); ("page_number", JNum 1);
         ("page_size", JNum 0)]
    end in
  response <- send self
    (mkRequest GET (url_of path_join self [JStr "ct/terms"]) (api_headers self)
       (Some params) None) ;;
  result <- checked_json response ;;
  lift (py_getitem result "items").

(** [ApiBinding.get_terms_for_codelist_uid] *)
Definition get_terms_for_codelist_uid (self : ApiBinding) (codelist_uid : string)
  : M json :=
  response <- send self
    (mkRequest GET (url_of path_join self [JStr "ct/terms"]) (api_headers self)
       (@Some dict [("codelist_uid", JStr codelist_uid); ("page_number", JNum 1);
                    ("page_size", JNum 0)]) None) ;;
  result <- checked_json response ;;
  lift (py_getitem result "items").

(** [ApiBinding.get_filtered_terms]; the URL is a plain concatenation. *)
Definition get_filtered_terms (self : ApiBinding) (filters : json) : M json :=
  let filters := json_dumps filters in
  response <- send self
    (mkRequest GET (api_base_url self ++ "/ct/terms/attributes") (api_headers self)
       (@Some dict [("page_number", JNum 1); ("page_size", JNum 0);
                    ("filters", JStr filters)]) None) ;;
  result <- checked_json response ;;
  lift (py_getitem result "items").

Definition eq_filter (v : string) : json :=
  JObj [("v", JArr [JStr v]); ("op", JStr "eq")].

Definition truthy_str (s : option string) : option string :=
  match s with
  | Some v => if String.eqb v "" then None else Some v
  | None => None
  end.

(** The [filters_dict] of [lookup_terms_from_concept_id]. *)
Definition concept_filters (concept_id : string)
    (catalogue_name code_submission_value : option string) : dict :=
  let filters_dict := [("concept_id", eq_filter concept_id)] in
  let filters_dict :=
    match truthy_str catalogue_name with
    | Some c => dict_set "catalogue_name" (eq_filter c) filters_dict
    | None => filters_dict
    end in
  match truthy_str code_submission_value with
  | Some c => dict_set "code_submission_value" (eq_filter c) filters_dict
  | None => filters_dict
  end.

(** [ApiBinding.lookup_terms_from_concept_id] *)
Definition lookup_terms_from_concept_id (self : ApiBinding) (concept_id : string)
    (catalogue_name code_submission_value : option string) : M json :=
  let filters :=
    json_dumps (JObj (concept_filters concept_id catalogue_name code_submission_value)) in
  response <- send self
    (mkRequest GET (api_base_url self ++ "/ct/terms/attributes") (api_headers self)
       (@Some dict [("library_name", JStr "CDISC"); ("page_number", JNum 1);
                    ("page_size", JNum 0); ("filters", JStr filters)]) None) ;;
  result <- checked_json response ;;
  lift (py_getitem result "items").

(** [ApiBinding.get_code_lists_uids] *)
Definition get_code_lists_uids (self : ApiBinding) : M pymap :=
  response <- send self
    (mkRequest GET
       (url_of path_join self [JStr "ct/codelists/names?page_number=1&page_size=0"])
       (api_headers self) None None) ;;
  result <- checked_json response ;;
  items <- lift (l <~ py_getitem result "items" ;; py_iter l) ;;
  lift (keyed_by (fun res => py_getitem res "name")
          (fun res => py_getitem res "codelist_uid") items []).

(** [ApiBinding.get_study_objectives_for_study] *)
Definition get_study_objectives_for_study (self : ApiBinding) (study_uid : string)
  : M pymap :=
  response <- send self
    (mkRequest GET
       (url_of path_join self [JStr "studies"; JStr study_uid; JStr "study-objectives"])
       (api_headers self)
       (@Some dict [("page_number", JNum 1); ("page_size", JNum 0)]) None) ;;
  result <- checked_json response ;;
  items <- lift (l <~ py_getitem result "items" ;; py_iter l) ;;
  lift (keyed_by (fun res => o <~ py_getitem res "objective" ;; py_getitem o "name")
          (fun res => py_getitem res "study_objective_uid") items []).

(** [ApiBinding.get_templates_as_dict] *)
Definition get_templates_as_dict (self : ApiBinding) (path : string) : M pymap :=
  response <- send self
    (mkRequest GET (url_of path_join self [JStr path]) (api_headers self)
       (@Some dict [("page_number", JNum 1); ("page_size", JNum 0)]) None) ;;
  result <- checked_json response ;;
  result <- lift (match result with
                  | JObj _ => py_getitem result "items"
                  | _ => Ok result
                  end) ;;
  items <- lift (py_iter result) ;;
  lift (keyed_by (fun res => py_getitem res "name") (fun res => Ok res) items []).

(** [ApiBinding.get_studies_as_dict] *)
Definition get_studies_as_dict (self : ApiBinding) (path : string) : M pymap :=
  response <- send self
    (mkRequest GET (url_of path_join self [JStr path]) (api_headers self)
       (@Some dict [("page_number", JNum 1); ("page_size", JNum 0)]) None) ;;
  result <- checked_json response ;;
  items <- lift (l <~ py_getitem result "items" ;; py_iter l) ;;
  lift (keyed_by
          (fun res =>
             meta <~ py_getitem res "current_metadata" ;;
             ident <~ py_getitem meta "identification_metadata" ;;
             py_getitem ident "study_id")
          (fun res => Ok res) items []).

(** [ApiBinding.find_object_by_key] *)
Definition find_object_by_key (self : ApiBinding) (name path key : string) : M json :=
  let filters :=
    "{" ++ dquote ++ key ++ dquote ++ ":{" ++ dquote ++ "v" ++ dquote ++ ":["
    ++ dquote ++ name ++ dquote ++ "]," ++ dquote ++ "op" ++ dquote ++ ":"
    ++ dquote ++ "eq" ++ dquote ++ "}}" in
  response <- send self
    (mkRequest GET (url_of path_join self [JStr path]) (api_headers self)
       (@Some dict [("filters", JStr filters)]) None) ;;
  found <-
    (if requests_ok response then
       lift (j <~ requests_json response ;;
             items <~ py_getitem j "items" ;;
             n <~ py_len items ;;
             Ok (negb (n =? 0)))
     else ret false) ;;
  if found then
    lift (j <~ requests_json response ;;
          items <~ py_getitem j "items" ;;
          py_first items)
  else ret JNull.

(** [ApiBinding.find_dictionary_item_uid_from_name] *)
Definition find_dictionary_item_uid_from_name (self : ApiBinding)
    (dict_uid name : string) : M json :=
  response <- send self
    (mkRequest GET (url_of path_join self [JStr "dictionaries/terms"]) (api_headers self)
       (@Some dict
          [("codelist_uid", JStr dict_uid);
           ("filters",
            JStr (json_dumps (JObj [("name", JObj [("v", JArr [JStr name])])])));
           ("page_number", JNum 1); ("page_size", JNum 0)]) None) ;;
  found <-
    (if requests_ok response then
       lift (j <~ requests_json response ;;
             items <~ py_getitem j "items" ;;
             n <~ py_len items ;;
             Ok (0 <? n))
     else ret false) ;;
  if found then
    lift (j <~ requests_json response ;;
          items <~ py_getitem j "items" ;;
          first <~ py_first items ;;
          py_getitem first "term_uid")
  else ret JNull.

(** The query parameters of [get_all_activity_objects] for one page. *)
Definition activity_params (page_number : Z) (total_count : bool)
    (filters : option json) : dict :=
  let params :=
    [("page_number", JNum page_number); ("page_size", JNum 100);
     ("total_count", JBool total_count)] in
  match filters with
  | Some f => if py_truthy f then dict_set "filters" f params else params
  | None => params
  end.

Definition activity_path (object_type : string) : string :=
  "/concepts/activities/" ++ object_type.

(** The [while] loop of [get_all_activity_objects]. *)
Fixpoint activity_loop (fuel : nat) (self : ApiBinding) (object_type : string)
    (filters : option json) (count page_number : Z) (all_activity_objects : json)
  : M json :=
  if 100 * page_number <? count then
    match fuel with
    | O => lift OutOfFuel
    | S fuel' =>
        let page_number := page_number + 1 in
        let params := activity_params page_number false filters in
        log Info
          "Getting {object_type} page_number:{page_number}, page_size:{page_size}, total:{count}"
          [JStr object_type; JNum page_number; JNum 100; JNum count] ;;
        items <- get_all_from_api path_join self (activity_path object_type)
                   (Some params) true ;;
        all_activity_objects <-
          (if py_truthy items then lift (py_iadd all_activity_objects items)
           else ret all_activity_objects) ;;
        activity_loop fuel' self object_type filters count page_number
          all_activity_objects
    end
  else ret all_activity_objects.

(** [ApiBinding.get_all_activity_objects].  [fuel] bounds the number of
    loop iterations the model follows. *)
Definition get_all_activity_objects (fuel : nat) (self : ApiBinding)
    (object_type : string) (filters : option json) : M json :=
  let params := activity_params 1 true filters in
  log Info "Getting {object_type} page_number:{page_number}, page_size:{page_size}"
    [JStr object_type; JNum 1; JNum 100] ;;
  all_activities_initial <-
    get_all_from_api path_join self (activity_path object_type) (Some params) false ;;
  start <-
    (if py_truthy all_activities_initial then
       all_activity_objects <- lift (py_getitem all_activities_initial "items") ;;
       total <- lift (py_getitem all_activities_initial "total") ;;
       ret (all_activity_objects, total)
     else ret (JArr [], JNum 0)) ;;
  count <- lift (py_int (snd start)) ;;
  activity_loop fuel self object_type filters count 1 (fst start).

(** [ApiBinding.approve_async] *)
Definition approve_async (self : ApiBinding) (url : json) : M (Z * json) :=
  response <- send self
    (mkRequest POST (url_of path_join self [url]) (api_headers self) None
       (Some (JObj []))) ;;
  let status := status_code response in
  result <-
    (if aiohttp_ok response then lift (aiohttp_json response)
     else
       error_message <- try_except
         (lift (error_result <~ aiohttp_json response ;;
                get_error_message py_repr error_result))
         (is_exn ContentTypeError)
         (fun _ => ret (JStr (text response))) ;;
       log Warning "Failed to approve {url}, status: {status}, message: {error_message}"
         [url; JNum status; error_message] ;;
       ret (JObj [])) ;;
  ret (status, result).

End MoreBindings.

(** ** The admission limiter

    [self.sem = asyncio.Semaphore(8)] is entered by [post_to_api_async]
    alone; the other four asynchronous blocks send their request without
    it.  Tasks run under one cooperative scheduler: a task advances from
    one suspension point to the next, and the scheduler picks which. *)

Module Gate.

Inductive op : Type :=
| PostToApi        (* post_to_api_async *)
| NewVersionToApi  (* new_version_to_api_async *)
| PatchToApi       (* patch_to_api_async *)
| Approve          (* approve_async *)
| ApproveItem.     (* approve_item_async *)

(** Which blocks wrap their request in [async with self.sem]. *)
Definition gated (o : op) : bool :=
  match o with
  | PostToApi => true
  | _ => false
  end.

(** A task: the request it is waiting on, if any, and the requests it
    has still to make. *)
Record task : Type := mkTask {
  in_flight : option op;
  todo : list op
}.

Record state : Type := mkState {
  sem_value : nat;
  tasks : list task
}.

Definition ceiling : nat := 8.

(** The request sequences of the two workflows when every step succeeds. *)
Definition post_then_approve_ops : list op := [PostToApi; ApproveItem].
Definition new_version_patch_then_approve_ops : list op :=
  [NewVersionToApi; PatchToApi; ApproveItem].

Definition start (workflows : list (list op)) : state :=
  mkState ceiling (map (mkTask None) workflows).

Fixpoint set_nth (i : nat) (t : task) (ts : list task) : list task :=
  match ts, i with
  | [], _ => []
  | _ :: rest, O => t :: rest
  | x :: rest, S j => x :: set_nth j t rest
  end.

(** The scheduler resumes task [i]; [None] when that task cannot move
    (it is finished, or it waits for a slot and none is free). *)
Definition step (s : state) (i : nat) : option state :=
  match nth_error (tasks s) i with
  | None => None
  | Some t =>
      match in_flight t with
      | Some o =>
          (* the response arrives; leaving [async with] releases the slot *)
          Some (mkState (if gated o then S (sem_value s) else sem_value s)
                        (set_nth i (mkTask None (todo t)) (tasks s)))
      | None =>
          match todo t with
          | [] => None
          | o :: rest =>
              if gated o then
                match sem_value s with
                | O => None
                | S v => Some (mkState v (set_nth i (mkTask (Some o) rest) (tasks s)))
                end
              else Some (mkState (sem_value s)
                                 (set_nth i (mkTask (Some o) rest) (tasks s)))
          end
      end
  end.

Fixpoint run (s : state) (schedule : list nat) : option state :=
  match schedule with
  | [] => Some s
  | i :: rest =>
      match step s i with
      | Some s' => run s' rest
      | None => None
      end
  end.

Definition is_outstanding (t : task) : bool :=
  match in_flight t with Some _ => true | None => false end.

Definition holds_slot (t : task) : bool :=
  match in_flight t with Some o => gated o | None => false end.

(** Requests sent and not yet answered. *)
Definition outstanding (s : state) : nat :=
  List.length (filter is_outstanding (tasks s)).

(** Requests that hold a slot of the limiter. *)
Definition slots_held (s : state) : nat :=
  List.length (filter holds_slot (tasks s)).

Definition weight (f : task -> bool) (t : task) : nat := if f t then 1 else 0.

(** Free slots plus requests holding a slot is the constant 8. *)
Definition balanced (s : state) : Prop :=
  (sem_value s + slots_held s = ceiling)%nat.

End Gate.

(** ** Notions the statements are phrased with *)

(** The rule table [post_to_api] applies to a message text. *)
Definition post_to_api_rules (m : string) : category :=
  if is_substring "already exists" m || is_substring "Duplicate template" m
     || is_substring "already has" m
  then AlreadyExists
  else if is_substring "not found" m || is_substring "does not exist" m
  then NotFound
  else Generic.

(** A path with its digits removed, as the metric keys of [post_to_api]
    have it. *)
Fixpoint strip_digits (s : string) : string :=
  match s with
  | EmptyString => EmptyString
  | String c rest =>
      if is_digit c then strip_digits rest else String c (strip_digits rest)
  end.

(** The rule table [simple_post_to_api] applies to a message text. *)
Definition simple_post_to_api_rules (m : string) : category :=
  if is_substring "already exist" m || is_substring "all ready" m
     || is_substring "Duplicate template" m || is_substring "There is already" m
  then AlreadyExists
  else if is_substring "no approved objective" m
  then NoObjective
  else Generic.

(** What [package.get("catalogue_name")] yields for each package. *)
Definition catalogue_names (packages : list dict) : list json :=
  map (fun d => match dict_get "catalogue_name" d with Some v => v | None => JNull end)
      packages.

Definition nonempty {A} (l : list A) : bool :=
  match l with [] => false | _ => true end.

Section Phrases.

Variable path_join : list json -> string.

(** The preflight GET of [verify_connection]. *)
Definition discovery_request (self : ApiBinding) : request :=
  mkRequest GET (url_of path_join self [JStr "openapi.json"]) (api_headers self)
    None None.

(** The GET of [/ct/packages] that [check_for_ct_packages] makes. *)
Definition packages_request (self : ApiBinding) : request :=
  mkRequest GET (url_of path_join self [JStr "/ct/packages"]) (api_headers self)
    (@Some dict [("page_number", JNum 1); ("page_size", JNum 0)]) None.

(** The POST of [simple_post_to_api]. *)
Definition simple_post_request (self : ApiBinding) (path : string) (body : json)
    (params : option dict) : request :=
  mkRequest POST (url_of path_join self [JStr path]) (api_headers self) params
    (Some body).

(** The GET of [get_libraries] and the POST of [create_library]. *)
Definition libraries_request (self : ApiBinding) : request :=
  mkRequest GET (url_of path_join self [JStr "libraries"]) (api_headers self) None None.

Definition create_library_request (self : ApiBinding) (object : json) : request :=
  mkRequest POST (url_of path_join self [JStr "libraries"]) (api_headers self) None
    (Some object).

(** The POST a create-then-approve item starts with. *)
Definition post_request (self : ApiBinding) (path body : json) : request :=
  mkRequest POST (url_of path_join self [path]) (api_headers self) None (Some body).

(** The approval POST, to [{approve_path}/{uid}/approvals] under the base URL. *)
Definition approval_request (self : ApiBinding) (approve_path uid : json) : request :=
  mkRequest POST (url_of path_join self [approve_path; uid; JStr "approvals"])
    (api_headers self) None (Some (JObj [])).

(** The two requests that open the version-then-patch workflow. *)
Definition new_version_request (self : ApiBinding) (new_path : json) : request :=
  mkRequest POST (url_of path_join self [new_path]) (api_headers self) None
    (Some (JObj [])).

Definition patch_request (self : ApiBinding) (patch_path body : json) : request :=
  mkRequest PATCH (url_of path_join self [patch_path]) (api_headers self) None
    (Some body).

End Phrases.

Definition unreachable_line (e : exn) : event :=
  EvLog Critical "Failed to connect to backend, is it running?\nError was:\n{e}"
    [JStr (exn_name e)].

Definition missing_mandatory_line (missing : list string) : event :=
  EvLog Critical
    "Missing CT packages: {','.join(missing)}.\nPlease run the clinical standards import before this tool."
    [strs missing].

Definition missing_optional_line (missing : list string) : event :=
  EvLog Warning "Missing optional CT packages: {','.join(missing)}." [strs missing].

Definition is_request (e : event) : bool :=
  match e with EvRequest _ => true | _ => false end.

(** The requests on a trace, in order. *)
Definition requests_in (t : trace) : list request :=
  flat_map (fun e => match e with EvRequest r => [r] | _ => [] end) t.

(** A computation only appends to the trace, and every event it appends
    satisfies [Q]. *)
Definition emits {A} (Q : event -> Prop) (m : M A) : Prop :=
  forall t, exists tail, snd (m t) = (t ++ tail)%list /\ Forall Q tail.

Definition not_request (e : event) : Prop := is_request e = false.

Definition the_sleep : event :=
  EvSleep (fst SLEEP_BEFORE_APPROVE) (snd SLEEP_BEFORE_APPROVE).

Definition any_event (e : event) : Prop := True.

Definition draft_warning : event :=
  EvLog Warning "Failed to create new version, item is already in DRAFT" [].

(** What an asynchronous block makes of a reply body: the decoded JSON,
    the empty object for a body that is not JSON, or a decoding error. *)
Definition decoded (resp : response) : outcome json :=
  match body resp with
  | PJson j => Ok j
  | PText => Ok (JObj [])
  | PMalformed => Raise JSONDecodeError
  end.

(** The error line a block writes when the body is not JSON. *)
Definition decode_log (what : string) (path : json) (resp : response) : list event :=
  match body resp with
  | PText => [EvLog Error what [path; JNum (status_code resp); JStr (text resp)]]
  | _ => []
  end.

Definition version_decode_log : json -> response -> list event :=
  decode_log "Failed to post to '{path}', status: {status}, message: {textresult}".

Definition post_decode_log : json -> response -> list event :=
  decode_log "Failed to post to '{url}', status: {status}, message: {textresult}".

Definition patch_decode_log : json -> response -> list event :=
  decode_log "Failed to patch to '{path}', status: {status}, message: {textresult}".

Section Readings.

Variable py_repr : json -> string.

(** Whether the reply to the version request reads as "already in
    draft": its error message contains the FINAL-versions text. *)
Definition draft_reading (resp : response) : outcome bool :=
  obind (decoded resp) (fun result =>
  obind (get_error_message py_repr result) (py_contains NEW_DRAFT_ONLY_FOR_FINAL)).

(** The version step lets the workflow go on to the patch. *)
Definition version_passes (resp : response) : Prop :=
  (status_ok (status_code resp) = true /\ body resp <> PMalformed)
  \/ (status_ok (status_code resp) = false /\ draft_reading resp = Ok true).

(** The error a failed reply reports, read off its fields: its
    [message]; without one its [detail], as text; without either the
    whole reply, as text. *)
Definition reported_error (fields : dict) : json :=
  match dict_get "message" fields with
  | Some m => m
  | None =>
      match dict_get "detail" fields with
      | Some d => JStr (py_str py_repr d)
      | None => JStr (py_str py_repr (JObj fields))
      end
  end.

(** The FINAL-versions sentence occurs in a value: inside a text, or as
    an element of a list or a key of an object. *)
Definition mentions_draft (v : json) : bool :=
  match v with
  | JStr s => is_substring NEW_DRAFT_ONLY_FOR_FINAL s
  | JArr l => existsb (is_str NEW_DRAFT_ONLY_FOR_FINAL) l
  | JObj d => dict_has NEW_DRAFT_ONLY_FOR_FINAL d
  | _ => false
  end.

(** The replies that say "already in draft": the error they report
    mentions the sentence.  A reply that is not JSON has no fields; a
    JSON reply that is a list or a text reports itself, unless it holds
    the words message or detail (it cannot be read then); a reply that
    does not decode, or is a number, a boolean or null, reports
    nothing. *)
Definition already_in_draft (resp : response) : bool :=
  match body resp with
  | PJson (JObj fields) => mentions_draft (reported_error fields)
  | PText => mentions_draft (reported_error [])
  | PJson (JArr l) =>
      negb (existsb (is_str "message") l) && negb (existsb (is_str "detail") l)
      && is_substring NEW_DRAFT_ONLY_FOR_FINAL (py_repr (JArr l))
  | PJson (JStr s) =>
      negb (is_substring "message" s) && negb (is_substring "detail" s)
      && is_substring NEW_DRAFT_ONLY_FOR_FINAL s
  | _ => false
  end.

(** The version step lets the workflow go on to the patch: it succeeded
    with a body that decodes, or it failed saying "already in draft". *)
Definition version_lets_through (resp : response) : Prop :=
  (status_ok (status_code resp) = true /\ body resp <> PMalformed)
  \/ (status_ok (status_code resp) = false /\ already_in_draft resp = true).

End Readings.

(** An outcome of plain evaluation: a value or a raised exception. *)
Definition plain {A} (o : outcome A) : Prop :=
  match o with
  | Ok _ | Raise _ => True
  | _ => False
  end.

(** The integers [a, a+1, ..., a+len-1]. *)
Definition zrange (a : Z) (len : nat) : list Z :=
  map (fun i => a + Z.of_nat i) (seq 0 len).

(** The page on which a fetch of [total] items in pages of [page_size]
    stops: the first [n >= 1] with [page_size * n >= total]. *)
Definition last_page (page_size total : Z) : Z :=
  Z.max 1 (- ((- total) / page_size)).

(** The query parameters before the first request: the three defaults,
    then whatever the caller passed. *)
Definition first_page_params (params : option dict) (page_size : Z) : dict :=
  let defaults :=
    [("page_number", JNum 1); ("page_size", JNum page_size);
     ("total_count", JBool true)] in
  match params with
  | Some p => dict_update defaults p
  | None => defaults
  end.

(** The query parameters of the request for page [k]. *)
Definition page_params_at (params : option dict) (page_size k : Z) : dict :=
  if k =? 1 then first_page_params params page_size
  else dict_set "page_number" (JNum k)
         (dict_set "total_count" (JBool false) (first_page_params params page_size)).

(** The caller's parameters set neither the page number nor the
    total-count flag. *)
Definition leaves_paging_alone (params : option dict) : Prop :=
  match params with
  | None => True
  | Some p => dict_get "page_number" p = None /\ dict_get "total_count" p = None
  end.

Definition param_of (key : string) (r : request) : option json :=
  match rq_params r with
  | Some p => dict_get key p
  | None => None
  end.

Section Paging.

Variable path_join : list json -> string.

Definition page_request (self : ApiBinding) (path : string) (params : option dict)
    (page_size k : Z) : request :=
  mkRequest GET (url_of path_join self [JStr path]) (api_headers self)
    (Some (page_params_at params page_size k)) None.

(** Every page request up to page [n] succeeds: whenever it is made, the
    reply is a success whose JSON object holds the items of that page
    and, on the first page, the declared total. *)
Definition serves_pages (self : ApiBinding) (path : string) (params : option dict)
    (page_size total n : Z) (page : Z -> list json) : Prop :=
  forall tr k, 1 <= k <= n ->
    exists resp fields,
      backend self tr (page_request self path params page_size k) = Some resp
      /\ requests_ok resp = true
      /\ body resp = PJson (JObj fields)
      /\ dict_get "items" fields = Some (JArr (page k))
      /\ (k = 1 -> dict_get "total" fields = Some (JNum total)).

(** What the loop leaves on the trace for page [k]. *)
Definition page_events (self : ApiBinding) (path : string) (params : option dict)
    (page_size nbr_pages : Z) (page : Z -> list json) (k : Z) : list event :=
  [EvLog Info "Fetching {path}, page {page_number} of {nbr_pages}"
     [JStr path; JNum k; JNum nbr_pages];
   EvRequest (page_request self path params page_size k);
   EvMetric (path ++ "--GET") (Z.of_nat (List.length (page k)))].

End Paging.

(** The limiter, in the words of the claim: the posts that are in
    flight, counted without reference to the semaphore. *)
Module GateSpec.
Import Gate.

Definition post_in_flight (t : task) : bool :=
  match in_flight t with
  | Some PostToApi => true
  | _ => false
  end.

Definition posts_in_flight (s : state) : nat :=
  List.length (filter post_in_flight (tasks s)).

End GateSpec.

(** ** Concrete instances used to exercise the statements *)

Module Examples.

(** A [path_join] that joins its parts with slashes. *)
Definition slash_join (parts : list json) : string :=
  String.concat "/" (map (fun p => match p with JStr s => s | _ => "_" end) parts).

(** A [repr] for scalars; containers print as an ellipsis. *)
Definition scalar_repr (x : json) : string :=
  match x with
  | JNull => "None"
  | JBool true => "True"
  | JBool false => "False"
  | JStr s => "'" ++ s ++ "'"
  | _ => "..."
  end.

Definition headers : json := JObj [("Accept", JStr "application/json")].

Definition json_reply (status : Z) (j : json) : response :=
  mkResponse status (PJson j) "" "".

(** A backend that answers by URL alone. *)
Definition by_url (table : list (string * response)) (fallback : response)
  : trace -> request -> option response :=
  fun _ r =>
    match find (fun row => String.eqb (fst row) (rq_url r)) table with
    | Some row => Some (snd row)
    | None => Some fallback
    end.

Definition binding (table : list (string * response)) (fallback : response)
  : ApiBinding :=
  mkApiBinding "http://api" headers (by_url table fallback).

(** A package list carrying the given catalogue names. *)
Definition packages_named (names : list string) : list dict :=
  map (fun n => [("uid", JStr (n ++ "_2024")); ("catalogue_name", JStr n)]) names.

(** A backend whose discovery endpoint answers [status] and whose
    package list has the given catalogues. *)
Definition startup_binding (status : Z) (names : list string) : ApiBinding :=
  binding
    [("http://api/openapi.json", json_reply status (JObj []));
     ("http://api//ct/packages", json_reply 200 (JArr (map JObj (packages_named names))))]
    (json_reply 404 (JObj [("message", JStr "Not found")])).

Definition this_file : string := "studybuilder-import/importers/utils/api_bindings.py".

(** A backend where every call on [/libraries] is refused with
    [status] and the given error body. *)
Definition refusing_binding (status : Z) (error : payload) : ApiBinding :=
  binding [("http://api/libraries", mkResponse status error "<html>Bad Gateway</html>"
                                       "Bad Gateway")]
          (json_reply 200 (JObj [])).

Definition conflict : dict :=
  [("type", JStr "AlreadyExistsException"); ("message", JStr "Library already exists")].

(** A work item of the create-then-approve workflow. *)
Definition template_item : json :=
  JObj [("path", JStr "objective-templates");
        ("body", JObj [("name", JStr "X")]);
        ("approve_path", JStr "objective-templates")].

(** A backend that creates the template as [U1] and approves it. *)
Definition creating_binding (created : json) : ApiBinding :=
  binding
    [("http://api/objective-templates", json_reply 201 created);
     ("http://api/objective-templates/U1/approvals",
      json_reply 201 (JObj [("uid", JStr "U1"); ("status", JStr "Final")]))]
    (json_reply 404 (JObj [("message", JStr "Not found")])).

(** A work item of the version-then-patch workflow. *)
Definition revision_item : json :=
  JObj [("new_path", JStr "objective-templates/T1/versions");
        ("patch_path", JStr "objective-templates/T1");
        ("body", JObj [("name", JStr "Y")]);
        ("approve_path", JStr "objective-templates")].

Definition already_draft : response :=
  json_reply 400
    (JObj [("message",
            JStr "New draft version can be created only for FINAL versions.")]).

(** A backend for the revision of template [T1], answering the three
    steps as given. *)
Definition revising_binding (versioned patched approved : response) : ApiBinding :=
  binding
    [("http://api/objective-templates/T1/versions", versioned);
     ("http://api/objective-templates/T1", patched);
     ("http://api/objective-templates/T1/approvals", approved)]
    (json_reply 404 (JObj [("message", JStr "Not found")])).

Definition t1_patched : response := json_reply 200 (JObj [("uid", JStr "T1")]).
Definition t1_approved : response :=
  json_reply 201 (JObj [("uid", JStr "T1"); ("status", JStr "Final")]).
Definition t1_refused : response :=
  json_reply 400 (JObj [("message", JStr "Object is not in draft status.")]).

(** Five studies served two to a page. *)
Definition studies (k : Z) : list json :=
  match k with
  | 1 => [JStr "a"; JStr "b"]
  | 2 => [JStr "c"; JStr "d"]
  | 3 => [JStr "e"]
  | _ => []
  end.

(** A listing endpoint: it serves the page asked for, and reports the
    total only when asked to count. *)
Definition listing_backend (total : Z) (page : Z -> list json)
  : trace -> request -> option response :=
  fun _ r =>
    match param_of "page_number" r with
    | Some (JNum k) =>
        Some (json_reply 200
                (JObj [("items", JArr (page k));
                       ("total",
                        JNum (match param_of "total_count" r with
                              | Some (JBool true) => total
                              | _ => 0
                              end));
                       ("page", JNum k)]))
    | _ => Some (json_reply 400 (JObj [("message", JStr "page_number is required")]))
    end.

Definition listing_binding : ApiBinding :=
  mkApiBinding "http://api" headers (listing_backend 5 studies).

(** The same endpoint declaring a total of 10^400 studies. *)
Definition crowded_binding : ApiBinding :=
  mkApiBinding "http://api" headers (listing_backend (10 ^ 400) studies).

End Examples.

(** ** Notions for the properties of the rest of the binding *)

(** The value an object holds under a field ([JNull] when it has none). *)
Definition field (key : string) (d : dict) : json :=
  match dict_get key d with Some v => v | None => JNull end.

(** Lookup in a mapping with hashable keys. *)
Fixpoint pymap_get (k : json) (m : pymap) : option json :=
  match m with
  | [] => None
  | (k', v) :: rest => if key_eqb k k' then Some v else pymap_get k rest
  end.

Definition has_str_field (key : string) (d : dict) : bool :=
  match dict_get key d with Some (JStr _) => true | _ => false end.

Definition str_field_is (key k : string) (d : dict) : bool :=
  match dict_get key d with Some (JStr s) => String.eqb s k | _ => false end.

(** The last object of a list whose string field [key] is [k]. *)
Definition last_with (key k : string) (ds : list dict) : option dict :=
  find (str_field_is key k) (rev ds).

Definition is_str_key (k : json) : bool :=
  match k with JStr _ => true | _ => false end.

(** The values [get_all_identifiers_multiple] keeps of one item. *)
Definition picked (values : list string) (d : dict) : dict :=
  fold_left (fun acc v => dict_set v (field v d) acc) values [].

Fixpoint group_get (k : string) (g : groups) : option (list json) :=
  match g with
  | [] => None
  | (k', l) :: rest => if String.eqb k k' then Some l else group_get k rest
  end.

(** The invariant of [response_to_dict]: every value sits under the key
    its own identifier field gives. *)
Definition filed_under_own_identifier (identifier : string) (m : pymap) : Prop :=
  forall k v, In (k, v) m ->
    exists k', py_getitem v identifier = Ok k' /\ key_eqb k' k = true.

(** The objects whose string field [key], lower-cased, is [k]. *)
Definition members (lower : string -> string) (key k : string) (ds : list dict)
  : list dict :=
  filter (fun d =>
            match dict_get key d with
            | Some (JStr s) => String.eqb (lower s) k
            | _ => false
            end) ds.

Definition grown (o : option (list json)) (more : list json) : option (list json) :=
  match o with
  | Some l => Some (l ++ more)%list
  | None => match more with [] => None | _ => Some more end
  end.

Module MoreExamples.

Definition lower_char (c : ascii) : ascii :=
  let n := nat_of_ascii c in
  if ((65 <=? n)%nat && (n <=? 90)%nat)%bool then ascii_of_nat (n + 32) else c.

(** [str.lower] on ASCII text. *)
Fixpoint ascii_lower (s : string) : string :=
  match s with
  | EmptyString => EmptyString
  | String c rest => String (lower_char c) (ascii_lower rest)
  end.

Definition activities : list dict :=
  [[("name", JStr "Weight"); ("uid", JStr "A1"); ("status", JStr "Final")];
   [("name", JStr "Height"); ("uid", JStr "A2"); ("status", JStr "Final")];
   [("name", JStr "WEIGHT"); ("uid", JStr "A3"); ("status", JStr "Draft")]].

(** A [content] that hands the body text over as it is. *)
Definition raw_text (r : response) : json := JStr (text r).

(** Three pages of activities, the second of which the backend refuses. *)
Definition activity_answers (k : Z) : option (list json) :=
  match k with
  | 1 => Some [JStr "a"]
  | 3 => Some [JStr "c"]
  | _ => None
  end.

Definition patchy_backend : trace -> request -> option response :=
  fun _ r =>
    match param_of "page_number" r with
    | Some (JNum 1) =>
        Some (Examples.json_reply 200
                (JObj [("items", JArr [JStr "a"]); ("total", JNum 250)]))
    | Some (JNum 3) =>
        Some (Examples.json_reply 200
                (JObj [("items", JArr [JStr "c"]); ("total", JNum 0)]))
    | _ => Some (Examples.json_reply 500 (JObj [("message", JStr "Internal error")]))
    end.

Definition patchy_binding : ApiBinding :=
  mkApiBinding "http://api" Examples.headers patchy_backend.

End MoreExamples.

Section MorePhrases.

Variable path_join : list json -> string.

(** The DELETE of [simple_delete]. *)
Definition delete_request (self : ApiBinding) (path : string) : request :=
  mkRequest DELETE (url_of path_join self [JStr path]) (api_headers self) None None.

(** The two approvals of [approve_item_names_and_attributes]. *)
Definition names_approval_request (self : ApiBinding) (uid url : string) : request :=
  mkRequest POST (url_of path_join self [JStr url; JStr uid; JStr "names/approvals"])
    (api_headers self) None None.

Definition attributes_approval_request (self : ApiBinding) (uid url : string)
  : request :=
  mkRequest POST
    (url_of path_join self [JStr url; JStr uid; JStr "attributes/approvals"])
    (api_headers self) None None.

(** The PATCH of [patch_to_api], addressed by the body's uid. *)
Definition patch_by_uid_request (self : ApiBinding) (body uid : json) (path : string)
  : request :=
  mkRequest PATCH (url_of path_join self [JStr path; uid]) (api_headers self) None
    (Some body).

(** The GET [get_all_from_api] sends for given caller parameters. *)
Definition listing_request (self : ApiBinding) (path : string) (params : option dict)
  : request :=
  mkRequest GET (url_of path_join self [JStr path]) (api_headers self)
    (Some (default_page_params params)) None.

End MorePhrases.

(** A reply body that a refused [get_all_from_api] can read: a JSON
    object, or nothing that decodes. *)
Definition readable_refusal (resp : response) : Prop :=
  (exists fields, body resp = PJson (JObj fields))
  \/ body resp = PText \/ body resp = PMalformed.

Definition is_error_line (e : event) : Prop :=
  exists fmt args, e = EvLog Error fmt args.

Section ActivityPhrases.

Variable path_join : list json -> string.

(** The request of [get_all_activity_objects] for page [k]. *)
Definition activity_request (self : ApiBinding) (object_type : string)
    (filters : option json) (k : Z) : request :=
  mkRequest GET (url_of path_join self [JStr (activity_path object_type)])
    (api_headers self) (Some (activity_params k (k =? 1) filters)) None.

(** What the backend does with each activity page: [answers k = Some l]
    when page [k] is served with items [l] (and the total, on page 1),
    [None] when it is refused with a readable error. *)
Definition serves_activities (self : ApiBinding) (object_type : string)
    (filters : option json) (total n : Z) (answers : Z -> option (list json)) : Prop :=
  forall tr k, 1 <= k <= n ->
    exists resp,
      backend self tr (activity_request self object_type filters k) = Some resp
      /\ match answers k with
         | Some l =>
             requests_ok resp = true
             /\ exists fields,
                  body resp = PJson (JObj fields)
                  /\ dict_get "items" fields = Some (JArr l)
                  /\ (k = 1 -> dict_get "total" fields = Some (JNum total))
         | None => requests_ok resp = false /\ readable_refusal resp
         end.

End ActivityPhrases.

(** The items page [k] contributed. *)
Definition got (answers : Z -> option (list json)) (k : Z) : list json :=
  match answers k with Some l => l | None => [] end.

(** An event that is neither a request nor a sleep. *)
Definition calm (e : event) : Prop :=
  match e with
  | EvRequest _ | EvSleep _ _ => False
  | _ => True
  end.

(** Every value a computation can return satisfies [P]. *)
Definition yields {A} (P : A -> Prop) (m : M A) : Prop :=
  forall t a, fst (m t) = Ok a -> P a.

(** The message [post_then_approve] reports for a refused post. *)
Definition refusal_message (py_repr : json -> string) (fields : dict) : json :=
  match dict_get "message" fields with
  | Some m => m
  | None => JStr (py_str py_repr (JObj fields))
  end.

(** The name it gives the item that was refused. *)
Definition item_name (py_repr : json -> string) (item : dict) : json :=
  match dict_get "name" item with
  | Some n => n
  | None =>
      match dict_get "term_uid" item with
      | Some u => u
      | None => JStr (py_str py_repr (JObj item))
      end
  end.

(** Measures on the states of the admission limiter. *)
Module GateNotions.
Import Gate.

(** A task that has a request in flight or requests still to make. *)
Definition unfinished (t : task) : bool :=
  is_outstanding t || match todo t with [] => false | _ => true end.

(** The scheduler steps a task still needs: two for each request to
    make (send, receive) and one for a request in flight. *)
Definition remaining_of (t : task) : nat :=
  ((if is_outstanding t then 1 else 0) + 2 * List.length (todo t))%nat.

Definition remaining (s : state) : nat := list_sum (map remaining_of (tasks s)).

End GateNotions.

(** A backend that refuses every request with a 4xx or 5xx status. *)
Definition refuses_everything (self : ApiBinding) : Prop :=
  forall tr r, exists resp, backend self tr r = Some resp /\ raises_for_status resp = true.

(** A call that ends in an HTTP error after a single request. *)
Definition raises_after_one_request {A} (m : M A) (t : trace) : Prop :=
  exists r, m t = (Raise HTTPError, (t ++ [EvRequest r])%list).

(** A call that makes one request and returns [v], leaving only log
    lines and metric counts behind it. *)
Definition answers_after_one_request (m : M json) (t : trace) (v : json) : Prop :=
  exists r tail,
    m t = (Ok v, (t ++ EvRequest r :: tail)%list) /\ Forall not_request tail.

Definition is_log_line (e : event) : Prop :=
  match e with
  | EvLog _ _ _ => True
  | _ => False
  end.

(** The rule table [simple_patch] applies to a message text: the note it
    logs and the suffix of the key it counts under. *)
Definition simple_patch_rules (m fallback : string) : string * string :=
  if is_substring "already exists" m
  then ("error, item already exists", "--AlreadyExists")
  else if is_substring "does not exist" m
  then ("error, item not found", "--NotFound")
  else (fallback, "--Patch-ERROR").

Section ReaderPhrases.

Variable path_join : list json -> string.

(** The GET of [find_object_by_key]. *)
Definition lookup_request (self : ApiBinding) (name path key : string) : request :=
  mkRequest GET (url_of path_join self [JStr path]) (api_headers self)
    (@Some dict
       [("filters",
         JStr ("{" ++ dquote ++ key ++ dquote ++ ":{" ++ dquote ++ "v" ++ dquote ++ ":["
               ++ dquote ++ name ++ dquote ++ "]," ++ dquote ++ "op" ++ dquote ++ ":"
               ++ dquote ++ "eq" ++ dquote ++ "}}"))]) None.

(** The GET of [get_code_lists_uids]. *)
Definition codelist_names_request (self : ApiBinding) : request :=
  mkRequest GET
    (url_of path_join self [JStr "ct/codelists/names?page_number=1&page_size=0"])
    (api_headers self) None None.

(** The PATCH of [simple_patch]. *)
Definition simple_patch_request (self : ApiBinding) (body : json) (url : string)
  : request :=
  mkRequest PATCH (url_of path_join self [JStr url]) (api_headers self) None (Some body).

(** The POST of [post_to_api] when the caller names the path. *)
Definition explicit_post_request (self : ApiBinding) (path : json) (body : option json)
  : request :=
  mkRequest POST (url_of path_join self [path]) (api_headers self) None body.

(** The GET of [find_dictionary_item_uid_from_name]. *)
Definition term_lookup_request (json_dumps : json -> string) (self : ApiBinding)
    (dict_uid name : string) : request :=
  mkRequest GET (url_of path_join self [JStr "dictionaries/terms"]) (api_headers self)
    (@Some dict
       [("codelist_uid", JStr dict_uid);
        ("filters", JStr (json_dumps (JObj [("name", JObj [("v", JArr [JStr name])])])));
        ("page_number", JNum 1); ("page_size", JNum 0)]) None.

(** The POST of [approve_async]. *)
Definition approve_request (self : ApiBinding) (url : json) : request :=
  mkRequest POST (url_of path_join self [url]) (api_headers self) None (Some (JObj [])).

End ReaderPhrases.

Module ReaderExamples.

(** A backend that is down for maintenance. *)
Definition unavailable : ApiBinding :=
  Examples.binding [] (Examples.json_reply 503 (JObj [("message", JStr "Maintenance")])).

Definition template_a : json := JObj [("name", JStr "A"); ("uid", JStr "T1")].
Definition template_b : json := JObj [("name", JStr "B"); ("uid", JStr "T2")].

(** A backend whose template listing comes as an object with [items]. *)
Definition templates_binding : ApiBinding :=
  Examples.binding
    [("http://api/objective-templates",
      Examples.json_reply 200 (JObj [("items", JArr [template_a; template_b]);
                                     ("total", JNum 2)]));
     ("http://api/ct/codelists/names?page_number=1&page_size=0",
      Examples.json_reply 200
        (JObj [("items",
                JArr [JObj [("name", JStr "Sex"); ("codelist_uid", JStr "C66731")]])]))]
    (Examples.json_reply 404 (JObj [("message", JStr "Not found")])).

(** The path [dose-m2/7] with its 2 written as the superscript two,
    code point U+00B2. *)
Definition squared_path : string := "dose-m" ++ String (ascii_of_nat 178) "/7".

End ReaderExamples.

(** ** Properties *)

(** *** Identifier collection *)

(** C9: with a value field and [responses = None] the result is the
    empty mapping; in identifier-list mode a [None] argument reaches the
    [for] loop unguarded and raises [TypeError], so no list comes back.
    The [None] check sits in the mapping branch only. *)
Theorem get_all_identifiers_none_guard (identifier : string) :
  (forall value, get_all_identifiers JNull identifier (Some value) = Ok (IdMap []))
  /\ get_all_identifiers JNull identifier None = Raise TypeError
  /\ (forall ids, get_all_identifiers JNull identifier None = Ok (IdList ids) -> False).
Proof.
  split; [intros value; reflexivity|].
  split; [reflexivity|].
  intros ids H. cbn in H. discriminate H.
Qed.

(** *** Classification of failed posts *)

Lemma any_in_str (needles : list string) (m : string) :
  any_in needles (JStr m) = Ok (existsb (fun n => is_substring n m) needles).
Proof.
  induction needles as [|n rest IH]; [reflexivity|].
  cbn [any_in existsb py_contains obind].
  destruct (is_substring n m); [reflexivity | exact IH].
Qed.

Lemma message_matches_str (needles : list string) (fields : dict) (m : string) :
  dict_get "message" fields = Some (JStr m) ->
  message_matches needles (JObj fields)
  = Ok (existsb (fun n => is_substring n m) needles).
Proof.
  intros H. unfold message_matches, py_contains, py_getitem, dict_has.
  rewrite H. cbn [obind]. apply any_in_str.
Qed.

Lemma message_matches_absent (needles : list string) (fields : dict) :
  dict_get "message" fields = None ->
  message_matches needles (JObj fields) = Ok false.
Proof.
  intros H. unfold message_matches, py_contains, dict_has.
  rewrite H. reflexivity.
Qed.

Lemma post_to_api_category_scans_message_rules (fields : dict) :
  (forall m, dict_get "message" fields = Some (JStr m) ->
     post_to_api_category (JObj fields) = Ok (post_to_api_rules m))
  /\ (dict_get "message" fields = None ->
      post_to_api_category (JObj fields) = Ok Generic).
Proof.
  split.
  - intros m H. unfold post_to_api_category, post_to_api_rules.
    rewrite !(message_matches_str _ fields m H). cbn [obind existsb].
    rewrite !orb_false_r, !orb_assoc.
    destruct (_ || _ || _); [reflexivity|].
    destruct (_ || _); reflexivity.
  - intros H. unfold post_to_api_category.
    rewrite !(message_matches_absent _ fields H). reflexivity.
Qed.

(** C4 (amended): the classifier of a failed [post_to_api] scans the
    [message] field only, against its ordered rules, and returns the first
    matching category, else Generic; a body without [message] is Generic
    whatever its [detail] says.  The three bodies of the claim classify
    as AlreadyExists, NotFound and Generic. *)
Theorem post_to_api_category_scans_message (fields : dict) :
  (forall m, dict_get "message" fields = Some (JStr m) ->
     post_to_api_category (JObj fields) = Ok (post_to_api_rules m))
  /\ (dict_get "message" fields = None ->
      post_to_api_category (JObj fields) = Ok Generic)
  /\ post_to_api_category (JObj [("message", JStr "Duplicate template already exists")])
     = Ok AlreadyExists
  /\ post_to_api_category (JObj [("message", JStr "Study not found")]) = Ok NotFound
  /\ post_to_api_category (JObj [("detail", JStr "x")]) = Ok Generic.
Proof.
  destruct (post_to_api_category_scans_message_rules fields) as [Hmessage Hnone].
  split; [exact Hmessage|]. split; [exact Hnone|]. repeat split; reflexivity.
Qed.

Lemma post_to_api_category_scans_message_witness :
  post_to_api_category
    (JObj [("code", JNum 409); ("message", JStr "Library already has this name")])
  = Ok AlreadyExists.
Proof.
  exact (proj1 (post_to_api_category_scans_message
                  [("code", JNum 409); ("message", JStr "Library already has this name")])
           "Library already has this name" eq_refl).
Defined.

(** C4, as stated, fails: a [detail] that carries a listed substring is
    not scanned, and [simple_post_to_api] has no not-found rule. *)
Lemma classifier_ignores_detail :
  any_in ["already exists"; "Duplicate template"; "already has"]
    (JStr "Study already exists") = Ok true
  /\ post_to_api_category (JObj [("detail", JStr "Study already exists")]) = Ok Generic
  /\ simple_post_to_api_category (JObj [("detail", JStr "Study already exists")])
     = Ok Generic
  /\ simple_post_to_api_category (JObj [("message", JStr "Study not found")])
     = Ok Generic.
Proof. repeat split; reflexivity. Qed.

Lemma join_non_digits_chars (p : string) :
  join_non_digits (chars_of p) = Ok (strip_digits p).
Proof.
  induction p as [|c rest IH]; [reflexivity|].
  cbn [chars_of join_non_digits strip_digits]. rewrite IH.
  unfold isdigit. cbn [String.eqb all_digits negb andb].
  rewrite andb_true_r. destruct (is_digit c); reflexivity.
Qed.

Section PostToApi.

Variable path_join : list json -> string.

(** A refused [post_to_api] counts the failure under the digit-free path
    and the suffix of the category its classifier returns. *)
Lemma post_to_api_counts_category (self : ApiBinding) (object item : json)
    (path m : string) (fields : dict) (resp : response) (t : trace) :
  py_getitem object "path" = Ok (JStr path) ->
  py_getitem object "body" = Ok item ->
  py_contains "name" item = Ok false ->
  backend self t
    (mkRequest POST (url_of path_join self [JStr path]) (api_headers self) None
       (Some item)) = Some resp ->
  requests_ok resp = false ->
  body resp = PJson (JObj fields) ->
  dict_get "message" fields = Some (JStr m) ->
  post_to_api path_join self object None None t
  = (Ok JNull,
     (t ++ [EvRequest (mkRequest POST (url_of path_join self [JStr path])
                         (api_headers self) None (Some item));
            EvLog Debug "POST %s %s" [JStr path; JStr "no name"];
            EvLog Warning "Post to %s failed: %s"
              [JStr path;
               match post_to_api_rules m with
               | Generic | NoObjective => JStr (text resp)
               | _ => JStr m
               end];
            EvMetric (strip_digits path ++ category_suffix (post_to_api_rules m)) 1])%list).
Proof.
  intros Hpath Hitem Hname Hreply Hfail Hbody Hm.
  unfold post_to_api, post_to_api_debug. rewrite Hpath, Hitem.
  cbv beta iota zeta delta
    [bind ret lift emit log icrement send obind fst snd].
  rewrite Hreply. cbn [py_iter]. rewrite join_non_digits_chars, Hfail, Hname.
  unfold requests_json. rewrite Hbody.
  rewrite (proj1 (post_to_api_category_scans_message_rules fields) m Hm).
  unfold py_getitem. rewrite Hm.
  destruct (post_to_api_rules m); rewrite <- !app_assoc; reflexivity.
Qed.

End PostToApi.

(** *** The admission limiter *)

Module GateFacts.
Import Gate GateSpec.

Lemma count_set_nth (f : task -> bool) (t' : task) :
  forall (ts : list task) (i : nat) (t : task),
    nth_error ts i = Some t ->
    (List.length (filter f (set_nth i t' ts)) + weight f t
     = List.length (filter f ts) + weight f t')%nat.
Proof.
  unfold weight.
  induction ts as [|x rest IH]; intros i t H.
  - destruct i; discriminate H.
  - destruct i as [|j]; cbn [nth_error] in H.
    + injection H as ->. cbn [set_nth filter].
      destruct (f t), (f t'); cbn [List.length]; lia.
    + cbn [set_nth filter]. specialize (IH j t H).
      destruct (f x); cbn [List.length]; lia.
Qed.

Lemma start_balanced (workflows : list (list op)) : balanced (start workflows).
Proof.
  unfold balanced, start, slots_held. cbn [sem_value tasks].
  induction workflows as [|w rest IH]; [reflexivity|].
  cbn [map filter holds_slot in_flight]. exact IH.
Qed.

Lemma step_balanced (s s' : state) (i : nat) :
  step s i = Some s' -> balanced s -> balanced s'.
Proof.
  unfold step, balanced, slots_held. intros Hstep Hbal.
  destruct (nth_error (tasks s) i) as [t|] eqn:Hnth; [|discriminate Hstep].
  destruct t as [[o|] rest].
  - cbn [in_flight todo] in Hstep. injection Hstep as <-. cbn [sem_value tasks].
    pose proof (count_set_nth holds_slot (mkTask None rest) _ _ _ Hnth) as Hc.
    unfold weight in Hc. cbn [holds_slot in_flight] in Hc.
    destruct (gated o); lia.
  - cbn [in_flight todo] in Hstep.
    destruct rest as [|o rest']; [discriminate Hstep|].
    pose proof (count_set_nth holds_slot (mkTask (Some o) rest') _ _ _ Hnth) as Hc.
    unfold weight in Hc. cbn [holds_slot in_flight] in Hc.
    destruct (gated o).
    + destruct (sem_value s) as [|v] eqn:Hv; [discriminate Hstep|].
      injection Hstep as <-. cbn [sem_value tasks]. lia.
    + injection Hstep as <-. cbn [sem_value tasks]. lia.
Qed.

Lemma run_balanced (schedule : list nat) :
  forall s s', run s schedule = Some s' -> balanced s -> balanced s'.
Proof.
  induction schedule as [|i rest IH]; intros s s' Hrun Hbal; cbn [run] in Hrun.
  - injection Hrun as <-. exact Hbal.
  - destruct (step s i) as [s1|] eqn:Hstep; [|discriminate Hrun].
    exact (IH s1 s' Hrun (step_balanced s s1 i Hstep Hbal)).
Qed.

Lemma posts_hold_the_slots (ts : list task) :
  filter holds_slot ts = filter post_in_flight ts.
Proof.
  apply filter_ext. intros t. unfold holds_slot, post_in_flight.
  destruct (in_flight t) as [[| | | |]|]; reflexivity.
Qed.

(** C1 (amended): the limiter admits posts and nothing else.  In every
    state a batch of workflows can reach under any schedule, the free
    slots and the posts in flight add up to 8, so at most 8 posts are in
    flight; a further post starts (taking a slot) while fewer than 8 are
    and cannot start while 8 are.  A new-version, patch or approval
    request starts in every such state, also with 8 posts in flight; it
    takes no slot and adds one to the outstanding requests. *)
Theorem posts_in_flight_bounded (workflows : list (list op)) (schedule : list nat)
    (s : state) :
  run (start workflows) schedule = Some s ->
  (sem_value s + posts_in_flight s = ceiling)%nat
  /\ (posts_in_flight s <= ceiling)%nat
  /\ (forall i t rest,
        nth_error (tasks s) i = Some t ->
        in_flight t = None -> todo t = PostToApi :: rest ->
        (posts_in_flight s = ceiling -> step s i = None)
        /\ ((posts_in_flight s < ceiling)%nat ->
            exists s', step s i = Some s'
                       /\ posts_in_flight s' = S (posts_in_flight s)
                       /\ sem_value s' = (sem_value s - 1)%nat))
  /\ (forall i t o rest,
        nth_error (tasks s) i = Some t ->
        in_flight t = None -> todo t = o :: rest -> o <> PostToApi ->
        exists s', step s i = Some s'
                   /\ sem_value s' = sem_value s
                   /\ posts_in_flight s' = posts_in_flight s
                   /\ outstanding s' = S (outstanding s)).
Proof.
  intros Hrun.
  pose proof (run_balanced schedule _ _ Hrun (start_balanced workflows)) as Hbal.
  unfold balanced, slots_held in Hbal. rewrite posts_hold_the_slots in Hbal.
  fold (posts_in_flight s) in Hbal.
  split; [exact Hbal|]. split; [lia|]. split.
  - intros i [fl td] rest Hnth Hidle Htodo. cbn [in_flight todo] in Hidle, Htodo.
    subst fl td. split.
    + intros Hfull. unfold step. rewrite Hnth. cbn [in_flight todo gated].
      replace (sem_value s) with 0%nat by lia. reflexivity.
    + intros Hroom. unfold step. rewrite Hnth. cbn [in_flight todo gated].
      destruct (sem_value s) as [|v] eqn:Hv; [lia|].
      eexists. split; [reflexivity|]. cbn [sem_value]. split; [|lia].
      unfold posts_in_flight. cbn [tasks].
      pose proof (count_set_nth post_in_flight (mkTask (Some PostToApi) rest) _ _ _ Hnth)
        as Hc.
      unfold weight in Hc. cbn [post_in_flight in_flight] in Hc. lia.
  - intros i [fl td] o rest Hnth Hidle Htodo Hother. cbn [in_flight todo] in Hidle, Htodo.
    subst fl td.
    assert (Hfree : gated o = false) by (destruct o; [contradiction Hother|..]; reflexivity).
    assert (Hnot : post_in_flight (mkTask (Some o) rest) = false)
      by (destruct o; [contradiction Hother; reflexivity|..]; reflexivity).
    unfold step. rewrite Hnth. cbn [in_flight todo]. rewrite Hfree.
    eexists. split; [reflexivity|]. cbn [sem_value]. split; [reflexivity|].
    unfold posts_in_flight, outstanding. cbn [tasks].
    pose proof (count_set_nth post_in_flight (mkTask (Some o) rest) _ _ _ Hnth) as Hc.
    pose proof (count_set_nth is_outstanding (mkTask (Some o) rest) _ _ _ Hnth) as Hd.
    unfold weight in Hc, Hd. rewrite Hnot in Hc.
    cbn [post_in_flight is_outstanding in_flight] in Hc, Hd. lia.
Qed.

Lemma posts_in_flight_bounded_witness :
  exists s,
    run (start (repeat post_then_approve_ops 9 ++ [new_version_patch_then_approve_ops]))
        [0; 1; 2; 3; 4; 5; 6; 7]%nat = Some s
    /\ posts_in_flight s = ceiling
    /\ step s 8 = None
    /\ exists s', step s 9 = Some s'
                  /\ sem_value s' = sem_value s
                  /\ posts_in_flight s' = posts_in_flight s
                  /\ outstanding s' = S (outstanding s).
Proof.
  eexists. split; [reflexivity|]. split; [reflexivity|]. split.
  - exact (proj1 (proj1 (proj2 (proj2 (posts_in_flight_bounded
                    (repeat post_then_approve_ops 9
                       ++ [new_version_patch_then_approve_ops])
                    [0; 1; 2; 3; 4; 5; 6; 7]%nat _ eq_refl)))
                    8%nat _ _ eq_refl eq_refl eq_refl) eq_refl).
  - exact (proj2 (proj2 (proj2 (posts_in_flight_bounded
                    (repeat post_then_approve_ops 9
                       ++ [new_version_patch_then_approve_ops])
                    [0; 1; 2; 3; 4; 5; 6; 7]%nat _ eq_refl)))
             9%nat _ _ _ eq_refl eq_refl eq_refl ltac:(discriminate)).
Defined.

(** C1, as stated, fails: nine version-then-patch workflows started
    together have nine requests outstanding, none of which holds a slot. *)
Lemma nine_requests_outstanding :
  exists s,
    run (start (repeat new_version_patch_then_approve_ops 9))
        [0; 1; 2; 3; 4; 5; 6; 7; 8]%nat = Some s
    /\ outstanding s = 9%nat
    /\ slots_held s = 0%nat
    /\ sem_value s = ceiling.
Proof. eexists. repeat split. Qed.

End GateFacts.

(** *** Startup checks *)

Ltac run_m :=
  cbv beta iota zeta delta
    [bind ret lift emit log icrement sys_exit try_except send time_sleep obind fst snd].

Section Startup.

Variable path_join : list json -> string.

Lemma verify_connection_no_connection (self : ApiBinding) (t : trace) :
  backend self t (discovery_request path_join self) = None ->
  verify_connection path_join self t
  = (Exit 1, (t ++ [EvRequest (discovery_request path_join self)]
                ++ [unreachable_line ConnectionError])%list).
Proof.
  intros H. unfold verify_connection, discovery_request in *. run_m.
  rewrite H. rewrite <- app_assoc. reflexivity.
Qed.

Lemma verify_connection_status (self : ApiBinding) (t : trace) (resp : response) :
  backend self t (discovery_request path_join self) = Some resp ->
  verify_connection path_join self t
  = if raises_for_status resp
    then (Exit 1, (t ++ [EvRequest (discovery_request path_join self)]
                     ++ [unreachable_line HTTPError])%list)
    else (Ok tt, (t ++ [EvRequest (discovery_request path_join self)])%list).
Proof.
  intros H. unfold verify_connection, discovery_request, raise_for_status in *. run_m.
  rewrite H. destruct (raises_for_status resp); [|reflexivity].
  rewrite <- app_assoc. reflexivity.
Qed.

Lemma no_items_among_dicts (packages : list dict) :
  existsb (is_str "items") (map JObj packages) = false.
Proof. induction packages as [|d rest IH]; [reflexivity | exact IH]. Qed.

Lemma collect_catalogue_names_dicts (packages : list dict) :
  forall names,
    forallb hashable (catalogue_names packages) = true ->
    collect_catalogue_names (map JObj packages) names
    = Ok (names ++ catalogue_names packages)%list.
Proof.
  induction packages as [|d rest IH]; intros names H.
  - cbn. rewrite app_nil_r. reflexivity.
  - cbn [catalogue_names map forallb] in H. apply andb_prop in H as [Hd Hrest].
    cbn [map collect_catalogue_names py_get obind catalogue_names].
    destruct (dict_get "catalogue_name" d) as [v|]; cbn [obind]; rewrite Hd;
      rewrite (IH _ Hrest), <- app_assoc; reflexivity.
Qed.

Lemma check_for_ct_packages_listed (self : ApiBinding) (t : trace) (resp : response)
    (packages : list dict) :
  backend self t (packages_request path_join self) = Some resp ->
  requests_ok resp = true ->
  body resp = PJson (JArr (map JObj packages)) ->
  forallb hashable (catalogue_names packages) = true ->
  let t' := (t ++ [EvRequest (packages_request path_join self)])%list in
  let names := catalogue_names packages in
  check_for_ct_packages path_join self t
  = if nonempty (set_minus mandatory_packages names)
    then (Exit 1, (t' ++ [missing_mandatory_line (set_minus mandatory_packages names)])%list)
    else if nonempty (set_minus optional_packages names)
    then (Ok tt, (t' ++ [missing_optional_line (set_minus optional_packages names)])%list)
    else (Ok tt, t').
Proof.
  intros Hreply Hok Hbody Hhash t' names.
  unfold check_for_ct_packages, get_all_from_api, packages_request in *.
  run_m. cbn [default_page_params]. rewrite Hreply, Hok.
  unfold requests_json. rewrite Hbody.
  cbn [py_contains]. rewrite no_items_among_dicts. cbn [andb py_iter].
  rewrite (collect_catalogue_names_dicts packages [] Hhash). cbn [app].
  fold names. fold t'.
  destruct (set_minus mandatory_packages names) as [|m ms]; [|reflexivity].
  cbn [List.length Z.of_nat Z.ltb Z.compare nonempty].
  destruct (set_minus optional_packages names) as [|o os]; reflexivity.
Qed.

(** C7 (amended): at construction the verifier GETs the discovery
    endpoint; a connection failure or a 4xx/5xx status logs a critical
    line and exits with code 1.  Otherwise, unless the file name carries
    "db-schema-migration", the installed packages are fetched: a missing
    mandatory catalogue (ADAM CT, CDASH CT, DEFINE-XML CT, SDTM CT) logs a
    critical line and exits with code 1; missing optional catalogues only
    log a warning. *)
Theorem startup_verifier (self : ApiBinding) (co_filename : string) (t : trace) :
  let discovery := discovery_request path_join self in
  let t1 := (t ++ [EvRequest discovery])%list in
  (backend self t discovery = None ->
   init path_join self co_filename t
   = (Exit 1, (t1 ++ [unreachable_line ConnectionError])%list))
  /\ (forall resp,
        backend self t discovery = Some resp ->
        400 <= status_code resp < 600 ->
        init path_join self co_filename t
        = (Exit 1, (t1 ++ [unreachable_line HTTPError])%list))
  /\ (forall resp,
        backend self t discovery = Some resp ->
        status_code resp < 400 \/ 600 <= status_code resp ->
        (is_substring "db-schema-migration" co_filename = true ->
         init path_join self co_filename t = (Ok tt, t1))
        /\ (is_substring "db-schema-migration" co_filename = false ->
            forall presp packages,
              backend self t1 (packages_request path_join self) = Some presp ->
              requests_ok presp = true ->
              body presp = PJson (JArr (map JObj packages)) ->
              forallb hashable (catalogue_names packages) = true ->
              let t2 := (t1 ++ [EvRequest (packages_request path_join self)])%list in
              let names := catalogue_names packages in
              init path_join self co_filename t
              = if nonempty (set_minus mandatory_packages names)
                then (Exit 1,
                      (t2 ++ [missing_mandatory_line
                                (set_minus mandatory_packages names)])%list)
                else if nonempty (set_minus optional_packages names)
                then (Ok tt,
                      (t2 ++ [missing_optional_line
                                (set_minus optional_packages names)])%list)
                else (Ok tt, t2))).
Proof.
  intros discovery t1. unfold init, bind.
  assert (Hpass : forall resp,
             backend self t discovery = Some resp ->
             status_code resp < 400 \/ 600 <= status_code resp ->
             verify_connection path_join self t = (Ok tt, t1)).
  { intros resp H Hst. rewrite (verify_connection_status self t resp H).
    replace (raises_for_status resp) with false; [reflexivity|].
    unfold raises_for_status. symmetry. apply andb_false_iff.
    rewrite Z.leb_gt, Z.ltb_ge. lia. }
  split; [|split].
  - intros H. rewrite (verify_connection_no_connection self t H).
    unfold t1. rewrite app_assoc. reflexivity.
  - intros resp H Hst. rewrite (verify_connection_status self t resp H).
    unfold raises_for_status.
    replace (400 <=? status_code resp) with true by (symmetry; apply Z.leb_le; lia).
    replace (status_code resp <? 600) with true by (symmetry; apply Z.ltb_lt; lia).
    unfold t1. rewrite app_assoc. reflexivity.
  - intros resp H Hst. rewrite (Hpass resp H Hst). split.
    + intros Hmig. rewrite Hmig. reflexivity.
    + intros Hmig presp packages Hp Hok Hbody Hhash. cbv zeta.
      rewrite Hmig. cbn [negb].
      exact (check_for_ct_packages_listed self t1 presp packages Hp Hok Hbody Hhash).
Qed.

End Startup.

Lemma startup_verifier_witness :
  init Examples.slash_join
    (Examples.startup_binding 200 ["ADAM CT"; "CDASH CT"; "SDTM CT"; "SEND CT"])
    Examples.this_file []
  = (Exit 1,
     [EvRequest (discovery_request Examples.slash_join (Examples.startup_binding 200 []));
      EvRequest (packages_request Examples.slash_join (Examples.startup_binding 200 []));
      missing_mandatory_line ["DEFINE-XML CT"]]).
Proof.
  pose proof (startup_verifier Examples.slash_join
                (Examples.startup_binding 200 ["ADAM CT"; "CDASH CT"; "SDTM CT"; "SEND CT"])
                Examples.this_file []) as H.
  cbv zeta in H. destruct H as [_ [_ H]].
  destruct (H (Examples.json_reply 200 (JObj [])) eq_refl (or_introl eq_refl))
    as [_ Hfetch].
  exact (Hfetch eq_refl
           (Examples.json_reply 200
              (JArr (map JObj (Examples.packages_named
                                 ["ADAM CT"; "CDASH CT"; "SDTM CT"; "SEND CT"]))))
           (Examples.packages_named ["ADAM CT"; "CDASH CT"; "SDTM CT"; "SEND CT"])
           eq_refl eq_refl eq_refl eq_refl).
Defined.

(** C7, as stated, fails: 304 is not a 2xx status, yet the verifier
    neither logs nor exits on it. *)
Lemma not_modified_passes_verifier :
  status_ok 304 = false
  /\ verify_connection Examples.slash_join (Examples.startup_binding 304 []) []
     = (Ok tt,
        [EvRequest (discovery_request Examples.slash_join
                      (Examples.startup_binding 304 []))])
  /\ init Examples.slash_join (Examples.startup_binding 304 [])
       "db-schema-migration/migrations/migration_001.py" []
     = (Ok tt,
        [EvRequest (discovery_request Examples.slash_join
                      (Examples.startup_binding 304 []))]).
Proof. repeat split; reflexivity. Qed.

(** *** What a caller sees of a failure *)

Lemma simple_post_to_api_category_message (fields : dict) (m : string) :
  dict_get "message" fields = Some (JStr m) ->
  simple_post_to_api_category (JObj fields) = Ok (simple_post_to_api_rules m).
Proof.
  intros H. unfold simple_post_to_api_category, simple_post_to_api_rules.
  rewrite !(message_matches_str _ fields m H). cbn [obind existsb].
  rewrite !orb_false_r, !orb_assoc.
  destruct (_ || _ || _ || _); [reflexivity|].
  destruct (is_substring _ m); reflexivity.
Qed.

Lemma simple_post_to_api_category_no_message (fields : dict) :
  dict_get "message" fields = None ->
  simple_post_to_api_category (JObj fields) = Ok Generic.
Proof.
  intros H. unfold simple_post_to_api_category.
  rewrite !(message_matches_absent _ fields H). reflexivity.
Qed.

Section Failures.

Variable path_join : list json -> string.
Variable py_repr : json -> string.

(** C8 (amended): a failed [simple_post_to_api] whose error body is a
    JSON object (with a text message, or none) hands the caller [None],
    the failure showing only as a warning line and one increment under
    the classified key; [get_libraries] and [create_library], however,
    raise the HTTP error to their caller on a 4xx/5xx status. *)
Theorem failures_seen_by_caller (self : ApiBinding) (t : trace) :
  (forall path sent simple_path params resp fields,
     let req := simple_post_request path_join self path sent params in
     let key := match simple_path with None => path | Some p => p end in
     backend self t req = Some resp ->
     requests_ok resp = false ->
     body resp = PJson (JObj fields) ->
     (forall m, dict_get "message" fields = Some (JStr m) ->
        simple_post_to_api path_join py_repr self path sent simple_path params t
        = (Ok JNull,
           (t ++ [EvRequest req; EvLog Debug "POST %s" [JStr path];
                  EvLog Warning
                    (match simple_post_to_api_rules m with
                     | Generic | NotFound => text resp
                     | _ => m
                     end) [];
                  EvMetric (key ++ category_suffix (simple_post_to_api_rules m)) 1])%list))
     /\ (dict_get "message" fields = None ->
         simple_post_to_api path_join py_repr self path sent simple_path params t
         = (Ok JNull,
            (t ++ [EvRequest req; EvLog Debug "POST %s" [JStr path];
                   EvLog Warning (text resp) [];
                   EvMetric (key ++ "--ERROR") 1])%list)))
  /\ (forall resp,
        backend self t (libraries_request path_join self) = Some resp ->
        400 <= status_code resp < 600 ->
        get_libraries path_join self t
        = (Raise HTTPError, (t ++ [EvRequest (libraries_request path_join self)])%list))
  /\ (forall object resp,
        backend self (t ++ [EvMetric "/libraries" 1])%list
          (create_library_request path_join self object) = Some resp ->
        400 <= status_code resp < 600 ->
        create_library path_join self object t
        = (Raise HTTPError,
           (t ++ [EvMetric "/libraries" 1;
                  EvRequest (create_library_request path_join self object)])%list)).
Proof.
  assert (Hraises : forall resp, 400 <= status_code resp < 600 ->
                                 raises_for_status resp = true).
  { intros resp Hst. unfold raises_for_status.
    apply andb_true_iff. rewrite Z.leb_le, Z.ltb_lt. lia. }
  split; [|split].
  - intros path sent simple_path params resp fields req key Hreply Hfail Hbody.
    subst req key. unfold simple_post_to_api, simple_post_request in *. run_m.
    rewrite Hreply, Hfail. unfold requests_json. rewrite Hbody. split.
    + intros m Hm. rewrite (simple_post_to_api_category_message fields m Hm).
      unfold py_getitem. rewrite Hm.
      destruct (simple_post_to_api_rules m); cbn [py_str];
        rewrite <- !app_assoc; reflexivity.
    + intros Hm. rewrite (simple_post_to_api_category_no_message fields Hm).
      rewrite <- !app_assoc. reflexivity.
  - intros resp Hreply Hst. unfold get_libraries, libraries_request, raise_for_status in *.
    run_m. rewrite Hreply, (Hraises resp Hst). reflexivity.
  - intros object resp Hreply Hst.
    unfold create_library, create_library_request, raise_for_status in *.
    run_m. rewrite Hreply, (Hraises resp Hst), <- app_assoc. reflexivity.
Qed.

End Failures.

Lemma failures_seen_by_caller_witness :
  simple_post_to_api Examples.slash_join Examples.scalar_repr
    (Examples.refusing_binding 409 (PJson (JObj Examples.conflict)))
    "libraries" (JObj [("name", JStr "Sponsor")]) None None []
  = (Ok JNull,
     [EvRequest (simple_post_request Examples.slash_join
                   (Examples.refusing_binding 409 (PJson (JObj Examples.conflict)))
                   "libraries" (JObj [("name", JStr "Sponsor")]) None);
      EvLog Debug "POST %s" [JStr "libraries"];
      EvLog Warning "Library already exists" [];
      EvMetric "libraries--AlreadyExists" 1]).
Proof.
  exact (proj1 (proj1 (failures_seen_by_caller Examples.slash_join Examples.scalar_repr
                         (Examples.refusing_binding 409 (PJson (JObj Examples.conflict)))
                         [])
                  "libraries" (JObj [("name", JStr "Sponsor")]) None None
                  (mkResponse 409 (PJson (JObj Examples.conflict))
                     "<html>Bad Gateway</html>" "Bad Gateway")
                  Examples.conflict eq_refl eq_refl eq_refl)
           "Library already exists" eq_refl).
Defined.

(** C8, as stated, fails: on a 500 reply [get_libraries] and
    [create_library] raise to their caller, and so does
    [simple_post_to_api] when the error body is not JSON. *)
Lemma get_libraries_raises_to_caller :
  get_libraries Examples.slash_join (Examples.refusing_binding 500 PText) []
  = (Raise HTTPError,
     [EvRequest (libraries_request Examples.slash_join
                   (Examples.refusing_binding 500 PText))])
  /\ fst (create_library Examples.slash_join (Examples.refusing_binding 500 PText)
            (JObj [("name", JStr "Sponsor")]) [])
     = Raise HTTPError
  /\ fst (simple_post_to_api Examples.slash_join Examples.scalar_repr
            (Examples.refusing_binding 502 PText)
            "libraries" (JObj [("name", JStr "Sponsor")]) None None [])
     = Raise JSONDecodeError.
Proof. repeat split; reflexivity. Qed.

(** *** Traces only grow *)

Section Emits.

Context {A B : Type} (Q : event -> Prop).

Lemma emits_ret (a : A) : emits Q (ret a).
Proof. intros t. exists []. rewrite app_nil_r. split; [reflexivity | constructor]. Qed.

Lemma emits_lift (o : outcome A) : emits Q (lift o).
Proof. intros t. exists []. rewrite app_nil_r. split; [reflexivity | constructor]. Qed.

Lemma emits_sys_exit (c : Z) : emits Q (@sys_exit A c).
Proof. intros t. exists []. rewrite app_nil_r. split; [reflexivity | constructor]. Qed.

Lemma emits_bind (m : M A) (k : A -> M B) :
  emits Q m -> (forall a, emits Q (k a)) -> emits Q (bind m k).
Proof.
  intros Hm Hk t. unfold bind. destruct (Hm t) as (tail & Heq & HQ).
  destruct (m t) as [[a|e|c|] t']; cbn [snd] in Heq; subst t'.
  - destruct (Hk a (t ++ tail)%list) as (tail' & Heq' & HQ').
    exists (tail ++ tail')%list. rewrite Heq', app_assoc.
    split; [reflexivity | apply Forall_app; split; assumption].
  - exists tail. split; [reflexivity | assumption].
  - exists tail. split; [reflexivity | assumption].
  - exists tail. split; [reflexivity | assumption].
Qed.

Lemma emits_try_except (m : M A) (handles : exn -> bool) (handler : exn -> M A) :
  emits Q m -> (forall e, emits Q (handler e)) -> emits Q (try_except m handles handler).
Proof.
  intros Hm Hh t. unfold try_except. destruct (Hm t) as (tail & Heq & HQ).
  destruct (m t) as [[a|e|c|] t']; cbn [snd] in Heq; subst t';
    try (exists tail; split; [reflexivity | assumption]).
  destruct (handles e); [|exists tail; split; [reflexivity | assumption]].
  destruct (Hh e (t ++ tail)%list) as (tail' & Heq' & HQ').
  exists (tail ++ tail')%list. rewrite Heq', app_assoc.
  split; [reflexivity | apply Forall_app; split; assumption].
Qed.

End Emits.

Lemma emits_emit (Q : event -> Prop) (e : event) : Q e -> emits Q (emit e).
Proof.
  intros HQ t. exists [e]. split; [reflexivity | constructor; [assumption | constructor]].
Qed.

Lemma emits_send (Q : event -> Prop) (self : ApiBinding) (r : request) :
  Q (EvRequest r) -> emits Q (send self r).
Proof.
  intros HQ t. exists [EvRequest r]. unfold send.
  destruct (backend self t r); (split; [reflexivity | constructor; [assumption | constructor]]).
Qed.

(** A request followed by a continuation: the request is on the trace
    whatever the backend answers, and what follows it satisfies [Q]. *)
Lemma send_then {A} (Q : event -> Prop) (self : ApiBinding) (r : request)
    (k : response -> M A) (t : trace) :
  (forall resp, emits Q (k resp)) ->
  exists o tail,
    bind (send self r) k t = (o, (t ++ EvRequest r :: tail)%list) /\ Forall Q tail.
Proof.
  intros Hk. unfold bind, send. destruct (backend self t r) as [resp|].
  - destruct (Hk resp (t ++ [EvRequest r])%list) as (tail & Heq & HQ).
    exists (fst (k resp (t ++ [EvRequest r])%list)), tail. split; [|exact HQ].
    destruct (k resp (t ++ [EvRequest r])%list) as [o t'].
    cbn [fst snd] in *. subst t'. rewrite <- app_assoc. reflexivity.
  - exists (Raise ConnectionError), []. split; [reflexivity | constructor].
Qed.

(** Breaks a goal [emits Q m] down along the structure of [m]. *)
Ltac emits_step :=
  match goal with
  | |- emits _ (bind _ _) => apply emits_bind; [|intros ?]
  | |- emits _ (try_except _ _ _) => apply emits_try_except; [|intros ?]
  | |- emits _ (ret _) => apply emits_ret
  | |- emits _ (lift _) => apply emits_lift
  | |- emits _ (sys_exit _) => apply emits_sys_exit
  | |- emits _ (send _ _) => apply emits_send; exact I
  | |- emits _ (log _ _ _) => apply emits_emit; first [reflexivity | exact I]
  | |- emits _ (icrement _ _) => apply emits_emit; first [reflexivity | exact I]
  | |- emits _ (time_sleep _) => apply emits_emit; first [reflexivity | exact I]
  | |- emits _ (emit _) => apply emits_emit; first [reflexivity | exact I]
  | |- emits _ (if ?c then _ else _) => destruct c
  | |- emits _ (match ?x with _ => _ end) => destruct x
  end.

(** Stepping a sequence from its head. *)
Lemma bind_lift_ok {A B} (a : A) (k : A -> M B) (t : trace) :
  bind (lift (Ok a)) k t = k a t.
Proof. reflexivity. Qed.

Lemma bind_lift_raise {A B} (e : exn) (k : A -> M B) (t : trace) :
  bind (lift (Raise e)) k t = (Raise e, t).
Proof. reflexivity. Qed.

Lemma bind_ret {A B} (a : A) (k : A -> M B) (t : trace) :
  bind (ret a) k t = k a t.
Proof. reflexivity. Qed.

Lemma bind_log {B} (lvl : level) (fmt : string) (args : list json)
    (k : unit -> M B) (t : trace) :
  bind (log lvl fmt args) k t = k tt (t ++ [EvLog lvl fmt args])%list.
Proof. reflexivity. Qed.

Lemma bind_time_sleep {B} (d : Z * Z) (k : unit -> M B) (t : trace) :
  bind (time_sleep d) k t = k tt (t ++ [EvSleep (fst d) (snd d)])%list.
Proof. reflexivity. Qed.

Lemma bind_icrement {B} (key : string) (n : Z) (k : unit -> M B) (t : trace) :
  bind (icrement key n) k t = k tt (t ++ [EvMetric key n])%list.
Proof. reflexivity. Qed.

Lemma bind_ok {A B} (m : M A) (k : A -> M B) (t t' : trace) (a : A) :
  m t = (Ok a, t') -> bind m k t = k a t'.
Proof. intros H. unfold bind. rewrite H. reflexivity. Qed.

Ltac step :=
  first [ rewrite bind_lift_ok | rewrite bind_lift_raise | rewrite bind_ret
        | rewrite bind_log | rewrite bind_time_sleep | rewrite bind_icrement ].

Section Workflows.

Variable path_join : list json -> string.
Variable py_repr : json -> string.

(** After its one request, [approve_item_async] makes no other. *)
Lemma approve_item_async_one_request (self : ApiBinding) (uid url : json) (t : trace) :
  exists o tail,
    approve_item_async path_join py_repr self uid url t
    = (o, (t ++ EvRequest (approval_request path_join self url uid) :: tail)%list)
    /\ Forall not_request tail.
Proof.
  unfold approve_item_async, approval_request. cbv zeta.
  apply send_then. intros resp. repeat emits_step.
Qed.

Lemma post_to_api_async_json (self : ApiBinding) (url sent : json) (resp : response)
    (j : json) (t : trace) :
  backend self t (post_request path_join self url sent) = Some resp ->
  body resp = PJson j ->
  post_to_api_async path_join self url sent None t
  = (Ok (status_code resp, j),
     (t ++ [EvRequest (post_request path_join self url sent)])%list).
Proof.
  intros Hreply Hbody. unfold post_to_api_async, post_request, aiohttp_json in *.
  run_m. rewrite Hreply, Hbody. reflexivity.
Qed.

(** C2: when the post succeeds (status below 400) with a body carrying a
    uid and approval was asked for, the workflow logs, posts, sleeps the
    fixed delay, logs again and then sends one approval request, to
    [{approve_path}/{uid}/approvals]; nothing after it is a request, so
    the post and that approval are the only two requests, in that order. *)
Theorem post_then_approve_approves_once (self : ApiBinding)
    (data path item approve_path answer uid : json) (resp : response) (t : trace) :
  py_getitem data "path" = Ok path ->
  py_getitem data "body" = Ok item ->
  py_getitem data "approve_path" = Ok approve_path ->
  backend self (t ++ [EvLog Debug "Post to {data['path']}" [path]])%list
    (post_request path_join self path item) = Some resp ->
  status_code resp < 400 ->
  body resp = PJson answer ->
  py_get answer "uid" = Ok uid ->
  is_none uid = false ->
  exists o tail,
    let issued :=
      ([EvLog Debug "Post to {data['path']}" [path];
        EvRequest (post_request path_join self path item);
        the_sleep;
        EvLog Info "Approve object with uid '{uid}'" [uid];
        EvRequest (approval_request path_join self approve_path uid)] ++ tail)%list in
    post_then_approve path_join py_repr self data true t = (o, (t ++ issued)%list)
    /\ Forall not_request tail
    /\ requests_in issued
       = [post_request path_join self path item;
          approval_request path_join self approve_path uid]
    /\ rq_url (approval_request path_join self approve_path uid)
       = path_join [JStr (api_base_url self); approve_path; uid; JStr "approvals"].
Proof.
  intros Hpath Hitem Happrove Hreply Hstatus Hbody Huid Hsome.
  destruct (approve_item_async_one_request self uid approve_path
              (t ++ [EvLog Debug "Post to {data['path']}" [path];
                     EvRequest (post_request path_join self path item);
                     the_sleep;
                     EvLog Info "Approve object with uid '{uid}'" [uid]])%list)
    as (o & tail & Happ & Htail).
  exists (match o with Ok a => Ok (snd a) | Raise e => Raise e
                  | Exit c => Exit c | OutOfFuel => OutOfFuel end), tail.
  cbv zeta. split; [|split; [exact Htail|split; [|reflexivity]]].
  - unfold post_then_approve. rewrite Hpath, Hitem, Happrove. do 4 step.
    rewrite (bind_ok _ _ _ _ _
               (post_to_api_async_json self path item resp answer _ Hreply Hbody)).
    cbn [fst snd].
    replace (400 <=? status_code resp) with false by (symmetry; apply Z.leb_gt; lia).
    rewrite Huid. step. rewrite Hsome. cbn [andb negb]. do 3 step.
    rewrite <- !app_assoc. cbn [app].
    unfold the_sleep in Happ. unfold bind. rewrite Happ.
    destruct o; rewrite <- app_assoc; reflexivity.
  - cbn [requests_in flat_map app].
    replace (flat_map _ tail) with (@nil request); [reflexivity|].
    clear Happ. induction Htail as [|e rest He _ IH]; [reflexivity|].
    unfold not_request in He. cbn [flat_map].
    destruct e; cbn [is_request] in He; try discriminate He; exact IH.
Qed.

Lemma post_to_api_async_reply (self : ApiBinding) (url sent : json) (resp : response)
    (t : trace) :
  backend self t (post_request path_join self url sent) = Some resp ->
  post_to_api_async path_join self url sent None t
  = (obind (decoded resp) (fun result => Ok (status_code resp, result)),
     (t ++ EvRequest (post_request path_join self url sent)
         :: post_decode_log url resp)%list).
Proof.
  intros Hreply.
  unfold post_to_api_async, post_request, post_decode_log, decode_log, decoded,
    aiohttp_json in *.
  run_m. rewrite Hreply.
  destruct (body resp); cbn [is_exn]; rewrite <- ?app_assoc; reflexivity.
Qed.

(** C6: when the post succeeds but its response carries no uid (the key
    is absent or null, or the body was not JSON and reads as the empty
    object) and approval was asked for, the only request is the post; an
    error line is logged last and the post response is handed back. *)
Theorem post_then_approve_skips_without_uid (self : ApiBinding)
    (data path item answer : json) (resp : response) (t : trace) :
  py_getitem data "path" = Ok path ->
  py_getitem data "body" = Ok item ->
  backend self (t ++ [EvLog Debug "Post to {data['path']}" [path]])%list
    (post_request path_join self path item) = Some resp ->
  status_code resp < 400 ->
  decoded resp = Ok answer ->
  py_get answer "uid" = Ok JNull ->
  let issued :=
    ([EvLog Debug "Post to {data['path']}" [path];
      EvRequest (post_request path_join self path item)]
     ++ post_decode_log path resp
     ++ [EvLog Error "No uid returned, unable to approve" []])%list in
  post_then_approve path_join py_repr self data true t = (Ok answer, (t ++ issued)%list)
  /\ requests_in issued = [post_request path_join self path item].
Proof.
  intros Hpath Hitem Hreply Hstatus Hbody Huid issued. split.
  - unfold post_then_approve. rewrite Hpath, Hitem. do 4 step.
    unfold bind at 1.
    rewrite (post_to_api_async_reply self path item resp _ Hreply), Hbody.
    cbn [obind fst snd].
    replace (400 <=? status_code resp) with false by (symmetry; apply Z.leb_gt; lia).
    rewrite Huid. step. cbn [is_none andb negb]. step.
    unfold ret, issued. rewrite <- !app_assoc. cbn [app]. rewrite <- ?app_assoc.
    reflexivity.
  - unfold issued, post_decode_log, decode_log. destruct (body resp); reflexivity.
Qed.

End Workflows.

Lemma post_then_approve_approves_once_witness :
  exists o tail,
    let self := Examples.creating_binding (JObj [("uid", JStr "U1")]) in
    let issued :=
      ([EvLog Debug "Post to {data['path']}" [JStr "objective-templates"];
        EvRequest (post_request Examples.slash_join self (JStr "objective-templates")
                     (JObj [("name", JStr "X")]));
        the_sleep;
        EvLog Info "Approve object with uid '{uid}'" [JStr "U1"];
        EvRequest (approval_request Examples.slash_join self
                     (JStr "objective-templates") (JStr "U1"))] ++ tail)%list in
    post_then_approve Examples.slash_join Examples.scalar_repr self
      Examples.template_item true [] = (o, ([] ++ issued)%list)
    /\ Forall not_request tail
    /\ requests_in issued
       = [post_request Examples.slash_join self (JStr "objective-templates")
            (JObj [("name", JStr "X")]);
          approval_request Examples.slash_join self (JStr "objective-templates")
            (JStr "U1")]
    /\ rq_url (approval_request Examples.slash_join self (JStr "objective-templates")
                 (JStr "U1"))
       = "http://api/objective-templates/U1/approvals".
Proof.
  exact (post_then_approve_approves_once Examples.slash_join Examples.scalar_repr
           (Examples.creating_binding (JObj [("uid", JStr "U1")]))
           Examples.template_item (JStr "objective-templates")
           (JObj [("name", JStr "X")]) (JStr "objective-templates")
           (JObj [("uid", JStr "U1")]) (JStr "U1")
           (Examples.json_reply 201 (JObj [("uid", JStr "U1")])) []
           eq_refl eq_refl eq_refl eq_refl eq_refl eq_refl eq_refl eq_refl).
Defined.

Lemma post_then_approve_skips_without_uid_witness :
  let self := Examples.creating_binding (JObj [("name", JStr "X")]) in
  post_then_approve Examples.slash_join Examples.scalar_repr self
    Examples.template_item true []
  = (Ok (JObj [("name", JStr "X")]),
     [EvLog Debug "Post to {data['path']}" [JStr "objective-templates"];
      EvRequest (post_request Examples.slash_join self (JStr "objective-templates")
                   (JObj [("name", JStr "X")]));
      EvLog Error "No uid returned, unable to approve" []]).
Proof.
  exact (proj1 (post_then_approve_skips_without_uid Examples.slash_join
                  Examples.scalar_repr
                  (Examples.creating_binding (JObj [("name", JStr "X")]))
                  Examples.template_item (JStr "objective-templates")
                  (JObj [("name", JStr "X")]) (JObj [("name", JStr "X")])
                  (Examples.json_reply 201 (JObj [("name", JStr "X")])) []
                  eq_refl eq_refl eq_refl eq_refl eq_refl eq_refl)).
Defined.

(** *** The version-then-patch workflow *)

Lemma bind_assoc {A B C} (m : M A) (k1 : A -> M B) (k2 : B -> M C) (t : trace) :
  bind (bind m k1) k2 t = bind m (fun a => bind (k1 a) k2) t.
Proof. unfold bind. destruct (m t) as [[a|e|c|] t']; reflexivity. Qed.

Lemma bind_after {A B} (Q : event -> Prop) (m : M A) (k : A -> M B)
    (t t1 : trace) (o1 : outcome A) :
  m t = (o1, t1) ->
  (forall a, emits Q (k a)) ->
  exists o tail, bind m k t = (o, (t1 ++ tail)%list) /\ Forall Q tail.
Proof.
  intros Hm Hk. unfold bind. rewrite Hm. destruct o1 as [a|e|c|].
  - destruct (Hk a t1) as (tail & Heq & HQ).
    exists (fst (k a t1)), tail. split; [|exact HQ].
    destruct (k a t1) as [o t']. cbn [fst snd] in *. subst t'. reflexivity.
  - exists (Raise e), []. rewrite app_nil_r. split; [reflexivity | constructor].
  - exists (Exit c), []. rewrite app_nil_r. split; [reflexivity | constructor].
  - exists OutOfFuel, []. rewrite app_nil_r. split; [reflexivity | constructor].
Qed.

Lemma py_contains_plain (key : string) (x : json) : plain (py_contains key x).
Proof. destruct x; exact I. Qed.

Lemma py_getitem_plain (x : json) (key : string) : plain (py_getitem x key).
Proof. destruct x; cbn; try exact I. destruct (dict_get key fields); exact I. Qed.

Lemma obind_plain {A B} (o : outcome A) (k : A -> outcome B) :
  plain o -> (forall a, plain (k a)) -> plain (obind o k).
Proof. intros Ho Hk. destruct o; cbn; try exact Ho. apply Hk. Qed.

Lemma get_error_message_plain (py_repr : json -> string) (x : json) :
  plain (get_error_message py_repr x).
Proof.
  unfold get_error_message.
  apply obind_plain; [apply py_contains_plain|]. intros [|].
  - apply py_getitem_plain.
  - apply obind_plain; [apply py_contains_plain|]. intros [|]; [|exact I].
    apply obind_plain; [apply py_getitem_plain | intros d; exact I].
Qed.

Lemma decoded_plain (resp : response) : plain (decoded resp).
Proof. unfold decoded. destruct (body resp); exact I. Qed.

Lemma decode_log_quiet (what : string) (path : json) (resp : response) :
  Forall not_request (decode_log what path resp).
Proof. unfold decode_log. destruct (body resp); repeat constructor. Qed.

Lemma json_or_empty_reads (resp : response) (what : string) (path : json) (t : trace) :
  json_or_empty resp what path t = (decoded resp, (t ++ decode_log what path resp)%list).
Proof.
  unfold json_or_empty, decoded, decode_log, aiohttp_json. run_m.
  destruct (body resp); cbn [is_exn]; rewrite ?app_nil_r; reflexivity.
Qed.

Section VersionWorkflow.

Variable path_join : list json -> string.
Variable py_repr : json -> string.

Lemma new_version_to_api_async_reply (self : ApiBinding) (new_path : json)
    (resp : response) (t : trace) :
  backend self t (new_version_request path_join self new_path) = Some resp ->
  new_version_to_api_async path_join self new_path t
  = (obind (decoded resp) (fun result => Ok (status_code resp, result)),
     (t ++ EvRequest (new_version_request path_join self new_path)
         :: version_decode_log new_path resp)%list).
Proof.
  intros Hreply. unfold new_version_to_api_async, new_version_request in *. cbv zeta.
  unfold bind at 1, send at 1. rewrite Hreply.
  unfold bind. rewrite json_or_empty_reads. unfold version_decode_log.
  rewrite <- app_assoc. destruct (decoded resp); reflexivity.
Qed.

Lemma patch_to_api_async_reply (self : ApiBinding) (patch_path sent : json)
    (resp : response) (t : trace) :
  backend self t (patch_request path_join self patch_path sent) = Some resp ->
  patch_to_api_async path_join self patch_path sent t
  = (obind (decoded resp) (fun result => Ok (status_code resp, result)),
     (t ++ EvRequest (patch_request path_join self patch_path sent)
         :: patch_decode_log patch_path resp)%list).
Proof.
  intros Hreply. unfold patch_to_api_async, patch_request in *. cbv zeta.
  unfold bind at 1, send at 1. rewrite Hreply.
  unfold bind. rewrite json_or_empty_reads. unfold patch_decode_log.
  rewrite <- app_assoc. destruct (decoded resp); reflexivity.
Qed.

(** Whatever the backend answers, [patch_to_api_async] puts its request
    on the trace first. *)
Lemma patch_to_api_async_sends (self : ApiBinding) (patch_path sent : json) (t : trace) :
  exists o tail,
    patch_to_api_async path_join self patch_path sent t
    = (o, (t ++ EvRequest (patch_request path_join self patch_path sent) :: tail)%list)
    /\ Forall not_request tail.
Proof.
  unfold patch_to_api_async, patch_request. cbv zeta.
  apply send_then. intros resp. unfold json_or_empty. repeat emits_step.
Qed.

(** The version step when it lets the workflow go on. *)
Lemma new_version_step_passes (self : ApiBinding) (data new_path : json)
    (resp : response) (t : trace) :
  py_getitem data "new_path" = Ok new_path ->
  backend self t (new_version_request path_join self new_path) = Some resp ->
  version_passes py_repr resp ->
  new_version_step path_join py_repr self data t
  = (Ok true,
     (t ++ EvRequest (new_version_request path_join self new_path)
         :: version_decode_log new_path resp
         ++ (if status_ok (status_code resp) then [] else [draft_warning]))%list).
Proof.
  intros Hnew Hreply Hpass. unfold new_version_step. rewrite Hnew. step.
  unfold bind at 1. rewrite (new_version_to_api_async_reply self new_path resp t Hreply).
  destruct Hpass as [[Hok Hwell]|[Hfail Hdraft]].
  - rewrite Hok. unfold decoded, version_decode_log, decode_log in *.
    destruct (body resp); try (contradiction Hwell; reflexivity);
      cbn [obind fst snd]; rewrite Hok; cbn [negb]; unfold ret;
      rewrite ?app_nil_r; reflexivity.
  - rewrite Hfail. unfold draft_reading in Hdraft.
    destruct (decoded resp) as [result| | |]; cbn [obind] in Hdraft;
      try discriminate Hdraft.
    cbn [obind fst snd]. rewrite Hfail. cbn [negb].
    destruct (get_error_message py_repr result) as [msg| | |]; cbn [obind] in Hdraft;
      try discriminate Hdraft.
    step. rewrite Hdraft. do 2 step. unfold ret, draft_warning.
    rewrite <- app_assoc. reflexivity.
Qed.

(** The version step when it fails for any other reason. *)
Lemma new_version_step_stops (self : ApiBinding) (data new_path : json)
    (resp : response) (t : trace) :
  py_getitem data "new_path" = Ok new_path ->
  backend self t (new_version_request path_join self new_path) = Some resp ->
  status_ok (status_code resp) = false ->
  draft_reading py_repr resp <> Ok true ->
  exists o tail,
    new_version_step path_join py_repr self data t
    = (o, (t ++ EvRequest (new_version_request path_join self new_path) :: tail)%list)
    /\ Forall not_request tail
    /\ (o = Ok false \/ exists e, o = Raise e).
Proof.
  intros Hnew Hreply Hfail Hdraft. unfold new_version_step. rewrite Hnew. step.
  unfold bind at 1. rewrite (new_version_to_api_async_reply self new_path resp t Hreply).
  unfold draft_reading in Hdraft.
  pose proof (decoded_plain resp) as Hplain.
  pose proof (decode_log_quiet
                "Failed to post to '{path}', status: {status}, message: {textresult}"
                new_path resp) as Hquiet.
  fold (version_decode_log new_path resp) in Hquiet.
  destruct (decoded resp) as [result|e| |]; cbn [obind] in Hdraft |- *;
    try contradiction Hplain.
  - cbn [fst snd]. rewrite Hfail. cbn [negb].
    pose proof (get_error_message_plain py_repr result) as Hplain1.
    destruct (get_error_message py_repr result) as [msg|e| |]; cbn [obind] in Hdraft;
      try contradiction Hplain1.
    + step. pose proof (py_contains_plain NEW_DRAFT_ONLY_FOR_FINAL msg) as Hplain2.
      destruct (py_contains NEW_DRAFT_ONLY_FOR_FINAL msg) as [[|]|e| |];
        try contradiction Hplain2.
      * contradiction Hdraft. reflexivity.
      * do 2 step. unfold ret. eexists _, _. rewrite <- app_assoc. cbn [app].
        split; [reflexivity|]. split; [|left; reflexivity].
        apply Forall_app. split; [exact Hquiet | repeat constructor].
      * step. eexists _, _. split; [reflexivity|]. split; [exact Hquiet | right; eauto].
    + step. eexists _, _. split; [reflexivity|]. split; [exact Hquiet | right; eauto].
  - eexists _, _. split; [reflexivity|]. split; [exact Hquiet | right; eauto].
Qed.

(** The second half starts with the patch request. *)
Lemma patch_steps_send (self : ApiBinding) (data patch_path item : json)
    (approve : bool) (t : trace) :
  py_getitem data "patch_path" = Ok patch_path ->
  py_getitem data "body" = Ok item ->
  exists o tail,
    patch_and_approve_steps path_join py_repr self data approve t
    = (o, (t ++ EvRequest (patch_request path_join self patch_path item) :: tail)%list).
Proof.
  intros Hpatch Hitem. unfold patch_and_approve_steps. rewrite Hpatch, Hitem. do 2 step.
  destruct (patch_to_api_async_sends self patch_path item t) as (o1 & tail1 & Hsend & _).
  match goal with
  | |- context [bind (patch_to_api_async ?pj ?s ?p ?i) ?k ?tr] =>
      destruct (bind_after any_event (patch_to_api_async pj s p i) k tr _ _ Hsend)
        as (o & tail & Hrun & _);
      [intros a; cbv zeta; unfold approve_item_async; repeat emits_step|]
  end.
  exists o, (tail1 ++ tail)%list. rewrite Hrun, <- app_assoc. reflexivity.
Qed.

(** A failed patch ends the second half: no request follows it. *)
Lemma patch_steps_failure (self : ApiBinding) (data patch_path item : json)
    (resp : response) (approve : bool) (t : trace) :
  py_getitem data "patch_path" = Ok patch_path ->
  py_getitem data "body" = Ok item ->
  backend self t (patch_request path_join self patch_path item) = Some resp ->
  status_ok (status_code resp) = false ->
  exists o tail,
    patch_and_approve_steps path_join py_repr self data approve t
    = (o, (t ++ EvRequest (patch_request path_join self patch_path item) :: tail)%list)
    /\ Forall not_request tail
    /\ (o = Ok JNull \/ exists e, o = Raise e).
Proof.
  intros Hpatch Hitem Hreply Hfail.
  unfold patch_and_approve_steps. rewrite Hpatch, Hitem. do 2 step.
  unfold bind at 1. rewrite (patch_to_api_async_reply self patch_path item resp t Hreply).
  pose proof (decoded_plain resp) as Hplain.
  pose proof (decode_log_quiet
                "Failed to patch to '{path}', status: {status}, message: {textresult}"
                patch_path resp) as Hquiet.
  fold (patch_decode_log patch_path resp) in Hquiet.
  destruct (decoded resp) as [result|e| |]; cbn [obind]; try contradiction Hplain.
  - cbv zeta. cbn [fst snd]. rewrite Hfail. cbn [negb].
    pose proof (get_error_message_plain py_repr result) as Hplain1.
    destruct (get_error_message py_repr result) as [msg|e| |];
      try contradiction Hplain1.
    + do 2 step. unfold ret. eexists _, _. rewrite <- app_assoc. cbn [app].
      split; [reflexivity|]. split; [|left; reflexivity].
      apply Forall_app. split; [exact Hquiet | repeat constructor].
    + step. eexists _, _. split; [reflexivity|]. split; [exact Hquiet | right; eauto].
  - eexists _, _. split; [reflexivity|]. split; [exact Hquiet | right; eauto].
Qed.

(** What the version step makes of a failed reply is decided by what
    the reply reports. *)
Lemma draft_reading_content (resp : response) :
  draft_reading py_repr resp = Ok true <-> already_in_draft py_repr resp = true.
Proof.
  unfold draft_reading, already_in_draft, decoded, get_error_message, reported_error,
    mentions_draft.
  destruct (body resp) as [[| | |s|l|fields]| |]; cbn [obind py_contains py_getitem];
    try (split; intros H; discriminate H).
  - destruct (is_substring "message" s); destruct (is_substring "detail" s);
      cbn [negb andb obind py_contains py_str]; split; congruence.
  - destruct (existsb (is_str "message") l); destruct (existsb (is_str "detail") l);
      cbn [negb andb obind py_contains py_str]; split; congruence.
  - unfold dict_has.
    destruct (dict_get "message" fields) as [m|];
      [destruct m|destruct (dict_get "detail" fields) as [d|]];
      cbn [obind py_contains py_str]; unfold dict_has; split; congruence.
  - cbn [dict_get dict_has obind py_contains py_str]. split; congruence.
Qed.

Lemma version_lets_through_passes (resp : response) :
  version_lets_through py_repr resp -> version_passes py_repr resp.
Proof.
  intros [H|[Hfail Hdraft]]; [left; exact H|].
  right. split; [exact Hfail | apply draft_reading_content; exact Hdraft].
Qed.

(** C5: when version creation fails with an error message containing
    "New draft version can be created only for FINAL versions", a warning
    is logged and the patch request is still sent; on any other
    version-creation failure the version request is the last request and
    the workflow ends there; and when the patch fails, the patch request
    is the last request (no approval follows).  Which failures say
    "already in draft" is read off the reply itself: for a reply with a
    text message it is whether that text contains the sentence. *)
Theorem new_version_failure_handling (self : ApiBinding) (data new_path : json)
    (vresp : response) (approve : bool) (t : trace) :
  py_getitem data "new_path" = Ok new_path ->
  backend self t (new_version_request path_join self new_path) = Some vresp ->
  let run := new_version_patch_then_approve path_join py_repr self data approve t in
  let nv := EvRequest (new_version_request path_join self new_path) in
  let entered := (t ++ nv :: version_decode_log new_path vresp)%list in
  (status_ok (status_code vresp) = false ->
   already_in_draft py_repr vresp = true ->
   forall patch_path item,
     py_getitem data "patch_path" = Ok patch_path ->
     py_getitem data "body" = Ok item ->
     exists o tail,
       run = (o, (entered ++ [draft_warning;
                              EvRequest (patch_request path_join self patch_path item)]
                    ++ tail)%list))
  /\ (status_ok (status_code vresp) = false ->
      already_in_draft py_repr vresp = false ->
      exists o tail,
        run = (o, (t ++ nv :: tail)%list)
        /\ Forall not_request tail
        /\ (o = Ok JNull \/ exists e, o = Raise e))
  /\ (version_lets_through py_repr vresp ->
      forall patch_path item presp,
        py_getitem data "patch_path" = Ok patch_path ->
        py_getitem data "body" = Ok item ->
        let t2 :=
          (entered ++ (if status_ok (status_code vresp) then [] else [draft_warning]))%list in
        backend self t2 (patch_request path_join self patch_path item) = Some presp ->
        status_ok (status_code presp) = false ->
        exists o tail,
          run = (o, (t2 ++ EvRequest (patch_request path_join self patch_path item)
                        :: tail)%list)
          /\ Forall not_request tail
          /\ (o = Ok JNull \/ exists e, o = Raise e))
  /\ (forall fields m,
        body vresp = PJson (JObj fields) ->
        dict_get "message" fields = Some (JStr m) ->
        already_in_draft py_repr vresp = is_substring NEW_DRAFT_ONLY_FOR_FINAL m).
Proof.
  intros Hnew Hreply run nv entered. subst run.
  unfold new_version_patch_then_approve.
  split; [|split; [|split]].
  - intros Hfail Hdraft patch_path item Hpatch Hitem.
    apply draft_reading_content in Hdraft.
    rewrite (bind_ok _ _ _ _ _
               (new_version_step_passes self data new_path vresp t Hnew Hreply
                  (or_intror (conj Hfail Hdraft)))).
    rewrite Hfail. cbn [negb].
    destruct (patch_steps_send self data patch_path item approve
                (t ++ nv :: version_decode_log new_path vresp ++ [draft_warning])%list
                Hpatch Hitem) as (o & tail & Hrun).
    exists o, tail. fold nv. rewrite Hrun. subst entered.
    rewrite <- !app_assoc. cbn [app]. rewrite <- !app_assoc. reflexivity.
  - intros Hfail Hother.
    assert (Hdraft : draft_reading py_repr vresp <> Ok true).
    { intros H. apply draft_reading_content in H. rewrite H in Hother.
      discriminate Hother. }
    destruct (new_version_step_stops self data new_path vresp t Hnew Hreply Hfail Hdraft)
      as (o & tail & Hstep & Hquiet & Ho).
    unfold bind. rewrite Hstep. fold nv.
    destruct Ho as [->|[e ->]].
    + cbn [negb]. exists (Ok JNull), tail. repeat split; [exact Hquiet | left; reflexivity].
    + exists (Raise e), tail. repeat split; [exact Hquiet | right; eauto].
  - intros Hthrough patch_path item presp Hpatch Hitem. cbv zeta. intros Hpreply Hpfail.
    pose proof (version_lets_through_passes vresp Hthrough) as Hpass.
    rewrite (bind_ok _ _ _ _ _
               (new_version_step_passes self data new_path vresp t Hnew Hreply Hpass)).
    cbn [negb]. fold nv. subst entered.
    rewrite <- app_assoc in Hpreply. cbn [app] in Hpreply.
    destruct (patch_steps_failure self data patch_path item presp approve _
                Hpatch Hitem Hpreply Hpfail) as (o & tail & Hrun & Hquiet & Ho).
    exists o, tail. rewrite Hrun. rewrite <- !app_assoc. cbn [app].
    rewrite <- !app_assoc. split; [reflexivity | split; assumption].
  - intros fields m Hbody Hm. unfold already_in_draft, reported_error.
    rewrite Hbody, Hm. reflexivity.
Qed.

End VersionWorkflow.

Lemma new_version_failure_handling_witness :
  (exists o tail,
     new_version_patch_then_approve Examples.slash_join Examples.scalar_repr
       (Examples.revising_binding Examples.already_draft Examples.t1_patched
          Examples.t1_approved)
       Examples.revision_item true []
     = (o, ([EvRequest (new_version_request Examples.slash_join
                          (Examples.revising_binding Examples.already_draft
                             Examples.t1_patched Examples.t1_approved)
                          (JStr "objective-templates/T1/versions"));
             draft_warning;
             EvRequest (patch_request Examples.slash_join
                          (Examples.revising_binding Examples.already_draft
                             Examples.t1_patched Examples.t1_approved)
                          (JStr "objective-templates/T1")
                          (JObj [("name", JStr "Y")]))] ++ tail)%list))
  /\ (exists o tail,
        new_version_patch_then_approve Examples.slash_join Examples.scalar_repr
          (Examples.revising_binding Examples.t1_refused Examples.t1_patched
             Examples.t1_approved)
          Examples.revision_item true []
        = (o, (EvRequest (new_version_request Examples.slash_join
                            (Examples.revising_binding Examples.t1_refused
                               Examples.t1_patched Examples.t1_approved)
                            (JStr "objective-templates/T1/versions")) :: tail))
        /\ Forall not_request tail
        /\ (o = Ok JNull \/ exists e, o = Raise e)).
Proof.
  split.
  - exact (proj1 (new_version_failure_handling Examples.slash_join Examples.scalar_repr
                    (Examples.revising_binding Examples.already_draft
                       Examples.t1_patched Examples.t1_approved)
                    Examples.revision_item (JStr "objective-templates/T1/versions")
                    Examples.already_draft true [] eq_refl eq_refl)
             eq_refl eq_refl (JStr "objective-templates/T1") (JObj [("name", JStr "Y")])
             eq_refl eq_refl).
  - exact (proj1 (proj2 (new_version_failure_handling Examples.slash_join
                           Examples.scalar_repr
                           (Examples.revising_binding Examples.t1_refused
                              Examples.t1_patched Examples.t1_approved)
                           Examples.revision_item
                           (JStr "objective-templates/T1/versions")
                           Examples.t1_refused true [] eq_refl eq_refl))
             eq_refl eq_refl).
Defined.

Section ApprovalOutcome.

Variable path_join : list json -> string.
Variable py_repr : json -> string.

Lemma get_error_message_object (fields : dict) :
  exists m, get_error_message py_repr (JObj fields) = Ok m.
Proof.
  unfold get_error_message, py_contains, py_getitem, dict_has. cbn [obind].
  destruct (dict_get "message" fields) as [m|]; [exists m; reflexivity|].
  destruct (dict_get "detail" fields) as [d|]; eexists; reflexivity.
Qed.

(** An approval reply that is a JSON object, or a refusal that is not
    JSON, makes [approve_item_async] return its status. *)
Lemma approve_item_async_returns (self : ApiBinding) (uid url : json)
    (resp : response) (t : trace) :
  backend self t (approval_request path_join self url uid) = Some resp ->
  (exists fields, body resp = PJson (JObj fields))
  \/ (body resp = PText /\ 400 <= status_code resp) ->
  exists result t',
    approve_item_async path_join py_repr self uid url t
    = (Ok (status_code resp, result), t').
Proof.
  intros Hreply Hshape. unfold approve_item_async, approval_request in *. cbv zeta.
  unfold bind at 1, send at 1. rewrite Hreply.
  destruct Hshape as [[fields Hbody]|[Hbody Hrefused]].
  - destruct (aiohttp_ok resp) eqn:Hok.
    + unfold aiohttp_json. rewrite Hbody. run_m. cbn [negb].
      eexists _, _. reflexivity.
    + unfold aiohttp_json. rewrite Hbody. cbn [obind].
      destruct (get_error_message_object fields) as (m & Hm). rewrite Hm.
      run_m. cbn [negb is_exn]. eexists _, _. reflexivity.
  - assert (Hok : aiohttp_ok resp = false)
      by (unfold aiohttp_ok; apply Z.ltb_ge; lia).
    rewrite Hok. unfold aiohttp_json. rewrite Hbody. run_m.
    cbn [negb is_exn]. eexists _, _. reflexivity.
Qed.

(** With a uid in the patch response and approval asked for, the second
    half hands back the patch response. *)
Lemma patch_steps_return_patch (self : ApiBinding)
    (data patch_path item approve_path patched uid : json)
    (presp aresp : response) (t : trace) :
  py_getitem data "patch_path" = Ok patch_path ->
  py_getitem data "body" = Ok item ->
  py_getitem data "approve_path" = Ok approve_path ->
  backend self t (patch_request path_join self patch_path item) = Some presp ->
  body presp = PJson patched ->
  status_ok (status_code presp) = true ->
  py_get patched "uid" = Ok uid ->
  is_none uid = false ->
  backend self
    (t ++ [EvRequest (patch_request path_join self patch_path item); the_sleep])%list
    (approval_request path_join self approve_path uid) = Some aresp ->
  (exists fields, body aresp = PJson (JObj fields))
  \/ (body aresp = PText /\ 400 <= status_code aresp) ->
  fst (patch_and_approve_steps path_join py_repr self data true t) = Ok patched.
Proof.
  intros Hpatch Hitem Happrove Hpreply Hpbody Hpok Huid Hsome Hareply Hshape.
  unfold patch_and_approve_steps. rewrite Hpatch, Hitem, Happrove. do 2 step.
  unfold bind at 1.
  rewrite (patch_to_api_async_reply path_join self patch_path item presp t Hpreply).
  unfold decoded, patch_decode_log, decode_log. rewrite Hpbody.
  cbn [obind fst snd]. cbv zeta. cbn [fst snd]. rewrite Hpok. cbn [negb].
  rewrite Huid. step. rewrite Hsome. cbn [andb negb]. do 3 step.
  unfold the_sleep in Hareply. rewrite <- !app_assoc. cbn [app].
  destruct (approve_item_async_returns self uid approve_path aresp _ Hareply Hshape)
    as (result & t' & Hrun).
  rewrite (bind_ok _ _ _ _ _ Hrun). cbn [fst snd].
  match goal with
  | |- context [if ?c then _ else _] => destruct c
  end; reflexivity.
Qed.

(** C10: with approval asked for and a uid in the patch response, the
    workflow hands back the patch response whether the approval request
    is accepted or refused; the approval's own result never reaches the
    caller. *)
Theorem approval_outcome_not_returned (self : ApiBinding)
    (data new_path patch_path item approve_path patched uid : json)
    (vresp presp aresp : response) (t : trace) :
  py_getitem data "new_path" = Ok new_path ->
  py_getitem data "patch_path" = Ok patch_path ->
  py_getitem data "body" = Ok item ->
  py_getitem data "approve_path" = Ok approve_path ->
  backend self t (new_version_request path_join self new_path) = Some vresp ->
  version_passes py_repr vresp ->
  let t2 :=
    (t ++ EvRequest (new_version_request path_join self new_path)
       :: version_decode_log new_path vresp
       ++ (if status_ok (status_code vresp) then [] else [draft_warning]))%list in
  backend self t2 (patch_request path_join self patch_path item) = Some presp ->
  body presp = PJson patched ->
  status_ok (status_code presp) = true ->
  py_get patched "uid" = Ok uid ->
  is_none uid = false ->
  let t3 :=
    (t2 ++ [EvRequest (patch_request path_join self patch_path item); the_sleep])%list in
  backend self t3 (approval_request path_join self approve_path uid) = Some aresp ->
  (exists fields, body aresp = PJson (JObj fields))
  \/ (body aresp = PText /\ 400 <= status_code aresp) ->
  fst (new_version_patch_then_approve path_join py_repr self data true t) = Ok patched.
Proof.
  intros Hnew Hpatch Hitem Happrove Hvreply Hpass t2 Hpreply Hpbody Hpok
    Huid Hsome t3 Hareply Hshape.
  unfold new_version_patch_then_approve.
  rewrite (bind_ok _ _ _ _ _
             (new_version_step_passes path_join py_repr self data new_path vresp t
                Hnew Hvreply Hpass)).
  cbn [negb].
  exact (patch_steps_return_patch self data patch_path item approve_path patched uid
           presp aresp t2 Hpatch Hitem Happrove Hpreply Hpbody Hpok Huid Hsome
           Hareply Hshape).
Qed.

End ApprovalOutcome.

Lemma approval_outcome_not_returned_witness :
  fst (new_version_patch_then_approve Examples.slash_join Examples.scalar_repr
         (Examples.revising_binding (Examples.json_reply 201 (JObj []))
            Examples.t1_patched Examples.t1_approved)
         Examples.revision_item true [])
  = Ok (JObj [("uid", JStr "T1")])
  /\ fst (new_version_patch_then_approve Examples.slash_join Examples.scalar_repr
            (Examples.revising_binding (Examples.json_reply 201 (JObj []))
               Examples.t1_patched Examples.t1_refused)
            Examples.revision_item true [])
     = Ok (JObj [("uid", JStr "T1")]).
Proof.
  split.
  - exact (approval_outcome_not_returned Examples.slash_join Examples.scalar_repr
             (Examples.revising_binding (Examples.json_reply 201 (JObj []))
                Examples.t1_patched Examples.t1_approved)
             Examples.revision_item (JStr "objective-templates/T1/versions")
             (JStr "objective-templates/T1") (JObj [("name", JStr "Y")])
             (JStr "objective-templates") (JObj [("uid", JStr "T1")])
             (JStr "T1") (Examples.json_reply 201 (JObj [])) Examples.t1_patched
             Examples.t1_approved []
             eq_refl eq_refl eq_refl eq_refl eq_refl
             (or_introl (conj eq_refl (fun H : PJson (JObj []) = PMalformed => eq_ind (PJson (JObj [])) (fun p => match p with PJson _ => True | _ => False end) I PMalformed H)))
             eq_refl eq_refl eq_refl eq_refl eq_refl eq_refl
             (or_introl (ex_intro _ _ eq_refl))).
  - exact (approval_outcome_not_returned Examples.slash_join Examples.scalar_repr
             (Examples.revising_binding (Examples.json_reply 201 (JObj []))
                Examples.t1_patched Examples.t1_refused)
             Examples.revision_item (JStr "objective-templates/T1/versions")
             (JStr "objective-templates/T1") (JObj [("name", JStr "Y")])
             (JStr "objective-templates") (JObj [("uid", JStr "T1")])
             (JStr "T1") (Examples.json_reply 201 (JObj [])) Examples.t1_patched
             Examples.t1_refused []
             eq_refl eq_refl eq_refl eq_refl eq_refl
             (or_introl (conj eq_refl (fun H : PJson (JObj []) = PMalformed => eq_ind (PJson (JObj [])) (fun p => match p with PJson _ => True | _ => False end) I PMalformed H)))
             eq_refl eq_refl eq_refl eq_refl eq_refl eq_refl
             (or_introl (ex_intro _ _ eq_refl))).
Defined.

(** *** Pagination *)

Lemma dict_get_set_same (k : string) (v : json) (d : dict) :
  dict_get k (dict_set k v d) = Some v.
Proof.
  induction d as [|[k' v'] rest IH]; cbn [dict_set dict_get].
  - rewrite String.eqb_refl. reflexivity.
  - destruct (String.eqb k k') eqn:E; cbn [dict_get].
    + rewrite String.eqb_refl. reflexivity.
    + rewrite E. exact IH.
Qed.

Lemma dict_get_set_other (k k' : string) (v : json) (d : dict) :
  String.eqb k k' = false ->
  dict_get k (dict_set k' v d) = dict_get k d.
Proof.
  intros Hne. induction d as [|[k0 v0] rest IH]; cbn [dict_set dict_get].
  - rewrite Hne. reflexivity.
  - destruct (String.eqb k' k0) eqn:E; cbn [dict_get].
    + apply String.eqb_eq in E. subst k0. rewrite Hne. reflexivity.
    + destruct (String.eqb k k0); [reflexivity | exact IH].
Qed.

Lemma dict_set_set (k : string) (v v' : json) (d : dict) :
  dict_set k v (dict_set k v' d) = dict_set k v d.
Proof.
  induction d as [|[k0 v0] rest IH]; cbn [dict_set].
  - rewrite String.eqb_refl. reflexivity.
  - destruct (String.eqb k k0) eqn:E; cbn [dict_set].
    + rewrite String.eqb_refl. reflexivity.
    + rewrite E, IH. reflexivity.
Qed.

Lemma dict_get_set_some (k k' : string) (v : json) (d : dict) :
  dict_has k d = true -> dict_has k (dict_set k' v d) = true.
Proof.
  unfold dict_has. intros H. destruct (String.eqb k k') eqn:E.
  - apply String.eqb_eq in E. subst k'. rewrite dict_get_set_same. reflexivity.
  - rewrite (dict_get_set_other k k' v d E). exact H.
Qed.

Lemma dict_has_update (k : string) (upd : dict) :
  forall d, dict_has k d = true -> dict_has k (dict_update d upd) = true.
Proof.
  unfold dict_update. induction upd as [|[k' v'] rest IH]; intros d H; cbn [fold_left].
  - exact H.
  - apply IH. cbn [fst snd]. apply dict_get_set_some. exact H.
Qed.

Lemma dict_get_update_untouched (k : string) (upd : dict) :
  dict_get k upd = None ->
  forall d, dict_get k (dict_update d upd) = dict_get k d.
Proof.
  unfold dict_update. induction upd as [|[k' v'] rest IH]; intros Hk d; cbn [fold_left].
  - reflexivity.
  - cbn [dict_get] in Hk. destruct (String.eqb k k') eqn:E; [discriminate Hk|].
    rewrite (IH Hk). cbn [fst snd]. apply dict_get_set_other. exact E.
Qed.

Lemma zrange_succ (a : Z) (len : nat) :
  zrange a (S len) = a :: zrange (a + 1) len.
Proof.
  unfold zrange. cbn [seq map]. rewrite Z.add_0_r. f_equal.
  rewrite <- seq_shift, map_map. apply map_ext. intros i. lia.
Qed.

Lemma zrange_snoc (a : Z) (len : nat) :
  zrange a (S len) = (zrange a len ++ [a + Z.of_nat len])%list.
Proof.
  unfold zrange. rewrite seq_S, map_app. reflexivity.
Qed.

Lemma zrange_bounds (a : Z) (len : nat) (k : Z) :
  In k (zrange a len) <-> a <= k < a + Z.of_nat len.
Proof.
  unfold zrange. rewrite in_map_iff. split.
  - intros (i & <- & Hi). apply in_seq in Hi. lia.
  - intros H. exists (Z.to_nat (k - a)). split; [lia|]. apply in_seq. lia.
Qed.

Lemma zrange_increasing (len : nat) :
  forall a, StronglySorted Z.lt (zrange a len).
Proof.
  induction len as [|len IH]; intros a.
  - constructor.
  - rewrite zrange_succ. constructor; [apply IH|].
    apply Forall_forall. intros k Hk. apply zrange_bounds in Hk. lia.
Qed.

(** The loop test, read on page numbers. *)
Lemma continues_iff_before_last (page_size total k : Z) :
  0 < page_size -> 1 <= k ->
  (page_size * k < total <-> k < last_page page_size total).
Proof.
  intros Hps Hk. unfold last_page.
  pose proof (Z.div_mod (- total) page_size ltac:(lia)) as Hdm.
  pose proof (Z.mod_pos_bound (- total) page_size Hps) as Hmod.
  set (q := (- total) / page_size) in *. set (r := (- total) mod page_size) in *.
  split; intros H.
  - apply Z.max_lt_iff. right. nia.
  - apply Z.max_lt_iff in H. destruct H as [H|H]; [lia | nia].
Qed.

Section PagedFetch.

Variable path_join : list json -> string.

Lemma default_page_params_kept (pp : dict) :
  dict_has "page_size" pp = true ->
  dict_has "page_number" pp = true ->
  default_page_params (Some pp) = pp.
Proof. intros Hs Hn. unfold default_page_params. rewrite Hs, Hn. reflexivity. Qed.

Lemma first_page_params_has (params : option dict) (page_size : Z) :
  dict_has "page_size" (first_page_params params page_size) = true
  /\ dict_has "page_number" (first_page_params params page_size) = true.
Proof.
  unfold first_page_params. destruct params as [p|]; [|split; reflexivity].
  split; apply dict_has_update; reflexivity.
Qed.

Lemma page_params_at_has (params : option dict) (page_size k : Z) :
  dict_has "page_size" (page_params_at params page_size k) = true
  /\ dict_has "page_number" (page_params_at params page_size k) = true.
Proof.
  unfold page_params_at.
  destruct (first_page_params_has params page_size) as [Hs Hn].
  destruct (k =? 1); [split; assumption|].
  split; repeat apply dict_get_set_some; assumption.
Qed.

(** A successful page: the reply's items, a request and a metric. *)
Lemma get_all_from_api_page (self : ApiBinding) (path : string) (params : option dict)
    (page_size k : Z) (resp : response) (fields : dict) (items : list json)
    (items_only : bool) (t : trace) :
  backend self t (page_request path_join self path params page_size k) = Some resp ->
  requests_ok resp = true ->
  body resp = PJson (JObj fields) ->
  dict_get "items" fields = Some (JArr items) ->
  get_all_from_api path_join self path (Some (page_params_at params page_size k))
    items_only t
  = if items_only
    then (Ok (JArr items),
          (t ++ [EvRequest (page_request path_join self path params page_size k);
                 EvMetric (path ++ "--GET") (Z.of_nat (List.length items))])%list)
    else (Ok (JObj fields),
          (t ++ [EvRequest (page_request path_join self path params page_size k)])%list).
Proof.
  intros Hreply Hok Hbody Hitems. unfold get_all_from_api, page_request in *.
  destruct (page_params_at_has params page_size k) as [Hs Hn].
  rewrite (default_page_params_kept _ Hs Hn). cbv zeta.
  unfold bind at 1, send at 1. rewrite Hreply, Hok.
  unfold requests_json. rewrite Hbody. run_m.
  cbn [py_contains py_getitem is_exn]. unfold dict_has. rewrite Hitems.
  destruct items_only; cbn [andb py_len]; [|reflexivity].
  rewrite <- app_assoc. reflexivity.
Qed.

Lemma paged_loop_fetches (self : ApiBinding) (path : string) (params : option dict)
    (page_size total nbr_pages : Z) (page : Z -> list json) :
  0 < page_size ->
  serves_pages path_join self path params page_size total
    (last_page page_size total) page ->
  forall (d : nat) (pn : Z) (pp : dict) (acc : list json) (t : trace) (fuel : nat),
    1 <= pn <= last_page page_size total ->
    d = Z.to_nat (last_page page_size total - pn) ->
    (d <= fuel)%nat ->
    (forall k, 2 <= k ->
       dict_set "page_number" (JNum k) pp = page_params_at params page_size k) ->
    paged_loop path_join fuel self path page_size total nbr_pages pp pn (JArr acc) t
    = (Ok (JArr (acc ++ List.concat (map page (zrange (pn + 1) d)))%list),
       (t ++ flat_map (page_events path_join self path params page_size nbr_pages page)
               (zrange (pn + 1) d))%list).
Proof.
  intros Hps Hserves.
  induction d as [|d IH]; intros pn pp acc t fuel Hpn Hd Hfuel Hpp.
  - assert (Hstop : (page_size * pn <? total) = false).
    { apply Z.ltb_ge.
      pose proof (continues_iff_before_last page_size total pn Hps ltac:(lia)). lia. }
    destruct fuel; cbn [paged_loop]; rewrite Hstop; cbn; rewrite !app_nil_r; reflexivity.
  - assert (Hgo : (page_size * pn <? total) = true).
    { apply Z.ltb_lt.
      apply (continues_iff_before_last page_size total pn Hps); lia. }
    destruct fuel as [|fuel]; [lia|]. cbn [paged_loop]. rewrite Hgo. cbv zeta.
    rewrite bind_log. rewrite (Hpp (pn + 1) ltac:(lia)).
    destruct (Hserves
                (t ++ [EvLog Info "Fetching {path}, page {page_number} of {nbr_pages}"
                         [JStr path; JNum (pn + 1); JNum nbr_pages]])%list
                (pn + 1) ltac:(lia))
      as (resp & fields & Hreply & Hok & Hbody & Hitems & _).
    rewrite (bind_ok _ _ _ _ _
               (get_all_from_api_page self path params page_size (pn + 1) resp fields
                  (page (pn + 1)) true _ Hreply Hok Hbody Hitems)).
    cbn [py_extend py_iter]. rewrite bind_lift_ok.
    rewrite (IH (pn + 1) _ _ _ fuel ltac:(lia) ltac:(lia) ltac:(lia)).
    + rewrite zrange_succ. cbn [map List.concat flat_map page_events].
      rewrite <- !app_assoc. cbn [app]. reflexivity.
    + intros k Hk. rewrite <- (Hpp (pn + 1) ltac:(lia)) at 1.
      rewrite dict_set_set. apply Hpp. exact Hk.
Qed.

Lemma requests_in_app (a b : trace) :
  requests_in (a ++ b)%list = (requests_in a ++ requests_in b)%list.
Proof. unfold requests_in. apply flat_map_app. Qed.

Lemma requests_in_page_events (self : ApiBinding) (path : string) (params : option dict)
    (page_size nbr_pages : Z) (page : Z -> list json) (pages : list Z) :
  requests_in
    (flat_map (page_events path_join self path params page_size nbr_pages page) pages)
  = map (page_request path_join self path params page_size) pages.
Proof.
  induction pages as [|k rest IH]; [reflexivity|].
  cbn [flat_map map]. rewrite requests_in_app, IH. reflexivity.
Qed.

Lemma full_pages_length (page : Z -> list json) (page_size : Z) (len : nat) :
  forall a,
    (forall k, a <= k < a + Z.of_nat len -> Z.of_nat (List.length (page k)) = page_size) ->
    Z.of_nat (List.length (List.concat (map page (zrange a len))))
    = page_size * Z.of_nat len.
Proof.
  induction len as [|len IH]; intros a Hfull.
  - cbn. lia.
  - rewrite zrange_succ. cbn [map List.concat]. rewrite length_app, Nat2Z.inj_add.
    rewrite (Hfull a ltac:(lia)), (IH (a + 1)); [lia|].
    intros k Hk. apply Hfull. lia.
Qed.

(** The page count is computed in floating point: it exists for every
    total below 2^1023 in magnitude, whatever the page size. *)
Lemma ceil_div_defined (a b : Z) :
  Z.abs a < 2 ^ 1023 -> b <> 0 -> exists n, ceil_div a b = Ok n.
Proof.
  intros Ha Hb. unfold ceil_div.
  replace (b =? 0) with false by (symmetry; apply Z.eqb_neq; exact Hb).
  destruct (a =? 0) eqn:Hzero; [eexists; reflexivity|].
  apply Z.eqb_neq in Hzero.
  assert (He : ulp_exponent (Z.abs a) (Z.abs b) <= 970).
  { unfold ulp_exponent.
    assert (Hla : Z.log2 (Z.abs a) < 1023)
      by (apply Z.log2_lt_pow2; [lia | exact Ha]).
    pose proof (Z.log2_nonneg (Z.abs b)) as Hlb.
    match goal with
    | |- context [if ?c then _ - 1 else _] => destruct c
    end; lia. }
  unfold true_div_pos. cbv zeta.
  replace (971 <? ulp_exponent (Z.abs a) (Z.abs b)) with false
    by (symmetry; apply Z.ltb_ge; lia).
  replace (ulp_exponent (Z.abs a) (Z.abs b) =? 971) with false
    by (symmetry; apply Z.eqb_neq; lia).
  cbn [orb andb]. eexists. reflexivity.
Qed.

(** C3 (amended): for a fetch with a positive page size whose caller
    parameters set neither page_number nor total_count, a declared total
    below 2^1023 in magnitude (so that the page count can be computed in
    floating point), and a backend that answers every page request with
    success: the requests
    are exactly those for pages 1, 2, ..., n in that order, n being the
    first page with page_size * n >= total (so the loop runs exactly while
    page_size * page_number < total, one page further each time); the
    first request has total_count true and the later ones false; the
    result is the concatenation of the pages.  If every page before the
    last is full, the result has total items when the last page holds the
    remainder and fewer when it holds less, in both cases as a normal
    return. *)
Theorem paged_fetch (self : ApiBinding) (path : string) (params : option dict)
    (page_size total : Z) (page : Z -> list json) (fuel : nat) (t : trace) :
  0 < page_size ->
  Z.abs total < 2 ^ 1023 ->
  leaves_paging_alone params ->
  let n := last_page page_size total in
  serves_pages path_join self path params page_size total n page ->
  (Z.to_nat n <= S fuel)%nat ->
  let pages := zrange 1 (Z.to_nat n) in
  let request := page_request path_join self path params page_size in
  let run := get_all_from_api_paged path_join fuel self path params true page_size t in
  let fetched := List.concat (map page pages) in
  fst run = Ok (JArr fetched)
  /\ requests_in (snd run) = (requests_in t ++ map request pages)%list
  /\ StronglySorted Z.lt pages
  /\ (forall k, 1 <= k -> (In k pages <-> k = 1 \/ page_size * (k - 1) < total))
  /\ (forall k, In k pages ->
        param_of "page_number" (request k) = Some (JNum k)
        /\ param_of "total_count" (request k) = Some (JBool (k =? 1)))
  /\ ((forall k, 1 <= k < n -> Z.of_nat (List.length (page k)) = page_size) ->
      (Z.of_nat (List.length (page n)) = total - page_size * (n - 1) ->
       Z.of_nat (List.length fetched) = total)
      /\ (Z.of_nat (List.length (page n)) < total - page_size * (n - 1) ->
          Z.of_nat (List.length fetched) < total)).
Proof.
  intros Hps Hbound Halone n Hserves Hfuel pages request run fetched.
  assert (Hn : 1 <= n) by (unfold n, last_page; lia).
  assert (Hsplit : Z.to_nat n = S (Z.to_nat (n - 1))) by lia.
  destruct (ceil_div_defined total page_size Hbound ltac:(lia)) as (nbr_pages & Hnbr).
  assert (Hrun : run
                 = (Ok (JArr fetched),
                    (t ++ [EvLog Info "Fetching {path}, page size: {page_size}"
                             [JStr path; JNum page_size];
                           EvRequest (request 1)]
                       ++ flat_map (page_events path_join self path params page_size
                                      nbr_pages page)
                            (zrange 2 (Z.to_nat (n - 1))))%list)).
  { subst run. unfold get_all_from_api_paged. cbv zeta.
    change (match params with
            | Some p => dict_update _ p
            | None => _
            end) with (first_page_params params page_size).
    change (first_page_params params page_size)
      with (page_params_at params page_size 1).
    rewrite bind_log.
    destruct (Hserves
                (t ++ [EvLog Info "Fetching {path}, page size: {page_size}"
                         [JStr path; JNum page_size]])%list 1 ltac:(lia))
      as (resp & fields & Hreply & Hok & Hbody & Hitems & Htotal).
    specialize (Htotal eq_refl).
    rewrite (bind_ok _ _ _ _ _
               (get_all_from_api_page self path params page_size 1 resp fields
                  (page 1) false _ Hreply Hok Hbody Hitems)).
    cbn [py_getitem]. rewrite Hitems, Htotal. do 2 rewrite bind_lift_ok.
    cbn [py_int]. rewrite bind_lift_ok, Hnbr, bind_lift_ok.
    assert (Hinv : forall k, 2 <= k ->
               dict_set "page_number" (JNum k)
                 (dict_set "total_count" (JBool false)
                    (page_params_at params page_size 1))
               = page_params_at params page_size k).
    { intros k Hk. unfold page_params_at.
      replace (k =? 1) with false by (symmetry; apply Z.eqb_neq; lia).
      reflexivity. }
    rewrite (bind_ok _ _ _ _ _
               (paged_loop_fetches self path params page_size total _ page Hps Hserves
                  (Z.to_nat (n - 1)) 1 _ (page 1) _ fuel ltac:(lia) eq_refl
                  ltac:(lia) Hinv)).
    unfold ret, fetched, pages. rewrite Hsplit, zrange_succ. cbn [map List.concat].
    rewrite <- !app_assoc. reflexivity. }
  rewrite Hrun. cbn [fst snd].
  split; [reflexivity|]. split; [|split; [apply zrange_increasing|split; [|split]]].
  - rewrite !requests_in_app, requests_in_page_events. unfold pages.
    rewrite Hsplit, zrange_succ. reflexivity.
  - intros k Hk. unfold pages. rewrite zrange_bounds.
    destruct (Z.eq_dec k 1) as [->|Hne]; [lia|].
    pose proof (continues_iff_before_last page_size total (k - 1) Hps ltac:(lia)).
    fold n in H. lia.
  - intros k Hk. apply zrange_bounds in Hk. unfold request, page_request, param_of.
    cbn [rq_params]. unfold page_params_at.
    destruct (k =? 1) eqn:Hk1.
    + apply Z.eqb_eq in Hk1. subst k. unfold first_page_params.
      destruct params as [p|]; [|split; reflexivity].
      destruct Halone as (Hnum & Htc).
      rewrite (dict_get_update_untouched _ p Hnum),
              (dict_get_update_untouched _ p Htc).
      split; reflexivity.
    + rewrite dict_get_set_same.
      rewrite dict_get_set_other by reflexivity.
      rewrite dict_get_set_same. split; reflexivity.
  - intros Hfull.
    assert (Hlen : Z.of_nat (List.length fetched)
                   = page_size * (n - 1) + Z.of_nat (List.length (page n))).
    { unfold fetched, pages. rewrite Hsplit, zrange_snoc, map_app, concat_app, length_app.
      rewrite Nat2Z.inj_add, (full_pages_length page page_size).
      - cbn [map List.concat]. rewrite app_nil_r.
        replace (1 + Z.of_nat (Z.to_nat (n - 1))) with n by lia. lia.
      - intros k Hk. apply Hfull. lia. }
    split; intros Hlast; lia.
Qed.

End PagedFetch.

Lemma listing_serves_pages :
  serves_pages Examples.slash_join Examples.listing_binding "studies" None 2 5 3
    Examples.studies.
Proof.
  intros tr k Hk.
  assert (Hcases : k = 1 \/ k = 2 \/ k = 3) by lia.
  destruct Hcases as [->|[->| ->]]; eexists _, _; repeat split; try reflexivity;
    intros H; discriminate H.
Qed.

Lemma paged_fetch_witness :
  fst (get_all_from_api_paged Examples.slash_join 10 Examples.listing_binding "studies"
         None true 2 [])
  = Ok (JArr [JStr "a"; JStr "b"; JStr "c"; JStr "d"; JStr "e"])
  /\ map (param_of "page_number")
       (requests_in
          (snd (get_all_from_api_paged Examples.slash_join 10 Examples.listing_binding
                  "studies" None true 2 [])))
     = [Some (JNum 1); Some (JNum 2); Some (JNum 3)].
Proof.
  pose proof (paged_fetch Examples.slash_join Examples.listing_binding "studies" None
                2 5 Examples.studies 10 [] eq_refl eq_refl I listing_serves_pages
                ltac:(vm_compute; lia)) as H.
  cbv zeta in H. destruct H as (Hvalue & Hrequests & _).
  split; [exact Hvalue|]. rewrite Hrequests. reflexivity.
Defined.

(** C3, as stated, fails: with a page size of 0, or a declared total
    too large for a floating-point page count, the one page request
    succeeds and the fetch still raises; and caller parameters that name
    page_number or total_count change the first request, so that page 3
    is requested twice or the total is never asked for. *)
Lemma paged_fetch_outside_its_domain :
  get_all_from_api_paged Examples.slash_join 10 Examples.listing_binding "studies"
    None true 0 []
  = (Raise ZeroDivisionError,
     [EvLog Info "Fetching {path}, page size: {page_size}" [JStr "studies"; JNum 0];
      EvRequest (page_request Examples.slash_join Examples.listing_binding "studies"
                   None 0 1)])
  /\ map (param_of "page_number")
       (requests_in
          (snd (get_all_from_api_paged Examples.slash_join 10 Examples.listing_binding
                  "studies" (Some [("page_number", JNum 3)]) true 2 [])))
     = [Some (JNum 3); Some (JNum 2); Some (JNum 3)]
  /\ map (param_of "total_count")
       (requests_in
          (snd (get_all_from_api_paged Examples.slash_join 10 Examples.listing_binding
                  "studies" (Some [("total_count", JBool false)]) true 2 [])))
     = [Some (JBool false)]
  /\ get_all_from_api_paged Examples.slash_join 10 Examples.crowded_binding "studies"
       None true 2 []
     = (Raise OverflowError,
        [EvLog Info "Fetching {path}, page size: {page_size}" [JStr "studies"; JNum 2];
         EvRequest (page_request Examples.slash_join Examples.crowded_binding "studies"
                      None 2 1)]).
Proof. repeat split; vm_compute; reflexivity. Qed.

(** *** Identifier lists and mappings *)

Lemma identifier_list_objects (identifier : string) (ds : list dict) :
  identifier_list (map JObj ds) identifier
  = if forallb (dict_has identifier) ds
    then Ok (map (field identifier) ds)
    else Raise KeyError.
Proof.
  induction ds as [|d rest IH]; [reflexivity|].
  cbn [map identifier_list py_getitem forallb]. unfold dict_has at 1, field at 1.
  destruct (dict_get identifier d) as [v|]; cbn [obind andb]; [|reflexivity].
  rewrite IH. destruct (forallb (dict_has identifier) rest); reflexivity.
Qed.

(** X1: in list mode [get_all_identifiers] returns one identifier per
    response object, in input order, when every object has the field,
    and raises KeyError as soon as one has not. *)
Theorem get_all_identifiers_list_mode (identifier : string) (ds : list dict) :
  get_all_identifiers (JArr (map JObj ds)) identifier None
  = if forallb (dict_has identifier) ds
    then Ok (IdList (map (field identifier) ds))
    else Raise KeyError.
Proof.
  unfold get_all_identifiers. cbn [py_iter obind].
  rewrite identifier_list_objects.
  destruct (forallb (dict_has identifier) ds); reflexivity.
Qed.

Lemma key_eqb_refl (k : json) : hashable k = true -> key_eqb k k = true.
Proof.
  destruct k; cbn; try discriminate; intros _; try reflexivity.
  - apply Z.eqb_refl.
  - apply Z.eqb_refl.
  - apply String.eqb_refl.
Qed.

Lemma pymap_get_set_str (k k' : string) (v : json) (m : pymap) :
  forallb (fun kv => is_str_key (fst kv)) m = true ->
  pymap_get (JStr k) (pymap_set (JStr k') v m)
  = if String.eqb k k' then Some v else pymap_get (JStr k) m.
Proof.
  induction m as [|[k0 v0] rest IH]; intros Hkeys; cbn [pymap_set pymap_get].
  - cbn [key_eqb]. reflexivity.
  - cbn [forallb fst] in Hkeys. apply andb_prop in Hkeys as [Hk0 Hrest].
    destruct k0 as [| | |s0| |]; try discriminate Hk0. cbn [key_eqb].
    destruct (String.eqb k' s0) eqn:E'; cbn [pymap_get key_eqb].
    + apply String.eqb_eq in E'. subst s0.
      destruct (String.eqb k k'); reflexivity.
    + destruct (String.eqb k s0) eqn:E.
      * apply String.eqb_eq in E. subst s0.
        rewrite String.eqb_sym, E'. reflexivity.
      * apply IH. exact Hrest.
Qed.

Lemma pymap_set_str_keys (k : string) (v : json) (m : pymap) :
  forallb (fun kv => is_str_key (fst kv)) m = true ->
  forallb (fun kv => is_str_key (fst kv)) (pymap_set (JStr k) v m) = true.
Proof.
  induction m as [|[k0 v0] rest IH]; intros Hkeys; cbn [pymap_set].
  - reflexivity.
  - cbn [forallb fst] in Hkeys. apply andb_prop in Hkeys as [Hk0 Hrest].
    destruct (key_eqb (JStr k) k0); cbn [forallb fst]; rewrite Hk0; cbn [andb];
      [exact Hrest | apply IH; exact Hrest].
Qed.

Lemma pymap_set_in_keys (k v : json) (m : pymap) (k0 : json) :
  In k0 (map fst (pymap_set k v m)) -> In k0 (map fst m) \/ k0 = k.
Proof.
  induction m as [|[k1 v1] rest IH]; cbn [pymap_set map fst In].
  - intros [H|[]]. right. symmetry. exact H.
  - destruct (key_eqb k k1); cbn [map fst In].
    + intros H. left. exact H.
    + intros [H|H]; [left; left; exact H|].
      destruct (IH H) as [H'|H']; [left; right; exact H' | right; exact H'].
Qed.

Lemma pymap_set_str_nodup (k : string) (v : json) (m : pymap) :
  NoDup (map fst m) -> NoDup (map fst (pymap_set (JStr k) v m)).
Proof.
  induction m as [|[k1 v1] rest IH]; intros Hnd; cbn [pymap_set].
  - repeat constructor. tauto.
  - destruct (key_eqb (JStr k) k1) eqn:E; [exact Hnd|].
    cbn [map fst] in *. inversion Hnd as [|x l Hnotin Hnd' Heq]; subst.
    constructor; [|apply IH; exact Hnd'].
    intros Hin. destruct (pymap_set_in_keys _ _ _ _ Hin) as [H|H]; [tauto|].
    subst k1. cbn [key_eqb] in E. rewrite String.eqb_refl in E. discriminate E.
Qed.

Lemma find_over_app {A} (f : A -> bool) (l1 l2 : list A) :
  find f (l1 ++ l2)%list
  = match find f l1 with Some x => Some x | None => find f l2 end.
Proof.
  induction l1 as [|x rest IH]; [reflexivity|].
  cbn [app find]. destruct (f x); [reflexivity | exact IH].
Qed.

Lemma last_with_cons (key k : string) (d : dict) (ds : list dict) :
  last_with key k (d :: ds)
  = match last_with key k ds with
    | Some d' => Some d'
    | None => if str_field_is key k d then Some d else None
    end.
Proof.
  unfold last_with. cbn [rev]. rewrite find_over_app. cbn [find]. reflexivity.
Qed.

Lemma identifier_map_objects (identifier value : string) (ds : list dict) :
  forall acc,
    forallb (fun d => has_str_field identifier d && dict_has value d) ds = true ->
    forallb (fun kv => is_str_key (fst kv)) acc = true ->
    NoDup (map fst acc) ->
    exists m,
      identifier_map (map JObj ds) identifier value acc = Ok m
      /\ NoDup (map fst m)
      /\ forall k,
           pymap_get (JStr k) m
           = match last_with identifier k ds with
             | Some d => Some (field value d)
             | None => pymap_get (JStr k) acc
             end.
Proof.
  induction ds as [|d rest IH]; intros acc Hwf Hkeys Hnd.
  - exists acc. split; [reflexivity|]. split; [exact Hnd|]. intros k. reflexivity.
  - cbn [forallb] in Hwf. apply andb_prop in Hwf as [Hd Hrest].
    apply andb_prop in Hd as [Hid Hval].
    unfold has_str_field in Hid. unfold dict_has in Hval.
    destruct (dict_get identifier d) as [[| | |s| |]|] eqn:Eid; try discriminate Hid.
    destruct (dict_get value d) as [v|] eqn:Eval; try discriminate Hval.
    cbn [map identifier_map py_getitem]. rewrite Eid, Eval. cbn [obind hashable].
    destruct (IH (pymap_set (JStr s) v acc) Hrest
                (pymap_set_str_keys s v acc Hkeys)
                (pymap_set_str_nodup s v acc Hnd)) as (m & Hrun & Hnd' & Hget).
    exists m. split; [exact Hrun|]. split; [exact Hnd'|].
    intros k. rewrite Hget, last_with_cons.
    destruct (last_with identifier k rest); [reflexivity|].
    rewrite (pymap_get_set_str k s v acc Hkeys).
    unfold str_field_is. rewrite Eid, (String.eqb_sym s k).
    destruct (String.eqb k s); [|reflexivity].
    unfold field. rewrite Eval. reflexivity.
Qed.

(** X2: in mapping mode, over response objects that all carry a string
    identifier and the value field, [get_all_identifiers] returns a
    mapping with pairwise distinct keys in which every identifier is
    bound to the value of the last object carrying it. *)
Theorem get_all_identifiers_mapping_mode (identifier value : string) (ds : list dict) :
  forallb (fun d => has_str_field identifier d && dict_has value d) ds = true ->
  exists m,
    get_all_identifiers (JArr (map JObj ds)) identifier (Some value) = Ok (IdMap m)
    /\ NoDup (map fst m)
    /\ forall k,
         pymap_get (JStr k) m = option_map (field value) (last_with identifier k ds).
Proof.
  intros Hwf.
  destruct (identifier_map_objects identifier value ds [] Hwf eq_refl (NoDup_nil _))
    as (m & Hrun & Hnd & Hget).
  exists m. unfold get_all_identifiers. cbn [is_none py_iter obind]. rewrite Hrun.
  split; [reflexivity|]. split; [exact Hnd|].
  intros k. rewrite Hget. destruct (last_with identifier k ds); reflexivity.
Qed.

Lemma get_all_identifiers_mapping_mode_witness :
  exists m,
    get_all_identifiers
      (JArr (map JObj [[("uid", JStr "T1"); ("name", JStr "old")];
                       [("uid", JStr "T2"); ("name", JStr "other")];
                       [("uid", JStr "T1"); ("name", JStr "new")]]))
      "uid" (Some "name") = Ok (IdMap m)
    /\ NoDup (map fst m)
    /\ pymap_get (JStr "T1") m = Some (JStr "new").
Proof.
  destruct (get_all_identifiers_mapping_mode "uid" "name"
              [[("uid", JStr "T1"); ("name", JStr "old")];
               [("uid", JStr "T2"); ("name", JStr "other")];
               [("uid", JStr "T1"); ("name", JStr "new")]] eq_refl)
    as (m & Hrun & Hnd & Hget).
  exists m. split; [exact Hrun|]. split; [exact Hnd|]. exact (Hget "T1").
Defined.

Lemma pymap_set_entries (k v : json) (m : pymap) (k0 v0 : json) :
  In (k0, v0) (pymap_set k v m) ->
  In (k0, v0) m \/ (v0 = v /\ (k0 = k \/ key_eqb k k0 = true)).
Proof.
  induction m as [|[k1 v1] rest IH]; cbn [pymap_set In].
  - intros [H|[]]. injection H as <- <-. right. split; [reflexivity | left; reflexivity].
  - destruct (key_eqb k k1) eqn:E; cbn [In].
    + intros [H|H]; [|left; right; exact H].
      injection H as <- <-. right. split; [reflexivity | right; exact E].
    + intros [H|H]; [left; left; exact H|].
      destruct (IH H) as [H'|H']; [left; right; exact H' | right; exact H'].
Qed.

Lemma items_by_identifier_invariant (identifier : string) (universe : list json) :
  forall items acc m,
    incl items universe ->
    (forall k v, In (k, v) acc ->
       (exists k', py_getitem v identifier = Ok k' /\ key_eqb k' k = true)
       /\ In v universe) ->
    items_by_identifier items identifier acc = Ok m ->
    forall k v, In (k, v) m ->
      (exists k', py_getitem v identifier = Ok k' /\ key_eqb k' k = true)
      /\ In v universe.
Proof.
  induction items as [|item rest IH]; intros acc m Hincl Hacc Hrun.
  - cbn in Hrun. injection Hrun as <-. exact Hacc.
  - cbn [items_by_identifier] in Hrun.
    destruct (py_getitem item identifier) as [key| | |] eqn:Ekey; cbn [obind] in Hrun;
      try discriminate Hrun.
    destruct (hashable key) eqn:Ehash; [|discriminate Hrun].
    apply (IH (pymap_set key item acc) m); [|clear IH Hrun|exact Hrun].
    + intros x Hx. apply Hincl. right. exact Hx.
    + intros k v Hin. destruct (pymap_set_entries _ _ _ _ _ Hin) as [Hold|[-> Hk]].
      * exact (Hacc k v Hold).
      * split; [|apply Hincl; left; reflexivity].
        exists key. split; [exact Ekey|].
        destruct Hk as [->|Hk]; [apply key_eqb_refl; exact Ehash | exact Hk].
Qed.

(** X3: [response_to_dict] gives the empty mapping for [None]; otherwise
    every value of the mapping it returns is one of the response items,
    filed under the key its own identifier field gives. *)
Theorem response_to_dict_files_items (identifier : string) :
  response_to_dict JNull identifier = Ok []
  /\ forall responses items m,
       py_iter responses = Ok items ->
       response_to_dict responses identifier = Ok m ->
       filed_under_own_identifier identifier m
       /\ forall k v, In (k, v) m -> In v items.
Proof.
  split; [reflexivity|].
  intros responses items m Hiter Hrun. unfold response_to_dict in Hrun.
  destruct (is_none responses) eqn:Enone.
  - destruct responses; discriminate.
  - rewrite Hiter in Hrun. cbn [obind] in Hrun.
    pose proof (items_by_identifier_invariant identifier items items [] m
                  (incl_refl _) (fun k v (H : In (k, v) []) => match H with end) Hrun)
      as Hinv.
    split.
    + intros k v Hin. exact (proj1 (Hinv k v Hin)).
    + intros k v Hin. exact (proj2 (Hinv k v Hin)).
Qed.

Lemma response_to_dict_files_items_witness :
  response_to_dict
    (JArr [JObj [("uid", JStr "T1"); ("name", JStr "old")];
           JObj [("uid", JStr "T2"); ("name", JStr "other")];
           JObj [("uid", JStr "T1"); ("name", JStr "new")]]) "uid"
  = Ok [(JStr "T1", JObj [("uid", JStr "T1"); ("name", JStr "new")]);
        (JStr "T2", JObj [("uid", JStr "T2"); ("name", JStr "other")])]
  /\ filed_under_own_identifier "uid"
       [(JStr "T1", JObj [("uid", JStr "T1"); ("name", JStr "new")]);
        (JStr "T2", JObj [("uid", JStr "T2"); ("name", JStr "other")])].
Proof.
  split; [reflexivity|].
  exact (proj1 (proj2 (response_to_dict_files_items "uid")
                  (JArr [JObj [("uid", JStr "T1"); ("name", JStr "old")];
                         JObj [("uid", JStr "T2"); ("name", JStr "other")];
                         JObj [("uid", JStr "T1"); ("name", JStr "new")]])
                  _ _ eq_refl eq_refl)).
Defined.

(** *** Grouping by lower-cased identifier *)

Lemma requested_values_objects (values : list string) (d : dict) :
  forall acc,
    forallb (fun v => dict_has v d) values = true ->
    requested_values values (JObj d) acc
    = Ok (fold_left (fun acc v => dict_set v (field v d) acc) values acc).
Proof.
  induction values as [|v rest IH]; intros acc Hall; [reflexivity|].
  cbn [forallb] in Hall. apply andb_prop in Hall as [Hv Hrest].
  cbn [requested_values py_getitem fold_left]. unfold dict_has in Hv.
  destruct (dict_get v d) as [x|] eqn:E; [|discriminate Hv]. cbn [obind].
  replace x with (field v d) by (unfold field; rewrite E; reflexivity).
  apply IH. exact Hrest.
Qed.

Lemma group_get_append (k ident : string) (x : json) (g : groups) :
  group_get k (group_append ident x g)
  = if String.eqb k ident
    then Some (match group_get k g with Some l => l ++ [x] | None => [x] end)%list
    else group_get k g.
Proof.
  induction g as [|[k0 l0] rest IH]; cbn [group_append group_get].
  - destruct (String.eqb k ident); reflexivity.
  - destruct (String.eqb ident k0) eqn:E; cbn [group_get].
    + apply String.eqb_eq in E. subst k0.
      destruct (String.eqb k ident); reflexivity.
    + destruct (String.eqb k k0) eqn:E0.
      * apply String.eqb_eq in E0. subst k0.
        rewrite String.eqb_sym, E. reflexivity.
      * exact IH.
Qed.

Lemma groups_json_get (k : string) (g : groups) :
  dict_get k (map (fun kl => (fst kl, JArr (snd kl))) g)
  = option_map JArr (group_get k g).
Proof.
  induction g as [|[k0 l0] rest IH]; [reflexivity|].
  cbn [map dict_get group_get fst snd]. destruct (String.eqb k k0); [reflexivity | exact IH].
Qed.

Section Grouping.

Variable py_lower : string -> string.

Lemma collect_groups_objects (identifier : string) (values : list string)
    (ds : list dict) :
  forall g,
    forallb (fun d => has_str_field identifier d
                      && forallb (fun v => dict_has v d) values) ds = true ->
    exists g',
      collect_groups py_lower (map JObj ds) identifier values g = Ok g'
      /\ forall k,
           group_get k g'
           = grown (group_get k g)
               (map (fun d => JObj (picked values d))
                    (members py_lower identifier k ds)).
Proof.
  induction ds as [|d rest IH]; intros g Hwf.
  - exists g. split; [reflexivity|]. intros k. cbn [members filter map grown].
    destruct (group_get k g); cbn [grown]; rewrite ?app_nil_r; reflexivity.
  - cbn [forallb] in Hwf. apply andb_prop in Hwf as [Hd Hrest].
    apply andb_prop in Hd as [Hid Hvals]. unfold has_str_field in Hid.
    destruct (dict_get identifier d) as [[| | |s| |]|] eqn:Eid; try discriminate Hid.
    cbn [map collect_groups py_getitem]. rewrite Eid. cbn [obind].
    rewrite (requested_values_objects values d [] Hvals). cbn [obind].
    fold (picked values d).
    destruct (IH (group_append (py_lower s) (JObj (picked values d)) g) Hrest)
      as (g' & Hrun & Hget).
    exists g'. split; [exact Hrun|].
    intros k. rewrite Hget, group_get_append. unfold members. cbn [filter].
    rewrite Eid, (String.eqb_sym (py_lower s) k).
    destruct (String.eqb k (py_lower s)); [|reflexivity].
    cbn [map grown]. destruct (group_get k g); cbn [grown];
      rewrite <- ?app_assoc; reflexivity.
Qed.

(** X4: over response objects that all carry a string identifier and
    every requested value field, [get_all_identifiers_multiple] returns
    an object whose keys are the lower-cased identifiers; under each key
    it lists, in input order, the requested values of exactly the items
    whose identifier lower-cases to that key. *)
Theorem get_all_identifiers_multiple_groups (identifier : string)
    (values : list string) (ds : list dict) :
  forallb (fun d => has_str_field identifier d
                    && forallb (fun v => dict_has v d) values) ds = true ->
  exists fields,
    get_all_identifiers_multiple py_lower (JArr (map JObj ds)) identifier values
    = Ok (JObj fields)
    /\ forall k,
         dict_get k fields
         = match members py_lower identifier k ds with
           | [] => None
           | ms => Some (JArr (map (fun d => JObj (picked values d)) ms))
           end.
Proof.
  intros Hwf.
  destruct (collect_groups_objects identifier values ds [] Hwf) as (g & Hrun & Hget).
  exists (map (fun kl => (fst kl, JArr (snd kl))) g).
  unfold get_all_identifiers_multiple. cbn [is_none py_iter obind]. rewrite Hrun.
  split; [reflexivity|].
  intros k. rewrite groups_json_get, Hget. cbn [group_get grown].
  destruct (members py_lower identifier k ds); reflexivity.
Qed.

End Grouping.

Lemma get_all_identifiers_multiple_groups_witness :
  exists fields,
    get_all_identifiers_multiple MoreExamples.ascii_lower
      (JArr (map JObj MoreExamples.activities)) "name" ["uid"; "status"]
    = Ok (JObj fields)
    /\ dict_get "weight" fields
       = Some (JArr [JObj [("uid", JStr "A1"); ("status", JStr "Final")];
                     JObj [("uid", JStr "A3"); ("status", JStr "Draft")]]).
Proof.
  destruct (get_all_identifiers_multiple_groups MoreExamples.ascii_lower "name"
              ["uid"; "status"] MoreExamples.activities eq_refl)
    as (fields & Hrun & Hget).
  exists fields. split; [exact Hrun | exact (Hget "weight")].
Defined.

(** *** Synchronous helpers *)

Section SyncHelpers.

Variable path_join : list json -> string.
Variable py_repr : json -> string.
Variable content : response -> json.

(** X5: whatever the backend replies, [simple_delete] returns a boolean,
    true exactly when the status is outside 400..599; on a refusal it
    logs the raw text and counts an error without decoding the body. *)
Theorem simple_delete_reports (self : ApiBinding) (path : string)
    (simple_path : option string) (resp : response) (t : trace) :
  backend self t (delete_request path_join self path) = Some resp ->
  let key := match simple_path with None => path | Some p => p end in
  simple_delete path_join self path simple_path t
  = (Ok (JBool (requests_ok resp)),
     (t ++ EvRequest (delete_request path_join self path)
         :: (if requests_ok resp
             then [EvMetric (key ++ "--DELETE") 1;
                   EvLog Debug "DELETE %s %s" [JStr path; JStr "success"]]
             else [EvLog Debug "DELETE %s" [JStr path];
                   EvLog Warning (text resp) [];
                   EvMetric (key ++ "--ERROR") 1]))%list).
Proof.
  intros Hreply key. subst key. unfold simple_delete, delete_request in *. run_m.
  rewrite Hreply. destruct (requests_ok resp); rewrite <- !app_assoc; reflexivity.
Qed.

(** X6: [patch_to_api] addresses the object by [body["uid"]]: a body
    without uid raises before any request is made.  After a refusal it
    asks the error body for its keys, so an error body that is JSON but
    not an object raises AttributeError; an object whose message contains
    "already exists" gives None under the --AlreadyExists key. *)
Theorem patch_to_api_edges (self : ApiBinding) (sent : json) (path : string)
    (t : trace) :
  (forall e, py_getitem sent "uid" = Raise e ->
     patch_to_api path_join py_repr self sent path t = (Raise e, t))
  /\ (forall uid resp,
        py_getitem sent "uid" = Ok uid ->
        backend self t (patch_by_uid_request path_join self sent uid path) = Some resp ->
        requests_ok resp = false ->
        (forall l, body resp = PJson (JArr l) ->
           patch_to_api path_join py_repr self sent path t
           = (Raise AttributeError,
              (t ++ [EvRequest (patch_by_uid_request path_join self sent uid path);
                     EvLog Warning "Patch %s %s" [JStr path; JStr "error"]])%list))
        /\ (forall fields m,
              body resp = PJson (JObj fields) ->
              dict_get "message" fields = Some (JStr m) ->
              is_substring "already exists" m = true ->
              patch_to_api path_join py_repr self sent path t
              = (Ok JNull,
                 (t ++ [EvRequest (patch_by_uid_request path_join self sent uid path);
                        EvLog Warning "Patch %s %s" [JStr path; JStr "error"];
                        EvLog Warning m [];
                        EvMetric (path ++ "--AlreadyExists") 1])%list))).
Proof.
  split.
  - intros e He. unfold patch_to_api. rewrite He. reflexivity.
  - intros uid resp Huid Hreply Hfail. unfold patch_to_api, patch_by_uid_request in *.
    rewrite Huid. run_m. rewrite Hreply, Hfail. unfold requests_json. split.
    + intros l Hbody. rewrite Hbody. cbn [py_keys_contains].
      rewrite <- app_assoc. reflexivity.
    + intros fields m Hbody Hm Hsub. rewrite Hbody.
      cbn [py_keys_contains py_getitem]. unfold dict_has. rewrite Hm.
      cbn [py_contains]. rewrite Hsub. cbn [py_str]. rewrite <- !app_assoc. reflexivity.
Qed.

(** X7: [approve_item_names_and_attributes] asks for the attributes
    approval only after the names approval was accepted; it returns True
    exactly when both were accepted, and a refused names approval is the
    only request made. *)
Theorem names_then_attributes (self : ApiBinding) (uid url : string)
    (names : response) (t : trace) :
  backend self t (names_approval_request path_join self uid url) = Some names ->
  let run := approve_item_names_and_attributes path_join content self uid url t in
  let first := EvRequest (names_approval_request path_join self uid url) in
  let second := EvRequest (attributes_approval_request path_join self uid url) in
  (requests_ok names = false ->
   run = (Ok (JBool false),
          (t ++ [first;
                 EvLog Warning "Failed to approve names %s %s"
                   [JStr uid; content names]])%list))
  /\ (requests_ok names = true ->
      forall attributes,
        backend self (t ++ [first])%list
          (attributes_approval_request path_join self uid url) = Some attributes ->
        run = (Ok (JBool (requests_ok attributes)),
               (t ++ first :: second
                   :: (if requests_ok attributes then []
                       else [EvLog Warning "Failed to approve attributes %s %s"
                               [JStr uid; content attributes]]))%list)).
Proof.
  intros Hnames run first second. subst run first second.
  unfold approve_item_names_and_attributes, names_approval_request,
    attributes_approval_request in *.
  run_m. rewrite Hnames. split.
  - intros Hfail. rewrite Hfail. cbn [negb]. rewrite <- app_assoc. reflexivity.
  - intros Hok attributes Hattr. rewrite Hok. cbn [negb]. rewrite Hattr.
    destruct (requests_ok attributes); cbn [negb]; rewrite <- !app_assoc; reflexivity.
Qed.

End SyncHelpers.

Lemma simple_delete_reports_witness :
  simple_delete Examples.slash_join (Examples.refusing_binding 404 PText)
    "libraries" None []
  = (Ok (JBool false),
     [EvRequest (delete_request Examples.slash_join
                   (Examples.refusing_binding 404 PText) "libraries");
      EvLog Debug "DELETE %s" [JStr "libraries"];
      EvLog Warning "<html>Bad Gateway</html>" [];
      EvMetric "libraries--ERROR" 1]).
Proof.
  exact (simple_delete_reports Examples.slash_join (Examples.refusing_binding 404 PText)
           "libraries" None
           (mkResponse 404 PText "<html>Bad Gateway</html>" "Bad Gateway") [] eq_refl).
Defined.

Lemma patch_to_api_edges_witness :
  patch_to_api Examples.slash_join Examples.scalar_repr
    (Examples.refusing_binding 409 PText) (JObj [("name", JStr "Sponsor")])
    "libraries" []
  = (Raise KeyError, []).
Proof.
  exact (proj1 (patch_to_api_edges Examples.slash_join Examples.scalar_repr
                  (Examples.refusing_binding 409 PText) (JObj [("name", JStr "Sponsor")])
                  "libraries" [])
           KeyError eq_refl).
Defined.

Lemma names_then_attributes_witness :
  approve_item_names_and_attributes Examples.slash_join MoreExamples.raw_text
    (Examples.binding [] (Examples.json_reply 200 (JObj []))) "U1" "libraries" []
  = (Ok (JBool true),
     [EvRequest (names_approval_request Examples.slash_join
                   (Examples.binding [] (Examples.json_reply 200 (JObj [])))
                   "U1" "libraries");
      EvRequest (attributes_approval_request Examples.slash_join
                   (Examples.binding [] (Examples.json_reply 200 (JObj [])))
                   "U1" "libraries")]).
Proof.
  exact (proj2 (names_then_attributes Examples.slash_join MoreExamples.raw_text
                  (Examples.binding [] (Examples.json_reply 200 (JObj [])))
                  "U1" "libraries"
                  (Examples.json_reply 200 (JObj [])) [] eq_refl)
           eq_refl (Examples.json_reply 200 (JObj [])) eq_refl).
Defined.

(** *** Reading a listing *)

Lemma dict_get_set_kept (k k' : string) (v v' : json) (d : dict) :
  dict_get k d = Some v -> dict_has k' d = false ->
  dict_get k (dict_set k' v' d) = Some v.
Proof.
  intros Hk Hk'. rewrite dict_get_set_other; [exact Hk|].
  destruct (String.eqb k k') eqn:E; [|reflexivity].
  apply String.eqb_eq in E. subst k'. unfold dict_has in Hk'. rewrite Hk in Hk'.
  discriminate Hk'.
Qed.

Lemma default_page_params_keeps (p : dict) (k : string) (v : json) :
  dict_get k p = Some v -> dict_get k (default_page_params (Some p)) = Some v.
Proof.
  intros Hk. unfold default_page_params.
  destruct (dict_has "page_size" p) eqn:Es.
  - destruct (dict_has "page_number" p) eqn:En; [exact Hk|].
    apply dict_get_set_kept; assumption.
  - destruct (dict_has "page_number" (dict_set "page_size" (JNum 0) p)) eqn:En.
    + apply dict_get_set_kept; assumption.
    + apply dict_get_set_kept; [apply dict_get_set_kept; assumption | exact En].
Qed.

Lemma default_page_params_complete (params : option dict) :
  dict_has "page_number" (default_page_params params) = true
  /\ dict_has "page_size" (default_page_params params) = true.
Proof.
  unfold default_page_params. destruct params as [p|]; [|split; reflexivity].
  destruct (dict_has "page_size" p) eqn:Es.
  - destruct (dict_has "page_number" p) eqn:En; [split; assumption|].
    split; [unfold dict_has; rewrite dict_get_set_same; reflexivity|].
    apply dict_get_set_some. exact Es.
  - assert (Hs : dict_has "page_size" (dict_set "page_size" (JNum 0) p) = true)
      by (unfold dict_has; rewrite dict_get_set_same; reflexivity).
    destruct (dict_has "page_number" (dict_set "page_size" (JNum 0) p)) eqn:En;
      [split; assumption|].
    split; [unfold dict_has; rewrite dict_get_set_same; reflexivity|].
    apply dict_get_set_some. exact Hs.
Qed.

Section Listing.

Variable path_join : list json -> string.

(** A refusal that can be read ends [get_all_from_api] with None and one
    error line. *)
Lemma get_all_from_api_refused (self : ApiBinding) (path : string)
    (params : option dict) (items_only : bool) (resp : response) (t : trace) :
  backend self t (listing_request path_join self path params) = Some resp ->
  requests_ok resp = false ->
  readable_refusal resp ->
  exists line,
    get_all_from_api path_join self path params items_only t
    = (Ok JNull,
       (t ++ [EvRequest (listing_request path_join self path params); line])%list)
    /\ is_error_line line.
Proof.
  intros Hreply Hfail Hread. unfold get_all_from_api, listing_request in *. cbv zeta.
  unfold bind at 1, send at 1. rewrite Hreply, Hfail. unfold requests_json.
  destruct Hread as [[fields Hbody]|[Hbody|Hbody]]; rewrite Hbody; run_m;
    cbn [py_get is_exn];
    [destruct (dict_get "message" fields) as [m|]; [destruct (is_none m)|]|..];
    cbn [is_none negb]; eexists; rewrite <- app_assoc;
    (split; [reflexivity | eexists _, _; reflexivity]).
Qed.

(** X8: [get_all_from_api] makes exactly one request whatever the reply;
    its query parameters always hold page_number and page_size (1 and 0
    when the caller passes none) and keep every parameter the caller
    passed. *)
Theorem get_all_from_api_single_request (self : ApiBinding) (path : string)
    (params : option dict) (items_only : bool) (t : trace) :
  (exists o tail,
     get_all_from_api path_join self path params items_only t
     = (o, (t ++ EvRequest (listing_request path_join self path params) :: tail)%list)
     /\ Forall not_request tail)
  /\ param_of "page_number" (listing_request path_join self path params) <> None
  /\ param_of "page_size" (listing_request path_join self path params) <> None
  /\ (params = None ->
      rq_params (listing_request path_join self path params)
      = Some [("page_number", JNum 1); ("page_size", JNum 0)])
  /\ (forall p k v, params = Some p -> dict_get k p = Some v ->
        param_of k (listing_request path_join self path params) = Some v).
Proof.
  split; [|split; [|split; [|split]]].
  - unfold get_all_from_api, listing_request. cbv zeta.
    apply send_then. intros resp. repeat emits_step.
  - destruct (default_page_params_complete params) as [Hn _].
    unfold param_of, listing_request, dict_has in *. cbn [rq_params].
    destruct (dict_get "page_number" (default_page_params params)); discriminate.
  - destruct (default_page_params_complete params) as [_ Hs].
    unfold param_of, listing_request, dict_has in *. cbn [rq_params].
    destruct (dict_get "page_size" (default_page_params params)); discriminate.
  - intros ->. reflexivity.
  - intros p k v -> Hk. unfold param_of, listing_request. cbn [rq_params].
    apply default_page_params_keeps. exact Hk.
Qed.

(** X9: when the reply is a refusal whose body is a JSON object or does
    not decode, [get_all_from_api] returns None after one error line and
    counts nothing; an accepted reply that does not decode is handled the
    same way; a refusal whose body is a JSON array raises AttributeError. *)
Theorem get_all_from_api_failures (self : ApiBinding) (path : string)
    (params : option dict) (items_only : bool) (resp : response) (t : trace) :
  backend self t (listing_request path_join self path params) = Some resp ->
  let run := get_all_from_api path_join self path params items_only t in
  let sent := EvRequest (listing_request path_join self path params) in
  (requests_ok resp = false -> readable_refusal resp ->
   exists line, run = (Ok JNull, (t ++ [sent; line])%list) /\ is_error_line line)
  /\ (requests_ok resp = true -> body resp = PText \/ body resp = PMalformed ->
      run = (Ok JNull,
             (t ++ [sent;
                    EvLog Error "Failed to decode json for %s, data: %s"
                      [JStr path; JStr (text resp)]])%list))
  /\ (requests_ok resp = false -> forall l, body resp = PJson (JArr l) ->
      run = (Raise AttributeError, (t ++ [sent])%list)).
Proof.
  intros Hreply run sent. subst run sent. split; [|split].
  - intros Hfail Hread.
    exact (get_all_from_api_refused self path params items_only resp t Hreply Hfail Hread).
  - intros Hok Hbody. unfold get_all_from_api, listing_request in *. cbv zeta.
    unfold bind at 1, send at 1. rewrite Hreply, Hok. unfold requests_json.
    destruct Hbody as [Hbody|Hbody]; rewrite Hbody; run_m; cbn [is_exn];
      rewrite <- app_assoc; reflexivity.
  - intros Hfail l Hbody. unfold get_all_from_api, listing_request in *. cbv zeta.
    unfold bind at 1, send at 1. rewrite Hreply, Hfail. unfold requests_json.
    rewrite Hbody. run_m. cbn [py_get is_exn]. reflexivity.
Qed.

(** X10: when the request for the installed packages is refused,
    [check_for_ct_packages] neither logs a critical line nor exits: the
    None it gets back cannot be iterated and TypeError reaches the
    caller. *)
Theorem check_for_ct_packages_refused (self : ApiBinding) (resp : response)
    (t : trace) :
  backend self t (packages_request path_join self) = Some resp ->
  requests_ok resp = false ->
  readable_refusal resp ->
  exists line,
    check_for_ct_packages path_join self t
    = (Raise TypeError,
       (t ++ [EvRequest (packages_request path_join self); line])%list)
    /\ is_error_line line.
Proof.
  intros Hreply Hfail Hread.
  destruct (get_all_from_api_refused self "/ct/packages" None true resp t
              Hreply Hfail Hread) as (line & Hrun & Hline).
  exists line. split; [|exact Hline].
  unfold check_for_ct_packages. rewrite (bind_ok _ _ _ _ _ Hrun). reflexivity.
Qed.

Lemma listing_request_page (self : ApiBinding) (path : string) (params : option dict)
    (page_size k : Z) :
  listing_request path_join self path (Some (page_params_at params page_size k))
  = page_request path_join self path params page_size k.
Proof.
  unfold listing_request, page_request.
  destruct (page_params_at_has params page_size k) as [Hs Hn].
  rewrite (default_page_params_kept _ Hs Hn). reflexivity.
Qed.

(** X11: [get_all_from_api_paged] keeps no partial result: a refused
    first page makes it raise TypeError after that single request; a
    refused second page, after a first page that announced more items
    than one page holds and a page count that could be computed, makes it
    raise TypeError after two; and a page count that cannot be computed
    (a total too large for floating point) makes it raise that error
    after the first page. *)
Theorem paged_fetch_refused_page (self : ApiBinding) (path : string)
    (params : option dict) (items_only : bool) (page_size : Z) (fuel : nat)
    (first : response) (t : trace) :
  let opening :=
    EvLog Info "Fetching {path}, page size: {page_size}" [JStr path; JNum page_size] in
  let request := page_request path_join self path params page_size in
  let run :=
    get_all_from_api_paged path_join (S fuel) self path params items_only page_size t in
  backend self (t ++ [opening])%list (request 1) = Some first ->
  (requests_ok first = false -> readable_refusal first ->
   fst run = Raise TypeError
   /\ requests_in (snd run) = (requests_in t ++ [request 1])%list)
  /\ (requests_ok first = true ->
      forall fields items total,
        body first = PJson (JObj fields) ->
        dict_get "items" fields = Some (JArr items) ->
        dict_get "total" fields = Some (JNum total) ->
        (forall nbr_pages second,
           0 < page_size < total ->
           ceil_div total page_size = Ok nbr_pages ->
           backend self
             (t ++ [opening; EvRequest (request 1);
                    EvLog Info "Fetching {path}, page {page_number} of {nbr_pages}"
                      [JStr path; JNum 2; JNum nbr_pages]])%list
             (request 2) = Some second ->
           requests_ok second = false -> readable_refusal second ->
           fst run = Raise TypeError
           /\ requests_in (snd run) = (requests_in t ++ [request 1; request 2])%list)
        /\ (forall e,
              ceil_div total page_size = Raise e ->
              fst run = Raise e
              /\ requests_in (snd run) = (requests_in t ++ [request 1])%list)).
Proof.
  intros opening request run Hfirst.
  assert (Hmain :
            (requests_ok first = false -> readable_refusal first ->
             exists tr, run = (Raise TypeError, tr)
                        /\ requests_in tr = (requests_in t ++ [request 1])%list)
            /\ (requests_ok first = true ->
                forall fields items total,
                  body first = PJson (JObj fields) ->
                  dict_get "items" fields = Some (JArr items) ->
                  dict_get "total" fields = Some (JNum total) ->
                  (forall nbr_pages second,
                     0 < page_size < total ->
                     ceil_div total page_size = Ok nbr_pages ->
                     backend self
                       (t ++ [opening; EvRequest (request 1);
                              EvLog Info
                                "Fetching {path}, page {page_number} of {nbr_pages}"
                                [JStr path; JNum 2; JNum nbr_pages]])%list
                       (request 2) = Some second ->
                     requests_ok second = false -> readable_refusal second ->
                     exists tr, run = (Raise TypeError, tr)
                                /\ requests_in tr
                                   = (requests_in t ++ [request 1; request 2])%list)
                  /\ (forall e,
                        ceil_div total page_size = Raise e ->
                        exists tr, run = (Raise e, tr)
                                   /\ requests_in tr
                                      = (requests_in t ++ [request 1])%list))).
  { subst run request opening.
    unfold get_all_from_api_paged. cbv zeta.
    change (match params with
            | Some p => dict_update _ p
            | None => _
            end) with (first_page_params params page_size).
    change (first_page_params params page_size)
      with (page_params_at params page_size 1).
    rewrite bind_log. split.
    - intros Hfail Hread.
      rewrite <- (listing_request_page self path params page_size 1) in Hfirst.
      destruct (get_all_from_api_refused self path _ false first _ Hfirst Hfail Hread)
        as (line & Hrun & [fmt [args ->]]).
      rewrite (bind_ok _ _ _ _ _ Hrun). cbn [py_getitem]. rewrite bind_lift_raise.
      eexists. split; [reflexivity|].
      rewrite !requests_in_app, listing_request_page. cbn.
      rewrite ?app_nil_r, <- ?app_assoc. reflexivity.
    - intros Hok fields items total Hbody Hitems Htotal.
      rewrite (bind_ok _ _ _ _ _
                 (get_all_from_api_page path_join self path params page_size 1 first
                    fields items false _ Hfirst Hok Hbody Hitems)).
      cbn [py_getitem]. rewrite Hitems, Htotal. do 2 rewrite bind_lift_ok.
      cbn [py_int]. rewrite bind_lift_ok.
      split;
        [|intros e Hnbr; rewrite Hnbr, bind_lift_raise;
          eexists; split; [reflexivity|];
          rewrite !requests_in_app; cbn; rewrite ?app_nil_r; reflexivity].
      intros nbr_pages second Hsize Hnbr Hsecond Hfail Hread.
      rewrite Hnbr, bind_lift_ok. unfold bind at 1. cbn [paged_loop].
      replace (page_size * 1 <? total) with true by (symmetry; apply Z.ltb_lt; lia).
      cbv zeta. rewrite bind_log.
      assert (Hparams : dict_set "page_number" (JNum (1 + 1))
                          (dict_set "total_count" (JBool false)
                             (page_params_at params page_size 1))
                        = page_params_at params page_size 2) by reflexivity.
      rewrite Hparams. rewrite <- !app_assoc. cbn [app].
      rewrite <- (listing_request_page self path params page_size 2) in Hsecond.
      destruct (get_all_from_api_refused self path _ true second _ Hsecond Hfail Hread)
        as (line & Hrun & [fmt [args ->]]).
      rewrite (bind_ok _ _ _ _ _ Hrun). cbn [py_extend py_iter]. rewrite bind_lift_raise.
      eexists. split; [reflexivity|].
      rewrite !requests_in_app, listing_request_page. cbn.
      rewrite ?app_nil_r, <- ?app_assoc. reflexivity. }
  destruct Hmain as [Hone Htwo]. split.
  - intros Hfail Hread. destruct (Hone Hfail Hread) as (tr & -> & Hreq).
    split; [reflexivity | exact Hreq].
  - intros Hok fields items total Hbody Hitems Htotal.
    destruct (Htwo Hok fields items total Hbody Hitems Htotal) as [Hrefused Hcount].
    split.
    + intros nbr_pages second Hsize Hnbr Hsecond Hfail Hread.
      destruct (Hrefused nbr_pages second Hsize Hnbr Hsecond Hfail Hread)
        as (tr & -> & Hreq).
      split; [reflexivity | exact Hreq].
    + intros e Hnbr. destruct (Hcount e Hnbr) as (tr & -> & Hreq).
      split; [reflexivity | exact Hreq].
Qed.

End Listing.

Lemma bad_gateway_readable :
  readable_refusal (mkResponse 500 PText "<html>Bad Gateway</html>" "Bad Gateway").
Proof. right. left. reflexivity. Qed.

Lemma get_all_from_api_failures_witness :
  exists line,
    get_all_from_api Examples.slash_join (Examples.refusing_binding 500 PText)
      "libraries" None true []
    = (Ok JNull,
       [EvRequest (listing_request Examples.slash_join
                     (Examples.refusing_binding 500 PText) "libraries" None);
        line])
    /\ is_error_line line.
Proof.
  exact (proj1 (get_all_from_api_failures Examples.slash_join
                  (Examples.refusing_binding 500 PText) "libraries" None true
                  (mkResponse 500 PText "<html>Bad Gateway</html>" "Bad Gateway") []
                  eq_refl)
           eq_refl bad_gateway_readable).
Defined.

Lemma check_for_ct_packages_refused_witness :
  exists line,
    check_for_ct_packages Examples.slash_join
      (Examples.binding [] (mkResponse 500 PText "<html>Bad Gateway</html>" "Bad Gateway"))
      []
    = (Raise TypeError,
       [EvRequest (packages_request Examples.slash_join
                     (Examples.binding []
                        (mkResponse 500 PText "<html>Bad Gateway</html>" "Bad Gateway")));
        line])
    /\ is_error_line line.
Proof.
  exact (check_for_ct_packages_refused Examples.slash_join
           (Examples.binding [] (mkResponse 500 PText "<html>Bad Gateway</html>"
                                   "Bad Gateway"))
           (mkResponse 500 PText "<html>Bad Gateway</html>" "Bad Gateway") []
           eq_refl eq_refl bad_gateway_readable).
Defined.

Lemma paged_fetch_refused_page_witness :
  (fst (get_all_from_api_paged Examples.slash_join 1
          (Examples.refusing_binding 500 PText) "libraries" None true 1000 [])
   = Raise TypeError
   /\ requests_in
        (snd (get_all_from_api_paged Examples.slash_join 1
                (Examples.refusing_binding 500 PText) "libraries" None true 1000 []))
      = [page_request Examples.slash_join (Examples.refusing_binding 500 PText)
           "libraries" None 1000 1])
  /\ (fst (get_all_from_api_paged Examples.slash_join 1 Examples.crowded_binding
             "studies" None true 2 [])
      = Raise OverflowError
      /\ requests_in
           (snd (get_all_from_api_paged Examples.slash_join 1 Examples.crowded_binding
                   "studies" None true 2 []))
         = [page_request Examples.slash_join Examples.crowded_binding "studies"
              None 2 1]).
Proof.
  split.
  - exact (proj1 (paged_fetch_refused_page Examples.slash_join
                    (Examples.refusing_binding 500 PText) "libraries" None true 1000 0
                    (mkResponse 500 PText "<html>Bad Gateway</html>" "Bad Gateway") []
                    eq_refl)
             eq_refl bad_gateway_readable).
  - exact (proj2 (proj2 (paged_fetch_refused_page Examples.slash_join
                           Examples.crowded_binding "studies" None true 2 0
                           (Examples.json_reply 200
                              (JObj [("items", JArr (Examples.studies 1));
                                     ("total", JNum (10 ^ 400));
                                     ("page", JNum 1)])) []
                           eq_refl)
                    eq_refl _ _ (10 ^ 400) eq_refl eq_refl eq_refl)
             OverflowError eq_refl).
Defined.

Section PagedObject.

Variable path_join : list json -> string.


End PagedObject.


(** *** The tolerant paginated reader *)

Lemma activity_params_has (k : Z) (b : bool) (filters : option json) :
  dict_has "page_size" (activity_params k b filters) = true
  /\ dict_has "page_number" (activity_params k b filters) = true.
Proof.
  unfold activity_params. destruct filters as [f|]; [|split; reflexivity].
  destruct (py_truthy f); split; reflexivity.
Qed.

Section Activities.

Variable path_join : list json -> string.

Lemma listing_request_activity (self : ApiBinding) (object_type : string)
    (filters : option json) (k : Z) (b : bool) :
  b = (k =? 1) ->
  listing_request path_join self (activity_path object_type)
    (Some (activity_params k b filters))
  = activity_request path_join self object_type filters k.
Proof.
  intros ->. unfold listing_request, activity_request.
  destruct (activity_params_has k (k =? 1) filters) as [Hs Hn].
  rewrite (default_page_params_kept _ Hs Hn). reflexivity.
Qed.

(** One page of the reader: served, its items come back; refused, None. *)
Lemma activity_page (self : ApiBinding) (object_type : string) (filters : option json)
    (total n : Z) (answers : Z -> option (list json)) (k : Z) (t : trace) :
  serves_activities path_join self object_type filters total n answers ->
  2 <= k <= n ->
  exists t',
    get_all_from_api path_join self (activity_path object_type)
      (Some (activity_params k false filters)) true t
    = (Ok (match answers k with Some l => JArr l | None => JNull end), t')
    /\ requests_in t'
       = (requests_in t ++ [activity_request path_join self object_type filters k])%list.
Proof.
  intros Hserves Hk.
  destruct (Hserves t k ltac:(lia)) as (resp & Hreply & Hanswer).
  assert (Hflag : false = (k =? 1)) by (symmetry; apply Z.eqb_neq; lia).
  rewrite <- (listing_request_activity self object_type filters k false Hflag) in *.
  destruct (answers k) as [l|].
  - destruct Hanswer as (Hok & fields & Hbody & Hitems & _).
    unfold get_all_from_api, listing_request in *. cbv zeta.
    unfold bind at 1, send at 1. rewrite Hreply, Hok.
    unfold requests_json. rewrite Hbody. run_m.
    cbn [py_contains py_getitem is_exn andb]. unfold dict_has. rewrite Hitems.
    cbn [py_len]. eexists. split; [reflexivity|].
    rewrite !requests_in_app. cbn. rewrite ?app_nil_r. reflexivity.
  - destruct Hanswer as (Hfail & Hread).
    destruct (get_all_from_api_refused path_join self _ _ true resp t Hreply Hfail Hread)
      as (line & Hrun & [fmt [args ->]]).
    eexists. split; [exact Hrun|].
    rewrite !requests_in_app. cbn. rewrite ?app_nil_r. reflexivity.
Qed.

Lemma activity_loop_collects (self : ApiBinding) (object_type : string)
    (filters : option json) (total : Z) (answers : Z -> option (list json)) :
  serves_activities path_join self object_type filters total (last_page 100 total)
    answers ->
  forall (d : nat) (pn : Z) (acc : list json) (t : trace) (fuel : nat),
    1 <= pn <= last_page 100 total ->
    d = Z.to_nat (last_page 100 total - pn) ->
    (d <= fuel)%nat ->
    exists t',
      activity_loop path_join fuel self object_type filters total pn (JArr acc) t
      = (Ok (JArr (acc ++ List.concat (map (got answers) (zrange (pn + 1) d)))%list), t')
      /\ requests_in t'
         = (requests_in t
            ++ map (activity_request path_join self object_type filters)
                 (zrange (pn + 1) d))%list.
Proof.
  intros Hserves.
  induction d as [|d IH]; intros pn acc t fuel Hpn Hd Hfuel.
  - assert (Hstop : (100 * pn <? total) = false).
    { apply Z.ltb_ge.
      pose proof (continues_iff_before_last 100 total pn ltac:(lia) ltac:(lia)). lia. }
    exists t. destruct fuel; cbn [activity_loop]; rewrite Hstop; cbn;
      rewrite !app_nil_r; split; reflexivity.
  - assert (Hgo : (100 * pn <? total) = true).
    { apply Z.ltb_lt.
      apply (continues_iff_before_last 100 total pn ltac:(lia)); lia. }
    destruct fuel as [|fuel]; [lia|]. cbn [activity_loop]. rewrite Hgo. cbv zeta.
    rewrite bind_log.
    destruct (activity_page self object_type filters total _ answers (pn + 1)
                (t ++ [EvLog Info
                         "Getting {object_type} page_number:{page_number}, page_size:{page_size}, total:{count}"
                         [JStr object_type; JNum (pn + 1); JNum 100; JNum total]])%list
                Hserves ltac:(lia)) as (t1 & Hpage & Hreq1).
    rewrite (bind_ok _ _ _ _ _ Hpage).
    assert (Hstep :
              exists acc',
                (if py_truthy (match answers (pn + 1) with
                               | Some l => JArr l
                               | None => JNull
                               end)
                 then lift (py_iadd (JArr acc)
                              (match answers (pn + 1) with
                               | Some l => JArr l
                               | None => JNull
                               end))
                 else ret (JArr acc)) t1
                = (Ok (JArr acc'), t1)
                /\ acc' = (acc ++ got answers (pn + 1))%list).
    { unfold got. destruct (answers (pn + 1)) as [[|x l]|]; cbn;
        eexists; (split; [reflexivity|]); rewrite ?app_nil_r; reflexivity. }
    destruct Hstep as (acc' & Hacc & ->).
    rewrite (bind_ok _ _ _ _ _ Hacc).
    destruct (IH (pn + 1) (acc ++ got answers (pn + 1))%list t1 fuel
                ltac:(lia) ltac:(lia) ltac:(lia)) as (t' & Hrun & Hreq).
    exists t'. rewrite Hrun, Hreq, Hreq1, zrange_succ, requests_in_app.
    cbn [map List.concat requests_in flat_map app].
    rewrite <- !app_assoc. cbn [app]. split; reflexivity.
Qed.

(** X13: [get_all_activity_objects] fetches pages of 100 until the
    declared total is covered and tolerates refusals: when the first
    request is refused it returns the empty list after that one request;
    otherwise it requests every page once, in order, and returns the
    items of the pages that were served, skipping the refused ones. *)
Theorem get_all_activity_objects_tolerant (self : ApiBinding) (object_type : string)
    (filters : option json) (total : Z) (answers : Z -> option (list json))
    (fuel : nat) (t : trace) :
  let n := last_page 100 total in
  serves_activities path_join self object_type filters total n answers ->
  (Z.to_nat n <= S fuel)%nat ->
  let run := get_all_activity_objects path_join fuel self object_type filters t in
  let request := activity_request path_join self object_type filters in
  (answers 1 = None ->
   fst run = Ok (JArr [])
   /\ requests_in (snd run) = (requests_in t ++ [request 1])%list)
  /\ (answers 1 <> None ->
      fst run = Ok (JArr (List.concat (map (got answers) (zrange 1 (Z.to_nat n)))))
      /\ requests_in (snd run)
         = (requests_in t ++ map request (zrange 1 (Z.to_nat n)))%list).
Proof.
  intros n Hserves Hfuel run request.
  assert (Hn : 1 <= n) by (unfold n, last_page; lia).
  assert (Hsplit : Z.to_nat n = S (Z.to_nat (n - 1))) by lia.
  destruct (Hserves
              (t ++ [EvLog Info
                       "Getting {object_type} page_number:{page_number}, page_size:{page_size}"
                       [JStr object_type; JNum 1; JNum 100]])%list 1 ltac:(lia))
    as (resp & Hreply & Hanswer).
  rewrite <- (listing_request_activity self object_type filters 1 true eq_refl) in Hreply.
  assert (Hmain :
            exists tr,
              run = (Ok (JArr (match answers 1 with
                               | None => []
                               | Some _ =>
                                   List.concat
                                     (map (got answers) (zrange 1 (Z.to_nat n)))
                               end)), tr)
              /\ requests_in tr
                 = (requests_in t
                    ++ match answers 1 with
                       | None => [request 1]
                       | Some _ => map request (zrange 1 (Z.to_nat n))
                       end)%list).
  { subst run request. unfold get_all_activity_objects. cbv zeta. rewrite bind_log.
    destruct (answers 1) as [l1|] eqn:Efirst.
    - destruct Hanswer as (Hok & fields & Hbody & Hitems & Htotal).
      specialize (Htotal eq_refl).
      assert (Hfirst :
                get_all_from_api path_join self (activity_path object_type)
                  (Some (activity_params 1 true filters)) false
                  (t ++ [EvLog Info
                           "Getting {object_type} page_number:{page_number}, page_size:{page_size}"
                           [JStr object_type; JNum 1; JNum 100]])%list
                = (Ok (JObj fields),
                   ((t ++ [EvLog Info
                             "Getting {object_type} page_number:{page_number}, page_size:{page_size}"
                             [JStr object_type; JNum 1; JNum 100]])
                    ++ [EvRequest (listing_request path_join self
                                     (activity_path object_type)
                                     (Some (activity_params 1 true filters)))])%list)).
      { unfold get_all_from_api, listing_request in *. cbv zeta.
        unfold bind at 1, send at 1. rewrite Hreply, Hok.
        unfold requests_json. rewrite Hbody. run_m.
        cbn [py_contains is_exn]. rewrite andb_false_r. reflexivity. }
      rewrite (bind_ok _ _ _ _ _ Hfirst).
      assert (Htruthy : py_truthy (JObj fields) = true).
      { destruct fields; [discriminate Hitems | reflexivity]. }
      rewrite Htruthy. cbn [py_getitem]. rewrite Hitems, Htotal.
      rewrite bind_assoc, bind_lift_ok, bind_assoc, bind_lift_ok, bind_ret.
      cbn [fst snd py_int]. rewrite bind_lift_ok.
      match goal with
      | |- context [activity_loop _ _ _ _ _ _ _ _ ?tr] =>
          destruct (activity_loop_collects self object_type filters total answers
                      Hserves (Z.to_nat (n - 1)) 1 l1 tr fuel ltac:(lia) eq_refl
                      ltac:(lia)) as (t' & Hrun & Hreq)
      end.
      rewrite Hrun. exists t'. split.
      + rewrite Hsplit, zrange_succ. cbn [map List.concat]. unfold got at 2.
        rewrite Efirst. reflexivity.
      + rewrite Hreq, !requests_in_app, Hsplit, zrange_succ.
        rewrite listing_request_activity by reflexivity.
        cbn. rewrite ?app_nil_r, <- ?app_assoc. reflexivity.
    - destruct Hanswer as (Hfail & Hread).
      destruct (get_all_from_api_refused path_join self _ _ false resp _ Hreply Hfail
                  Hread) as (line & Hrun & [fmt [args ->]]).
      rewrite (bind_ok _ _ _ _ _ Hrun). cbn [py_truthy].
      rewrite bind_ret. cbn [fst snd py_int]. rewrite bind_lift_ok.
      eexists. split.
      + destruct fuel; cbn [activity_loop]; reflexivity.
      + rewrite !requests_in_app. rewrite listing_request_activity by reflexivity.
        cbn. rewrite ?app_nil_r, <- ?app_assoc. reflexivity. }
  destruct Hmain as (tr & -> & Hreq). cbn [fst snd]. split.
  - intros Hnone. rewrite Hnone in *. split; [reflexivity | exact Hreq].
  - intros Hsome. destruct (answers 1); [|contradiction Hsome; reflexivity].
    split; [reflexivity | exact Hreq].
Qed.

End Activities.

Lemma patchy_serves_activities :
  serves_activities Examples.slash_join MoreExamples.patchy_binding "activity-instances"
    None 250 3 MoreExamples.activity_answers.
Proof.
  intros tr k Hk.
  assert (Hcases : k = 1 \/ k = 2 \/ k = 3) by lia.
  destruct Hcases as [->|[->| ->]]; eexists; (split; [reflexivity|]); cbn.
  - split; [reflexivity|]. eexists. repeat split; reflexivity.
  - split; [reflexivity|]. left. eexists. reflexivity.
  - split; [reflexivity|]. eexists. repeat split; try reflexivity.
    intros H; discriminate H.
Qed.

Lemma get_all_activity_objects_tolerant_witness :
  fst (get_all_activity_objects Examples.slash_join 5 MoreExamples.patchy_binding
         "activity-instances" None [])
  = Ok (JArr [JStr "a"; JStr "c"])
  /\ map (param_of "page_number")
       (requests_in
          (snd (get_all_activity_objects Examples.slash_join 5
                  MoreExamples.patchy_binding "activity-instances" None [])))
     = [Some (JNum 1); Some (JNum 2); Some (JNum 3)].
Proof.
  pose proof (get_all_activity_objects_tolerant Examples.slash_join
                MoreExamples.patchy_binding "activity-instances" None 250
                MoreExamples.activity_answers 5 [] patchy_serves_activities
                ltac:(vm_compute; lia)) as H.
  cbv zeta in H. destruct H as [_ H].
  destruct (H ltac:(discriminate)) as [Hvalue Hrequests].
  split; [exact Hvalue|]. rewrite Hrequests. reflexivity.
Defined.

(** *** More on the two workflows *)

Lemma yields_ret {A} (P : A -> Prop) (a : A) : P a -> yields P (ret a).
Proof. intros HP t b H. injection H as <-. exact HP. Qed.

Lemma yields_bind {A B} (P : B -> Prop) (m : M A) (k : A -> M B) :
  (forall a, yields P (k a)) -> yields P (bind m k).
Proof.
  intros Hk t b. unfold bind. destruct (m t) as [[a|e|c|] t']; cbn [fst];
    try discriminate. apply Hk.
Qed.

Ltac yields_step :=
  match goal with
  | |- yields _ (bind _ _) => apply yields_bind; intros ?
  | |- yields _ (ret _) => apply yields_ret; reflexivity
  | |- yields _ (if ?c then _ else _) => destruct c
  end.

Section WorkflowEdges.

Variable path_join : list json -> string.
Variable py_repr : json -> string.

(** X14: when approval is not asked for, [post_then_approve] makes the
    post and nothing else: whatever the backend answers, no further
    request and no sleep follow it; an accepted post with an object body
    is handed back as it came. *)
Theorem post_then_approve_unasked (self : ApiBinding) (data path item : json)
    (t : trace) :
  py_getitem data "path" = Ok path ->
  py_getitem data "body" = Ok item ->
  let run := post_then_approve path_join py_repr self data false t in
  let opening := EvLog Debug "Post to {data['path']}" [path] in
  (exists tail,
     snd run = (t ++ opening :: EvRequest (post_request path_join self path item)
                  :: tail)%list
     /\ Forall calm tail)
  /\ (forall resp fields,
        backend self (t ++ [opening])%list (post_request path_join self path item)
        = Some resp ->
        status_code resp < 400 ->
        decoded resp = Ok (JObj fields) ->
        fst run = Ok (JObj fields)).
Proof.
  intros Hpath Hitem run opening. subst run opening. split.
  - unfold post_then_approve. rewrite Hpath, Hitem. do 4 step.
    unfold post_to_api_async. rewrite bind_assoc.
    match goal with
    | |- context [bind (send self ?r) ?k ?tr] =>
        destruct (send_then calm self r k tr) as (o & tail & Hrun & Hcalm)
    end.
    + intros resp. cbn [andb]. repeat emits_step.
    + exists tail. unfold post_request. rewrite Hrun. cbn [snd].
      rewrite <- app_assoc. split; [reflexivity | exact Hcalm].
  - intros resp fields Hreply Hstatus Hbody.
    unfold post_then_approve. rewrite Hpath, Hitem. do 4 step.
    unfold bind at 1.
    rewrite (post_to_api_async_reply path_join self path item resp _ Hreply), Hbody.
    cbn [obind fst snd].
    replace (400 <=? status_code resp) with false by (symmetry; apply Z.leb_gt; lia).
    cbn [py_get]. destruct (dict_get "uid" fields); reflexivity.
Qed.

(** X15: a post answered with a status of 400 or more ends the workflow,
    whether or not approval was asked for: it returns None after one
    request, with one error line naming the item by its name, else its
    term_uid, else the whole body, and quoting the reply's message, else
    the whole reply. *)
Theorem post_then_approve_refused_post (self : ApiBinding) (data path : json)
    (item fields : dict) (approve : bool) (resp : response) (t : trace) :
  py_getitem data "path" = Ok path ->
  py_getitem data "body" = Ok (JObj item) ->
  backend self (t ++ [EvLog Debug "Post to {data['path']}" [path]])%list
    (post_request path_join self path (JObj item)) = Some resp ->
  400 <= status_code resp ->
  decoded resp = Ok (JObj fields) ->
  post_then_approve path_join py_repr self data approve t
  = (Ok JNull,
     (t ++ [EvLog Debug "Post to {data['path']}" [path];
            EvRequest (post_request path_join self path (JObj item))]
        ++ post_decode_log path resp
        ++ [EvLog Error "Failed to post '{name}' to '{data['path']}', error: {errormsg}"
              [item_name py_repr item; path; refusal_message py_repr fields]])%list).
Proof.
  intros Hpath Hitem Hreply Hstatus Hbody.
  unfold post_then_approve. rewrite Hpath, Hitem. do 4 step.
  unfold bind at 1.
  rewrite (post_to_api_async_reply path_join self path (JObj item) resp _ Hreply), Hbody.
  cbn [obind fst snd].
  replace (400 <=? status_code resp) with true by (symmetry; apply Z.leb_le; lia).
  run_m. unfold failed_post_name, item_name, refusal_message, py_contains, py_getitem,
    dict_has.
  destruct (dict_get "message" fields) as [m|];
    destruct (dict_get "name" item) as [n|];
    try destruct (dict_get "term_uid" item) as [u|];
    run_m; rewrite <- ?app_assoc; cbn [app]; rewrite <- ?app_assoc; reflexivity.
Qed.

(** X16: when approval is not asked for, the version-then-patch workflow
    never returns anything but None: a patch that went through and one
    that was refused look the same to the caller. *)
Theorem new_version_unasked_returns_none (self : ApiBinding) (data : json)
    (t : trace) (v : json) :
  fst (new_version_patch_then_approve path_join py_repr self data false t) = Ok v ->
  v = JNull.
Proof.
  revert t v.
  change (yields (fun v => v = JNull)
            (new_version_patch_then_approve path_join py_repr self data false)).
  unfold new_version_patch_then_approve, patch_and_approve_steps.
  cbn [andb]. repeat yields_step.
Qed.

(** X17: with a log file in use, [post_to_api_async] appends one line
    for every JSON reply whose status is neither 200 nor 201, quoting the
    reply's message, else its detail; a reply that has neither raises
    KeyError after the request was made, although without a log file the
    same reply is returned to the caller. *)
Theorem post_to_api_async_logfile (self : ApiBinding) (url sent : json)
    (file : string) (fields : dict) (resp : response) (t : trace) :
  String.eqb file "" = false ->
  backend self t (post_request path_join self url sent) = Some resp ->
  body resp = PJson (JObj fields) ->
  let status := status_code resp in
  let request := EvRequest (post_request path_join self url sent) in
  let line m :=
    EvFileAppend file
      "Failed to post to '{url}', status: {status}, message: {message}, body: {body}\n"
      [url; JNum status; m; sent] in
  post_to_api_async path_join self url sent (Some file) t
  = (if (status =? 200) || (status =? 201)
     then (Ok (status, JObj fields), (t ++ [request])%list)
     else match dict_get "message" fields, dict_get "detail" fields with
          | Some m, _ => (Ok (status, JObj fields), (t ++ [request; line m])%list)
          | None, Some d => (Ok (status, JObj fields), (t ++ [request; line d])%list)
          | None, None => (Raise KeyError, (t ++ [request])%list)
          end)
  /\ post_to_api_async path_join self url sent None t
     = (Ok (status, JObj fields), (t ++ [request])%list).
Proof.
  intros Hfile Hreply Hbody status request line. subst status request line.
  unfold post_to_api_async, post_request, aiohttp_json in *.
  run_m. rewrite Hreply, Hbody, Hfile. cbn [negb andb]. split; [|reflexivity].
  destruct ((status_code resp =? 200) || (status_code resp =? 201)); cbn [negb];
    [reflexivity|].
  unfold py_contains, py_getitem, dict_has.
  destruct (dict_get "message" fields) as [m|];
    [rewrite <- app_assoc; reflexivity|].
  destruct (dict_get "detail" fields) as [d|];
    [rewrite <- app_assoc; reflexivity | reflexivity].
Qed.

(** An approval answered below 400 with a JSON body is counted as
    approved. *)
Lemma approve_item_async_accepted (self : ApiBinding) (uid url result : json)
    (resp : response) (t : trace) :
  backend self t (approval_request path_join self url uid) = Some resp ->
  status_code resp < 400 ->
  body resp = PJson result ->
  approve_item_async path_join py_repr self uid url t
  = (Ok (status_code resp, result),
     (t ++ [EvRequest (approval_request path_join self url uid);
            EvMetric (rq_url (approval_request path_join self url uid) ++ "--Approve")
              1])%list).
Proof.
  intros Hreply Hstatus Hbody.
  unfold approve_item_async, approval_request, aiohttp_json, aiohttp_ok in *.
  run_m. rewrite Hreply.
  replace (status_code resp <? 400) with true by (symmetry; apply Z.ltb_lt; lia).
  rewrite Hbody. cbn [negb rq_url]. rewrite <- app_assoc. reflexivity.
Qed.

(** X18: the approval step and the workflow around it disagree on what
    an accepted approval is.  An approval answered with a status below
    400 but outside 200..299 is counted under the --Approve key, and the
    version-then-patch workflow then logs that the approval failed; the
    patch response is returned all the same. *)
Theorem approval_counted_then_blamed (self : ApiBinding)
    (data new_path patch_path item approve_path patched uid result : json)
    (vresp presp aresp : response) (t : trace) :
  py_getitem data "new_path" = Ok new_path ->
  py_getitem data "patch_path" = Ok patch_path ->
  py_getitem data "body" = Ok item ->
  py_getitem data "approve_path" = Ok approve_path ->
  backend self t (new_version_request path_join self new_path) = Some vresp ->
  version_passes py_repr vresp ->
  let t2 :=
    (t ++ EvRequest (new_version_request path_join self new_path)
       :: version_decode_log new_path vresp
       ++ (if status_ok (status_code vresp) then [] else [draft_warning]))%list in
  backend self t2 (patch_request path_join self patch_path item) = Some presp ->
  body presp = PJson patched ->
  status_ok (status_code presp) = true ->
  py_get patched "uid" = Ok uid ->
  is_none uid = false ->
  let t3 :=
    (t2 ++ [EvRequest (patch_request path_join self patch_path item); the_sleep])%list in
  backend self t3 (approval_request path_join self approve_path uid) = Some aresp ->
  body aresp = PJson result ->
  status_code aresp < 400 ->
  status_ok (status_code aresp) = false ->
  new_version_patch_then_approve path_join py_repr self data true t
  = (Ok patched,
     (t3 ++ [EvRequest (approval_request path_join self approve_path uid);
             EvMetric (rq_url (approval_request path_join self approve_path uid)
                       ++ "--Approve") 1;
             EvLog Error "Failed to approve the new version of: {uid}" [uid]])%list).
Proof.
  intros Hnew Hpatch Hitem Happrove Hvreply Hpass t2 Hpreply Hpbody Hpok
    Huid Hsome t3 Hareply Habody Hbelow Hnot.
  unfold new_version_patch_then_approve.
  rewrite (bind_ok _ _ _ _ _
             (new_version_step_passes path_join py_repr self data new_path vresp t
                Hnew Hvreply Hpass)).
  cbn [negb]. fold t2.
  unfold patch_and_approve_steps. rewrite Hpatch, Hitem, Happrove. do 2 step.
  unfold bind at 1.
  rewrite (patch_to_api_async_reply path_join self patch_path item presp t2 Hpreply).
  unfold decoded, patch_decode_log, decode_log. rewrite Hpbody.
  cbn [obind fst snd]. cbv zeta. cbn [fst snd]. rewrite Hpok. cbn [negb].
  rewrite Huid. step. rewrite Hsome. cbn [andb negb]. do 3 step.
  rewrite <- !app_assoc. cbn [app].
  assert (Ht3 : (t2 ++ [EvRequest (patch_request path_join self patch_path item);
                        EvSleep (fst SLEEP_BEFORE_APPROVE) (snd SLEEP_BEFORE_APPROVE)])%list
                = t3) by reflexivity.
  rewrite Ht3.
  rewrite (bind_ok _ _ _ _ _
             (approve_item_async_accepted self uid approve_path result aresp t3
                Hareply Hbelow Habody)).
  cbn [fst snd]. rewrite Hnot. cbn [negb]. step. unfold ret.
  rewrite <- !app_assoc. reflexivity.
Qed.

End WorkflowEdges.

Lemma post_then_approve_unasked_witness :
  fst (post_then_approve Examples.slash_join Examples.scalar_repr
         (Examples.creating_binding (JObj [("uid", JStr "U1")]))
         Examples.template_item false [])
  = Ok (JObj [("uid", JStr "U1")]).
Proof.
  exact (proj2 (post_then_approve_unasked Examples.slash_join Examples.scalar_repr
                  (Examples.creating_binding (JObj [("uid", JStr "U1")]))
                  Examples.template_item (JStr "objective-templates")
                  (JObj [("name", JStr "X")]) [] eq_refl eq_refl)
           (Examples.json_reply 201 (JObj [("uid", JStr "U1")]))
           [("uid", JStr "U1")] eq_refl eq_refl eq_refl).
Defined.

Lemma post_then_approve_refused_post_witness :
  post_then_approve Examples.slash_join Examples.scalar_repr
    (Examples.binding [] (Examples.json_reply 409 (JObj Examples.conflict)))
    Examples.template_item true []
  = (Ok JNull,
     [EvLog Debug "Post to {data['path']}" [JStr "objective-templates"];
      EvRequest (post_request Examples.slash_join
                   (Examples.binding [] (Examples.json_reply 409 (JObj Examples.conflict)))
                   (JStr "objective-templates") (JObj [("name", JStr "X")]));
      EvLog Error "Failed to post '{name}' to '{data['path']}', error: {errormsg}"
        [JStr "X"; JStr "objective-templates"; JStr "Library already exists"]]).
Proof.
  exact (post_then_approve_refused_post Examples.slash_join Examples.scalar_repr
           (Examples.binding [] (Examples.json_reply 409 (JObj Examples.conflict)))
           Examples.template_item (JStr "objective-templates")
           [("name", JStr "X")] Examples.conflict true
           (Examples.json_reply 409 (JObj Examples.conflict)) []
           eq_refl eq_refl eq_refl ltac:(discriminate) eq_refl).
Defined.

Lemma new_version_unasked_returns_none_witness :
  match fst (new_version_patch_then_approve Examples.slash_join Examples.scalar_repr
               (Examples.revising_binding (Examples.json_reply 201 (JObj []))
                  Examples.t1_patched Examples.t1_approved)
               Examples.revision_item false [])
  with
  | Ok v => v = JNull
  | _ => False
  end.
Proof.
  exact (new_version_unasked_returns_none Examples.slash_join Examples.scalar_repr
           (Examples.revising_binding (Examples.json_reply 201 (JObj []))
              Examples.t1_patched Examples.t1_approved)
           Examples.revision_item [] JNull eq_refl).
Defined.

Lemma post_to_api_async_logfile_witness :
  post_to_api_async Examples.slash_join
    (Examples.binding [] (Examples.json_reply 422 (JObj [("errors", JArr [])])))
    (JStr "objective-templates") (JObj [("name", JStr "X")]) (Some "failed.log") []
  = (Raise KeyError,
     [EvRequest (post_request Examples.slash_join
                   (Examples.binding []
                      (Examples.json_reply 422 (JObj [("errors", JArr [])])))
                   (JStr "objective-templates") (JObj [("name", JStr "X")]))]).
Proof.
  exact (proj1 (post_to_api_async_logfile Examples.slash_join
                  (Examples.binding []
                     (Examples.json_reply 422 (JObj [("errors", JArr [])])))
                  (JStr "objective-templates") (JObj [("name", JStr "X")])
                  "failed.log" [("errors", JArr [])]
                  (Examples.json_reply 422 (JObj [("errors", JArr [])])) []
                  eq_refl eq_refl eq_refl)).
Defined.

Lemma approval_counted_then_blamed_witness :
  new_version_patch_then_approve Examples.slash_join Examples.scalar_repr
    (Examples.revising_binding (Examples.json_reply 201 (JObj []))
       Examples.t1_patched (Examples.json_reply 304 (JObj [])))
    Examples.revision_item true []
  = (Ok (JObj [("uid", JStr "T1")]),
     [EvRequest (new_version_request Examples.slash_join
                   (Examples.revising_binding (Examples.json_reply 201 (JObj []))
                      Examples.t1_patched (Examples.json_reply 304 (JObj [])))
                   (JStr "objective-templates/T1/versions"));
      EvRequest (patch_request Examples.slash_join
                   (Examples.revising_binding (Examples.json_reply 201 (JObj []))
                      Examples.t1_patched (Examples.json_reply 304 (JObj [])))
                   (JStr "objective-templates/T1") (JObj [("name", JStr "Y")]));
      the_sleep;
      EvRequest (approval_request Examples.slash_join
                   (Examples.revising_binding (Examples.json_reply 201 (JObj []))
                      Examples.t1_patched (Examples.json_reply 304 (JObj [])))
                   (JStr "objective-templates") (JStr "T1"));
      EvMetric "http://api/objective-templates/T1/approvals--Approve" 1;
      EvLog Error "Failed to approve the new version of: {uid}" [JStr "T1"]]).
Proof.
  exact (approval_counted_then_blamed Examples.slash_join Examples.scalar_repr
           (Examples.revising_binding (Examples.json_reply 201 (JObj []))
              Examples.t1_patched (Examples.json_reply 304 (JObj [])))
           Examples.revision_item (JStr "objective-templates/T1/versions")
           (JStr "objective-templates/T1") (JObj [("name", JStr "Y")])
           (JStr "objective-templates") (JObj [("uid", JStr "T1")])
           (JStr "T1") (JObj []) (Examples.json_reply 201 (JObj [])) Examples.t1_patched
           (Examples.json_reply 304 (JObj [])) []
           eq_refl eq_refl eq_refl eq_refl eq_refl
           (or_introl (conj eq_refl
              (fun H : PJson (JObj []) = PMalformed =>
                 eq_ind (PJson (JObj []))
                   (fun p => match p with PJson _ => True | _ => False end)
                   I PMalformed H)))
           eq_refl eq_refl eq_refl eq_refl eq_refl eq_refl eq_refl eq_refl eq_refl).
Defined.

(** *** The admission limiter never blocks a batch *)

Module GateProgress.
Import Gate GateNotions.

Lemma list_sum_step (a : nat) (l : list nat) :
  list_sum (a :: l) = (a + list_sum l)%nat.
Proof. reflexivity. Qed.

Lemma sum_set_nth (f : task -> nat) (t' : task) :
  forall (ts : list task) (i : nat) (t : task),
    nth_error ts i = Some t ->
    (list_sum (map f (set_nth i t' ts)) + f t = list_sum (map f ts) + f t')%nat.
Proof.
  induction ts as [|x rest IH]; intros i t H.
  - destruct i; discriminate H.
  - destruct i as [|j]; cbn [nth_error] in H.
    + injection H as ->. cbn [set_nth map]. rewrite !list_sum_step. lia.
    + cbn [set_nth map]. rewrite !list_sum_step. specialize (IH j t H). lia.
Qed.

Lemma step_remaining (s s' : state) (i : nat) :
  step s i = Some s' -> (remaining s' + 1 = remaining s)%nat.
Proof.
  unfold step, remaining. intros Hstep.
  destruct (nth_error (tasks s) i) as [t|] eqn:Hnth; [|discriminate Hstep].
  destruct t as [[o|] rest]; cbn [in_flight todo] in Hstep.
  - injection Hstep as <-. cbn [tasks].
    pose proof (sum_set_nth remaining_of (mkTask None rest) _ _ _ Hnth) as Hs.
    change (remaining_of (mkTask (Some o) rest))
      with (1 + 2 * List.length rest)%nat in Hs.
    change (remaining_of (mkTask None rest)) with (2 * List.length rest)%nat in Hs.
    lia.
  - destruct rest as [|o rest']; [discriminate Hstep|].
    pose proof (sum_set_nth remaining_of (mkTask (Some o) rest') _ _ _ Hnth) as Hs.
    change (remaining_of (mkTask (Some o) rest'))
      with (1 + 2 * List.length rest')%nat in Hs.
    change (remaining_of (mkTask None (o :: rest')))
      with (2 * S (List.length rest'))%nat in Hs.
    destruct (gated o).
    + destruct (sem_value s); [discriminate Hstep|].
      injection Hstep as <-. cbn [tasks]. lia.
    + injection Hstep as <-. cbn [tasks]. lia.
Qed.

Lemma idle_holds_nothing (ts : list task) :
  existsb is_outstanding ts = false -> filter holds_slot ts = [].
Proof.
  induction ts as [|t rest IH]; [reflexivity|].
  cbn [existsb filter]. intros H. apply orb_false_iff in H. destruct H as [Ht Hrest].
  unfold holds_slot. unfold is_outstanding in Ht.
  destruct (in_flight t); [discriminate Ht|]. exact (IH Hrest).
Qed.

Lemma balanced_progress (s : state) :
  balanced s -> existsb unfinished (tasks s) = true -> exists i s', step s i = Some s'.
Proof.
  intros Hbal Hwork.
  destruct (existsb is_outstanding (tasks s)) eqn:Hbusy.
  - apply existsb_exists in Hbusy. destruct Hbusy as (t & Hin & Hout).
    destruct (In_nth_error _ _ Hin) as (i & Hnth).
    exists i. unfold step. rewrite Hnth. unfold is_outstanding in Hout.
    destruct (in_flight t); [|discriminate Hout]. eexists. reflexivity.
  - apply existsb_exists in Hwork. destruct Hwork as (t & Hin & Hun).
    destruct (In_nth_error _ _ Hin) as (i & Hnth).
    assert (Hidle : is_outstanding t = false).
    { destruct (is_outstanding t) eqn:Ht; [|reflexivity].
      assert (Hex : existsb is_outstanding (tasks s) = true)
        by (apply existsb_exists; exists t; split; assumption).
      rewrite Hex in Hbusy. discriminate Hbusy. }
    unfold unfinished in Hun. rewrite Hidle in Hun. cbn [orb] in Hun.
    unfold balanced, slots_held in Hbal.
    rewrite (idle_holds_nothing _ Hbusy) in Hbal. cbn [List.length] in Hbal.
    exists i. unfold step. rewrite Hnth. unfold is_outstanding in Hidle.
    destruct (in_flight t); [discriminate Hidle|].
    destruct (todo t) as [|o rest]; [discriminate Hun|].
    destruct (gated o); [|eexists; reflexivity].
    destruct (sem_value s) as [|v]; [discriminate Hbal|]. eexists. reflexivity.
Qed.

(** X19: the limiter cannot deadlock a batch: in every state a batch of
    workflows can reach, as long as some task is unfinished the scheduler
    has a task it can resume. *)
Theorem limiter_never_deadlocks (workflows : list (list op)) (schedule : list nat)
    (s : state) :
  run (start workflows) schedule = Some s ->
  existsb unfinished (tasks s) = true ->
  exists i s', step s i = Some s'.
Proof.
  intros Hrun Hwork.
  exact (balanced_progress s
           (GateFacts.run_balanced schedule _ _ Hrun (GateFacts.start_balanced workflows))
           Hwork).
Qed.

Lemma limiter_never_deadlocks_witness :
  exists i s',
    step (mkState 0 (repeat (mkTask (Some PostToApi) [ApproveItem]) 8
                       ++ [mkTask None post_then_approve_ops])) i
    = Some s'.
Proof.
  exact (limiter_never_deadlocks (repeat post_then_approve_ops 9)
           [0; 1; 2; 3; 4; 5; 6; 7]%nat _ eq_refl eq_refl).
Defined.

Lemma run_remaining (schedule : list nat) :
  forall s s', run s schedule = Some s' ->
    (List.length schedule + remaining s' = remaining s)%nat.
Proof.
  induction schedule as [|i rest IH]; intros s s' Hrun; cbn [run] in Hrun.
  - injection Hrun as <-. reflexivity.
  - destruct (step s i) as [s1|] eqn:Hstep; [|discriminate Hrun].
    pose proof (step_remaining _ _ _ Hstep). specialize (IH s1 s' Hrun).
    cbn [List.length]. lia.
Qed.

Lemma start_remaining (workflows : list (list op)) :
  remaining (start workflows) = (2 * List.length (List.concat workflows))%nat.
Proof.
  unfold remaining, start. cbn [tasks].
  induction workflows as [|w rest IH]; [reflexivity|].
  cbn [map List.concat]. rewrite list_sum_step, IH, length_app.
  unfold remaining_of. cbn [is_outstanding in_flight todo]. lia.
Qed.

(** X20: every scheduler step is one send or one receive, and a slot
    taken is always given back.  After any schedule the steps made plus
    the steps still needed are twice the number of requests of the batch,
    free slots plus posts in flight are 8, and once no task is unfinished
    all 8 slots are free again. *)
Theorem limiter_accounts (workflows : list (list op)) (schedule : list nat)
    (s : state) :
  run (start workflows) schedule = Some s ->
  (List.length schedule + remaining s = 2 * List.length (List.concat workflows))%nat
  /\ (sem_value s + slots_held s = ceiling)%nat
  /\ (existsb unfinished (tasks s) = false ->
      sem_value s = ceiling
      /\ List.length schedule = (2 * List.length (List.concat workflows))%nat).
Proof.
  intros Hrun.
  pose proof (run_remaining schedule _ _ Hrun) as Hrem.
  rewrite start_remaining in Hrem.
  pose proof (GateFacts.run_balanced schedule _ _ Hrun
                (GateFacts.start_balanced workflows)) as Hbal.
  split; [exact Hrem|]. split; [exact Hbal|].
  intros Hdone.
  assert (Hzero : forall ts, existsb unfinished ts = false ->
            filter holds_slot ts = [] /\ list_sum (map remaining_of ts) = 0%nat).
  { induction ts as [|t rest IH]; [split; reflexivity|].
    cbn [existsb filter map]. rewrite list_sum_step. intros H.
    apply orb_false_iff in H. destruct H as [Ht Hrest].
    unfold unfinished in Ht. apply orb_false_iff in Ht. destruct Ht as [Hidle Hnone].
    destruct (IH Hrest) as [Hf Hs]. rewrite Hs, Hf.
    unfold holds_slot, remaining_of. unfold is_outstanding in *.
    destruct (in_flight t); [discriminate Hidle|].
    destruct (todo t); [|discriminate Hnone].
    split; reflexivity. }
  destruct (Hzero _ Hdone) as [Hfree Hnone].
  unfold balanced, slots_held in Hbal. rewrite Hfree in Hbal. cbn [List.length] in Hbal.
  unfold remaining in Hrem. rewrite Hnone in Hrem. split; lia.
Qed.

Lemma limiter_accounts_witness :
  exists s,
    run (start [post_then_approve_ops; new_version_patch_then_approve_ops])
        [0; 1; 1; 0; 1; 0; 1; 0; 1; 1]%nat = Some s
    /\ sem_value s = ceiling
    /\ existsb unfinished (tasks s) = false.
Proof.
  eexists. split; [reflexivity|]. split; [|reflexivity].
  exact (proj1 (proj2 (proj2 (limiter_accounts
                  [post_then_approve_ops; new_version_patch_then_approve_ops]
                  [0; 1; 1; 0; 1; 0; 1; 0; 1; 1]%nat _ eq_refl)) eq_refl)).
Defined.

End GateProgress.

(** *** The readers *)

Lemma keyed_by_identifier_map (identifier value : string) (items : list json) :
  forall acc,
    keyed_by (fun res => py_getitem res identifier) (fun res => py_getitem res value)
      items acc
    = identifier_map items identifier value acc.
Proof.
  induction items as [|x rest IH]; intros acc; [reflexivity|].
  cbn [keyed_by identifier_map].
  destruct (py_getitem x value) as [v| | |]; cbn [obind]; try reflexivity.
  destruct (py_getitem x identifier) as [k| | |]; cbn [obind]; try reflexivity.
  destruct (hashable k); [apply IH | reflexivity].
Qed.

Lemma keyed_by_items_by_identifier (identifier : string) (items : list json) :
  forall acc,
    keyed_by (fun res => py_getitem res identifier) (fun res => Ok res) items acc
    = items_by_identifier items identifier acc.
Proof.
  induction items as [|x rest IH]; intros acc; [reflexivity|].
  cbn [keyed_by items_by_identifier obind].
  destruct (py_getitem x identifier) as [k| | |]; cbn [obind]; try reflexivity.
  destruct (hashable k); [apply IH | reflexivity].
Qed.

Ltac refused_by H :=
  unfold raises_after_one_request, checked_json, raise_for_status; run_m;
  match goal with
  | |- context [backend ?s ?t ?r] =>
      let resp := fresh "resp" in
      let Hr := fresh "Hr" in
      let Hs := fresh "Hs" in
      destruct (H t r) as (resp & Hr & Hs); rewrite Hr, Hs
  end;
  eexists; reflexivity.

Section Readers.

Variable path_join : list json -> string.
Variable py_repr : json -> string.
Variable json_dumps : json -> string.

(** X21: the eight readers that insist on success share one failure
    behaviour, unlike [get_all_from_api]: against a backend that answers
    4xx or 5xx each of them raises the HTTP error to its caller after a
    single request, without reading the body. *)
Theorem strict_readers_raise (self : ApiBinding) (t : trace) :
  refuses_everything self ->
  (forall name, raises_after_one_request (get_terms_for_codelist_name path_join self name) t)
  /\ (forall uid, raises_after_one_request (get_terms_for_codelist_uid path_join self uid) t)
  /\ (forall filters,
        raises_after_one_request (get_filtered_terms json_dumps self filters) t)
  /\ (forall concept catalogue code,
        raises_after_one_request
          (lookup_terms_from_concept_id json_dumps self concept catalogue code) t)
  /\ raises_after_one_request (get_code_lists_uids path_join self) t
  /\ (forall study,
        raises_after_one_request (get_study_objectives_for_study path_join self study) t)
  /\ (forall path, raises_after_one_request (get_templates_as_dict path_join self path) t)
  /\ (forall path, raises_after_one_request (get_studies_as_dict path_join self path) t).
Proof.
  intros Hrefuses.
  split; [intros name; unfold get_terms_for_codelist_name; refused_by Hrefuses|].
  split; [intros uid; unfold get_terms_for_codelist_uid; refused_by Hrefuses|].
  split; [intros filters; unfold get_filtered_terms; refused_by Hrefuses|].
  split; [intros concept catalogue code; unfold lookup_terms_from_concept_id;
          refused_by Hrefuses|].
  split; [unfold get_code_lists_uids; refused_by Hrefuses|].
  split; [intros study; unfold get_study_objectives_for_study; refused_by Hrefuses|].
  split; [intros path; unfold get_templates_as_dict; refused_by Hrefuses|].
  intros path; unfold get_studies_as_dict; refused_by Hrefuses.
Qed.

(** X22: [get_templates_as_dict] takes the listing as a bare list or as
    an object with the list under [items]; either way it makes one
    request and returns what [response_to_dict] builds from that list
    with [name] as the identifier. *)
Theorem get_templates_as_dict_shapes (self : ApiBinding) (path : string)
    (resp : response) (l : list json) (t : trace) :
  backend self t (listing_request path_join self path None) = Some resp ->
  raises_for_status resp = false ->
  body resp = PJson (JArr l)
  \/ (exists fields,
        body resp = PJson (JObj fields) /\ dict_get "items" fields = Some (JArr l)) ->
  get_templates_as_dict path_join self path t
  = (response_to_dict (JArr l) "name",
     (t ++ [EvRequest (listing_request path_join self path None)])%list).
Proof.
  intros Hreply Hstatus Hshape.
  unfold get_templates_as_dict, listing_request, checked_json, raise_for_status,
    requests_json, response_to_dict in *.
  cbn [default_page_params] in Hreply. run_m. rewrite Hreply, Hstatus.
  cbn [is_none py_iter].
  destruct Hshape as [Hbody|(fields & Hbody & Hitems)]; rewrite Hbody.
  - cbn [py_iter]. rewrite keyed_by_items_by_identifier. reflexivity.
  - cbn [py_getitem]. rewrite Hitems. cbn [py_iter].
    rewrite keyed_by_items_by_identifier. reflexivity.
Qed.

(** X23: on an accepted listing [get_code_lists_uids] returns a mapping
    exactly when [get_all_identifiers], in mapping mode from [name] to
    [codelist_uid], returns it for the listed items. *)
Theorem get_code_lists_uids_as_identifiers (self : ApiBinding) (resp : response)
    (fields : dict) (l : list json) (t : trace) :
  backend self t (codelist_names_request path_join self) = Some resp ->
  raises_for_status resp = false ->
  body resp = PJson (JObj fields) ->
  dict_get "items" fields = Some (JArr l) ->
  forall m,
    fst (get_code_lists_uids path_join self t) = Ok m
    <-> get_all_identifiers (JArr l) "name" (Some "codelist_uid") = Ok (IdMap m).
Proof.
  intros Hreply Hstatus Hbody Hitems m.
  unfold get_code_lists_uids, codelist_names_request, checked_json, raise_for_status,
    requests_json, get_all_identifiers in *.
  run_m. rewrite Hreply, Hstatus, Hbody. cbn [py_getitem is_none py_iter].
  rewrite Hitems. cbn [py_iter]. rewrite keyed_by_identifier_map.
  destruct (identifier_map l "name" "codelist_uid" []) as [m'| | |]; cbn [fst obind];
    split; intros H; try discriminate H; injection H as <-; reflexivity.
Qed.

(** X24: [find_object_by_key] decodes the reply only when it was
    accepted: a refusal gives None whatever the body is, an accepted
    listing gives its first item, or None when it has no items. *)
Theorem find_object_by_key_first (self : ApiBinding) (name path key : string)
    (resp : response) (t : trace) :
  backend self t (lookup_request path_join self name path key) = Some resp ->
  let run := find_object_by_key path_join self name path key t in
  let after := (t ++ [EvRequest (lookup_request path_join self name path key)])%list in
  (requests_ok resp = false -> run = (Ok JNull, after))
  /\ (requests_ok resp = true ->
      forall fields l,
        body resp = PJson (JObj fields) ->
        dict_get "items" fields = Some (JArr l) ->
        run = (Ok (hd JNull l), after)).
Proof.
  intros Hreply run after. subst run after.
  unfold find_object_by_key, lookup_request, requests_json in *. run_m.
  rewrite Hreply. split.
  - intros Hfail. rewrite Hfail. reflexivity.
  - intros Hok fields l Hbody Hitems. rewrite Hok, Hbody. cbn [py_getitem].
    rewrite Hitems. cbn [py_len]. destruct l as [|x rest]; reflexivity.
Qed.

(** X25: a codelist name listed in [CODELIST_NAME_MAP] is looked up by
    the uid listed for it: [get_terms_for_codelist_name] then behaves as
    [get_terms_for_codelist_uid] on that uid. *)
Theorem listed_codelist_by_uid (self : ApiBinding) (name uid : string) (t : trace) :
  codelist_uid_of name CODELIST_NAME_MAP = Some uid ->
  get_terms_for_codelist_name path_join self name t
  = get_terms_for_codelist_uid path_join self uid t.
Proof.
  intros Hlisted. unfold get_terms_for_codelist_name, get_terms_for_codelist_uid.
  rewrite Hlisted. reflexivity.
Qed.

(** X26: [approve_async] makes its request and counts nothing: whatever
    the backend answers, all that follows the request on the trace is
    log lines, so no metric is counted and no further request is made. *)
Theorem approve_async_counts_nothing (self : ApiBinding) (url : json) (t : trace) :
  exists o tail,
    approve_async path_join py_repr self url t
    = (o, (t ++ EvRequest (approve_request path_join self url) :: tail)%list)
    /\ Forall is_log_line tail.
Proof.
  unfold approve_async, approve_request. cbv zeta.
  apply send_then. intros resp. repeat emits_step.
Qed.

(** X27: a refused [simple_patch] whose error body carries a text
    message is filed by that message: "already exists" first, then
    "does not exist", else as a plain error with the reply text; the
    caller gets None each time. *)
Theorem simple_patch_classifies (self : ApiBinding) (sent : json) (url path m : string)
    (fields : dict) (resp : response) (t : trace) :
  backend self t (simple_patch_request path_join self sent url) = Some resp ->
  requests_ok resp = false ->
  body resp = PJson (JObj fields) ->
  dict_get "message" fields = Some (JStr m) ->
  simple_patch path_join self sent url path t
  = (Ok JNull,
     (t ++ [EvRequest (simple_patch_request path_join self sent url);
            EvLog Warning "Patch %s %s"
              [JStr url; JStr (fst (simple_patch_rules m (text resp)))];
            EvMetric (path ++ snd (simple_patch_rules m (text resp))) 1])%list).
Proof.
  intros Hreply Hfail Hbody Hm.
  unfold simple_patch, simple_patch_request, requests_json, simple_patch_rules in *.
  run_m. rewrite Hreply, Hfail, Hbody. cbn [py_keys_contains py_getitem].
  unfold dict_has. rewrite Hm. cbn [py_contains].
  destruct (is_substring "already exists" m); cbn [fst snd];
    [rewrite <- !app_assoc; reflexivity|].
  destruct (is_substring "does not exist" m); cbn [fst snd];
    rewrite <- !app_assoc; reflexivity.
Qed.

(** X28: [post_to_api] reads [object["body"]] and [object["path"]] for
    its debug line even when the caller passes the body and the path
    itself.  With an [object] that has no body the request is made, an
    accepted one is counted under the path without its digit characters
    (those of [str.isdigit], superscript digits included), and the call
    then raises instead of returning the reply. *)
Theorem post_to_api_explicit_path_reads_object (self : ApiBinding) (object sent : json)
    (path : string) (e : exn) (resp : response) (t : trace) :
  py_getitem object "body" = Raise e ->
  backend self t (explicit_post_request path_join self (JStr path) (Some sent))
  = Some resp ->
  post_to_api path_join self object (Some sent) (Some (JStr path)) t
  = (Raise e,
     (t ++ EvRequest (explicit_post_request path_join self (JStr path) (Some sent))
         :: (if requests_ok resp
             then [EvMetric (strip_digits path ++ "--POST") 1]
             else []))%list).
Proof.
  intros Hobject Hreply.
  unfold post_to_api, post_to_api_debug, explicit_post_request in *.
  rewrite Hobject.
  cbv beta iota zeta delta
    [bind ret lift emit log icrement send obind fst snd].
  rewrite Hreply. cbn [py_iter]. rewrite join_non_digits_chars.
  destruct (requests_ok resp); rewrite <- ?app_assoc; reflexivity.
Qed.

(** X29: the three synchronous approval helpers report a refusal
    through their return value and never raise on one: against a backend
    that answers 4xx or 5xx, [approve_item] returns None and
    [simple_approve] and [simple_approve2] return False, each after a
    single request and without decoding the body. *)
Theorem sync_approvals_on_refusal (content : response -> json) (self : ApiBinding)
    (t : trace) :
  refuses_everything self ->
  (forall uid url,
     answers_after_one_request (approve_item path_join content self uid url) t JNull)
  /\ (forall path,
        answers_after_one_request (simple_approve path_join self path) t (JBool false))
  /\ (forall url path label,
        answers_after_one_request (simple_approve2 path_join self url path label) t
          (JBool false)).
Proof.
  intros Hrefuses. unfold answers_after_one_request.
  split; [|split]; intros; unfold approve_item, simple_approve, simple_approve2,
    requests_ok; run_m;
    match goal with
    | |- context [backend ?s ?tr ?r] =>
        destruct (Hrefuses tr r) as (resp & Hr & Hs); rewrite Hr, Hs
    end;
    cbn [negb]; rewrite <- ?app_assoc; cbn [app]; eexists _, _;
    (split; [reflexivity|]); repeat constructor.
Qed.

(** X30: [find_dictionary_item_uid_from_name] gives None for a refusal
    and for an accepted listing without items, and otherwise the
    [term_uid] of the first item; a first item without that field raises
    KeyError. *)
Theorem find_dictionary_item_uid_first (self : ApiBinding) (dict_uid name : string)
    (resp : response) (t : trace) :
  backend self t (term_lookup_request path_join json_dumps self dict_uid name)
  = Some resp ->
  let run := find_dictionary_item_uid_from_name path_join json_dumps self dict_uid name t in
  let after :=
    (t ++ [EvRequest (term_lookup_request path_join json_dumps self dict_uid name)])%list in
  (requests_ok resp = false -> run = (Ok JNull, after))
  /\ (requests_ok resp = true ->
      forall fields l,
        body resp = PJson (JObj fields) ->
        dict_get "items" fields = Some (JArr l) ->
        run = (match l with
               | [] => Ok JNull
               | first :: _ => py_getitem first "term_uid"
               end, after)).
Proof.
  intros Hreply run after. subst run after.
  unfold find_dictionary_item_uid_from_name, term_lookup_request, requests_json in *.
  run_m. rewrite Hreply. split.
  - intros Hfail. rewrite Hfail. reflexivity.
  - intros Hok fields l Hbody Hitems. rewrite Hok, Hbody. cbn [py_getitem].
    rewrite Hitems. cbn [py_len]. destruct l as [|x rest]; [reflexivity|].
    cbn [List.length Z.ltb Z.of_nat Z.compare py_first].
    destruct (py_getitem x "term_uid"); reflexivity.
Qed.

End Readers.

Lemma unavailable_refuses : refuses_everything ReaderExamples.unavailable.
Proof. intros tr r. eexists. split; reflexivity. Qed.

Lemma strict_readers_raise_witness :
  raises_after_one_request
    (get_code_lists_uids Examples.slash_join ReaderExamples.unavailable) [].
Proof.
  exact (proj1 (proj2 (proj2 (proj2 (proj2
           (strict_readers_raise Examples.slash_join (fun _ => "{}")
              ReaderExamples.unavailable [] unavailable_refuses)))))).
Defined.

Lemma get_templates_as_dict_shapes_witness :
  get_templates_as_dict Examples.slash_join ReaderExamples.templates_binding
    "objective-templates" []
  = (Ok [(JStr "A", ReaderExamples.template_a); (JStr "B", ReaderExamples.template_b)],
     [EvRequest (listing_request Examples.slash_join ReaderExamples.templates_binding
                   "objective-templates" None)]).
Proof.
  exact (get_templates_as_dict_shapes Examples.slash_join
           ReaderExamples.templates_binding "objective-templates"
           (Examples.json_reply 200
              (JObj [("items", JArr [ReaderExamples.template_a;
                                     ReaderExamples.template_b]);
                     ("total", JNum 2)]))
           [ReaderExamples.template_a; ReaderExamples.template_b] []
           eq_refl eq_refl (or_intror (ex_intro _ _ (conj eq_refl eq_refl)))).
Defined.

Lemma get_code_lists_uids_as_identifiers_witness :
  fst (get_code_lists_uids Examples.slash_join ReaderExamples.templates_binding [])
  = Ok [(JStr "Sex", JStr "C66731")].
Proof.
  exact (proj2 (get_code_lists_uids_as_identifiers Examples.slash_join
                  ReaderExamples.templates_binding
                  (Examples.json_reply 200
                     (JObj [("items",
                             JArr [JObj [("name", JStr "Sex");
                                         ("codelist_uid", JStr "C66731")]])]))
                  _ _ [] eq_refl eq_refl eq_refl eq_refl
                  [(JStr "Sex", JStr "C66731")])
           eq_refl).
Defined.

Lemma find_object_by_key_first_witness :
  find_object_by_key Examples.slash_join ReaderExamples.templates_binding
    "A" "objective-templates" "name" []
  = (Ok ReaderExamples.template_a,
     [EvRequest (lookup_request Examples.slash_join ReaderExamples.templates_binding
                   "A" "objective-templates" "name")]).
Proof.
  exact (proj2 (find_object_by_key_first Examples.slash_join
                  ReaderExamples.templates_binding "A" "objective-templates" "name"
                  (Examples.json_reply 200
                     (JObj [("items", JArr [ReaderExamples.template_a;
                                            ReaderExamples.template_b]);
                            ("total", JNum 2)])) [] eq_refl)
           eq_refl _ _ eq_refl eq_refl).
Defined.

Lemma listed_codelist_by_uid_witness :
  get_terms_for_codelist_name Examples.slash_join ReaderExamples.unavailable
    "Trial Phase" []
  = get_terms_for_codelist_uid Examples.slash_join ReaderExamples.unavailable
      "C66737" [].
Proof.
  exact (listed_codelist_by_uid Examples.slash_join ReaderExamples.unavailable
           "Trial Phase" "C66737" [] eq_refl).
Defined.

Lemma simple_patch_classifies_witness :
  simple_patch Examples.slash_join
    (Examples.binding []
       (mkResponse 404 (PJson (JObj [("message", JStr "Template T9 does not exist")]))
          "{...}" "Not Found"))
    (JObj [("name", JStr "Y")]) "objective-templates/T9" "objective-templates" []
  = (Ok JNull,
     [EvRequest (simple_patch_request Examples.slash_join
                   (Examples.binding []
                      (mkResponse 404
                         (PJson (JObj [("message", JStr "Template T9 does not exist")]))
                         "{...}" "Not Found"))
                   (JObj [("name", JStr "Y")]) "objective-templates/T9");
      EvLog Warning "Patch %s %s"
        [JStr "objective-templates/T9"; JStr "error, item not found"];
      EvMetric "objective-templates--NotFound" 1]).
Proof.
  exact (simple_patch_classifies Examples.slash_join
           (Examples.binding []
              (mkResponse 404
                 (PJson (JObj [("message", JStr "Template T9 does not exist")]))
                 "{...}" "Not Found"))
           (JObj [("name", JStr "Y")]) "objective-templates/T9" "objective-templates"
           "Template T9 does not exist" _
           (mkResponse 404
              (PJson (JObj [("message", JStr "Template T9 does not exist")]))
              "{...}" "Not Found") []
           eq_refl eq_refl eq_refl eq_refl).
Defined.

Lemma post_to_api_explicit_path_reads_object_witness :
  post_to_api Examples.slash_join
    (Examples.binding [] (Examples.json_reply 201 (JObj [("uid", JStr "U1")])))
    JNull (Some (JObj [("name", JStr "X")])) (Some (JStr ReaderExamples.squared_path)) []
  = (Raise TypeError,
     [EvRequest (explicit_post_request Examples.slash_join
                   (Examples.binding []
                      (Examples.json_reply 201 (JObj [("uid", JStr "U1")])))
                   (JStr ReaderExamples.squared_path)
                   (Some (JObj [("name", JStr "X")])));
      EvMetric "dose-m/--POST" 1]).
Proof.
  exact (post_to_api_explicit_path_reads_object Examples.slash_join
           (Examples.binding [] (Examples.json_reply 201 (JObj [("uid", JStr "U1")])))
           JNull (JObj [("name", JStr "X")]) ReaderExamples.squared_path TypeError
           (Examples.json_reply 201 (JObj [("uid", JStr "U1")])) []
           eq_refl eq_refl).
Defined.

Lemma sync_approvals_on_refusal_witness :
  answers_after_one_request
    (simple_approve Examples.slash_join ReaderExamples.unavailable
       "objective-templates/T1/approvals") [] (JBool false).
Proof.
  exact (proj1 (proj2 (sync_approvals_on_refusal Examples.slash_join
                         MoreExamples.raw_text ReaderExamples.unavailable []
                         unavailable_refuses))
           "objective-templates/T1/approvals").
Defined.

Lemma find_dictionary_item_uid_first_witness :
  find_dictionary_item_uid_from_name Examples.slash_join (fun _ => "{}")
    (Examples.binding []
       (Examples.json_reply 200
          (JObj [("items", JArr [JObj [("term_uid", JStr "D1"); ("name", JStr "Aspirin")]])])))
    "SNOMED" "Aspirin" []
  = (Ok (JStr "D1"),
     [EvRequest (term_lookup_request Examples.slash_join (fun _ => "{}")
                   (Examples.binding []
                      (Examples.json_reply 200
                         (JObj [("items",
                                 JArr [JObj [("term_uid", JStr "D1");
                                             ("name", JStr "Aspirin")]])])))
                   "SNOMED" "Aspirin")]).
Proof.
  exact (proj2 (find_dictionary_item_uid_first Examples.slash_join (fun _ => "{}")
                  (Examples.binding []
                     (Examples.json_reply 200
                        (JObj [("items",
                                JArr [JObj [("term_uid", JStr "D1");
                                            ("name", JStr "Aspirin")]])])))
                  "SNOMED" "Aspirin"
                  (Examples.json_reply 200
                     (JObj [("items",
                             JArr [JObj [("term_uid", JStr "D1");
                                         ("name", JStr "Aspirin")]])])) [] eq_refl)
           eq_refl _ _ eq_refl eq_refl).
Defined.
